(** * weather-aggregator: the aggregation engine, the cache, the coordinator
      and the resilient fetcher, embedded in Rocq

    The development follows the Go sources:
    - [internal/models]     records exchanged between the components;
    - [internal/services]   [calculateConfidence], [aggregateCurrentWeather],
                            [aggregateForecast], the [WeatherCache] and the
                            [Aggregator] that coordinates one fetch cycle;
    - [pkg/client]          [BaseClient.doGetWithRetry] and the settings of
                            the circuit breaker built by [NewBaseClient].

    Conventions of the embedding.
    - [float64] is idealised as exact rational arithmetic ([Q]); equalities
      between floats are therefore stated with [==].  Rounding, infinities
      and NaN are outside the model: the adapters fill the readings from
      JSON numbers, which are finite.
    - [time.Time] is an instant counted from Go's zero [Time]; instants
      before the zero [Time] exist in Go (for example
      [time.Unix(-62135596801, 0)]) and are the negative numbers here.
      [time.Duration] is a number of nanoseconds.
    - Go maps are [gmap]s.  A [range] over a map visits the entries in an
      unspecified order; every loop is written over the list of entries and
      the map functions run it on [map_to_list]; the lemmas about the loops
      are proved for every list.
    - A pointer that may be nil is an [option].  The snapshot maps only
      ever receive non-nil pointers (the coordinator tests them before the
      store), so their values are the records themselves.
    - The mutexes protect each operation as a whole; operations are modelled
      as atomic state transformers. *)

From Stdlib Require Import ZArith QArith Qminmax Qpower Qround Lia Lqa.
From stdpp Require Import base option list gmap strings.

Open Scope Z_scope.

(** ** Go base types *)

Abbreviation float64 := Q (only parsing).
Abbreviation Time := Z (only parsing).
Abbreviation Duration := Z (only parsing).

Definition zeroTime : Time := 0.

(** [t.After(u)], [t.Before(u)] and [t.Add(d)] of package [time]. *)
Definition After (t u : Time) : bool := u <? t.
Definition Before (t u : Time) : bool := t <? u.
Definition Add (t : Time) (d : Duration) : Time := t + d.

(** Strict comparisons of floats, as booleans. *)
Definition Qgtb (a b : Q) : bool := negb (Qle_bool a b).
Definition Qltb (a b : Q) : bool := negb (Qle_bool b a).

(** [float64(n)] for an [int] that is a length. *)
Definition float_of_len (n : nat) : float64 := inject_Z (Z.of_nat n).

(** Go [error] values.  [Errorf fmt args] is [fmt.Errorf(fmt, args...)];
    an [AErr] argument is the error wrapped by [%w] (possibly nil). *)
Inductive error : Type :=
| Errorf (format : string) (args : list fmt_arg)
| ContextCanceled
| ContextDeadlineExceeded
| External (description : string)
with fmt_arg : Type :=
| AStr (s : string)
| AInt (n : Z)
| AErr (e : option error).

(** [ctx.Err()] of a context that is done: [context.Canceled] or
    [context.DeadlineExceeded]. *)
Inductive context_error : Type :=
| Canceled
| DeadlineExceeded.

Definition ctx_Err (e : context_error) : error :=
  match e with
  | Canceled => ContextCanceled
  | DeadlineExceeded => ContextDeadlineExceeded
  end.

(** The outcome of running a piece of Go code that may panic. *)
Inductive exec (A : Type) : Type :=
| Done (a : A)
| Panic (reason : string).
Arguments Done {A} a.
Arguments Panic {A} reason.

Definition exec_bind {A B} (x : exec A) (f : A -> exec B) : exec B :=
  match x with
  | Done a => f a
  | Panic r => Panic r
  end.

(** [s[:n]] on a slice whose capacity is its length. *)
Definition slice_to {A} (s : list A) (n : Z) : exec (list A) :=
  if (0 <=? n) && (n <=? Z.of_nat (length s))
  then Done (firstn (Z.to_nat n) s)
  else Panic "slice bounds out of range".

(** ** internal/models *)

Record CurrentWeather := {
  cw_City : string;
  cw_Temperature : float64;
  cw_FeelsLike : float64;
  cw_Humidity : float64;
  cw_Pressure : float64;
  cw_WindSpeed : float64;
  cw_WindDegree : float64;
  cw_Description : string;
  cw_Icon : string;
  cw_Timestamp : Time;
  cw_Source : string
}.

Record ForecastDay := {
  fd_Date : Time;
  fd_MaxTemp : float64;
  fd_MinTemp : float64;
  fd_AvgTemp : float64;
  fd_Humidity : float64;
  fd_Description : string;
  fd_Icon : string;
  fd_Precipitation : float64
}.

Record WeatherForecast := {
  wf_City : string;
  wf_Forecast : list ForecastDay;
  wf_Source : string
}.

Record AggregatedCurrentWeather := {
  acw_City : string;
  acw_Temperature : float64;
  acw_FeelsLike : float64;
  acw_Humidity : float64;
  acw_Pressure : float64;
  acw_WindSpeed : float64;
  acw_Description : string;
  acw_Icon : string;
  acw_LastUpdated : Time;
  acw_Sources : list string;
  acw_Confidence : float64
}.

Record AggregatedForecast := {
  af_City : string;
  af_Days : list ForecastDay;
  af_LastUpdated : Time;
  af_Sources : list string
}.

Record APIResponse := {
  resp_Current : option CurrentWeather;
  resp_Forecast : option WeatherForecast;
  resp_Error : option error;
  resp_Source : string
}.

Record WeatherData := {
  wd_City : string;
  wd_Current : gmap string CurrentWeather;
  wd_Forecasts : gmap string WeatherForecast;
  wd_Timestamp : Time
}.

(** The zero value of [ForecastDay], as left by [make([]ForecastDay, n)]. *)
Definition zeroForecastDay : ForecastDay :=
  {| fd_Date := zeroTime; fd_MaxTemp := 0%Q; fd_MinTemp := 0%Q;
     fd_AvgTemp := 0%Q; fd_Humidity := 0%Q; fd_Description := "";
     fd_Icon := ""; fd_Precipitation := 0%Q |}.

(** ** internal/services: the aggregation engine *)

(** [calculateConfidence], on the readings in the order [range] visits them. *)
Definition calculateConfidence_entries (entries : list (string * CurrentWeather)) : float64 :=
  if (length entries <=? 1)%nat then 0.5%Q
  else
    let temps := fold_left (fun temps e => temps ++ [cw_Temperature (snd e)]) entries [] in
    let mean := fold_left (fun mean temp => (mean + temp)%Q) temps 0%Q in
    let mean := (mean / float_of_len (length temps))%Q in
    let variance :=
      fold_left (fun variance temp =>
                   let diff := (temp - mean)%Q in (variance + diff * diff)%Q)
                temps 0%Q in
    let variance := (variance / float_of_len (length temps))%Q in
    let normalizedVariance := (variance / 25)%Q in
    let normalizedVariance :=
      if Qgtb normalizedVariance 1 then 1%Q else normalizedVariance in
    let confidence := (1 - normalizedVariance)%Q in
    let sourceBoost := (inject_Z (Z.of_nat (length entries) - 1) * 0.1)%Q in
    let confidence := (confidence + sourceBoost)%Q in
    let confidence := if Qgtb confidence 1 then 1%Q else confidence in
    let confidence := if Qltb confidence 0 then 0%Q else confidence in
    confidence.

Definition calculateConfidence (currentWeather : gmap string CurrentWeather) : float64 :=
  calculateConfidence_entries (map_to_list currentWeather).

(** [mostCommonString]: count the occurrences, then keep the first string
    met with a strictly larger count. *)
Definition count_strings (strs : list string) : gmap string nat :=
  fold_left (fun counts s => <[s := S (default 0%nat (counts !! s))]> counts) strs ∅.

Definition mostCommonString (strs : list string) : string :=
  fst (fold_left
         (fun (best : string * nat) (e : string * nat) =>
            if (snd best <? snd e)%nat then e else best)
         (map_to_list (count_strings strs)) ("", 0%nat)).

(** The variables of the loop of [aggregateCurrentWeather]. *)
Record current_acc := {
  totalTemp : float64;
  totalFeelsLike : float64;
  totalHumidity : float64;
  totalPressure : float64;
  totalWindSpeed : float64;
  descriptions : list string;
  sources : list string;
  latestTimestamp : Time
}.

Definition current_acc_init : current_acc :=
  {| totalTemp := 0%Q; totalFeelsLike := 0%Q; totalHumidity := 0%Q;
     totalPressure := 0%Q; totalWindSpeed := 0%Q; descriptions := [];
     sources := []; latestTimestamp := zeroTime |}.

(** One iteration of [for source, weather := range data.Current]. *)
Definition current_step (acc : current_acc) (e : string * CurrentWeather) : current_acc :=
  let source := fst e in
  let weather := snd e in
  {| totalTemp := (totalTemp acc + cw_Temperature weather)%Q;
     totalFeelsLike := (totalFeelsLike acc + cw_FeelsLike weather)%Q;
     totalHumidity := (totalHumidity acc + cw_Humidity weather)%Q;
     totalPressure := (totalPressure acc + cw_Pressure weather)%Q;
     totalWindSpeed := (totalWindSpeed acc + cw_WindSpeed weather)%Q;
     descriptions := descriptions acc ++ [cw_Description weather];
     sources := sources acc ++ [source];
     latestTimestamp :=
       if After (cw_Timestamp weather) (latestTimestamp acc)
       then cw_Timestamp weather else latestTimestamp acc |}.

(** [aggregateCurrentWeather]; the result is [None] for the nil pointer. *)
Definition aggregateCurrentWeather_entries
    (city : string) (entries : list (string * CurrentWeather))
  : option AggregatedCurrentWeather :=
  if (length entries =? 0)%nat then None
  else
    let acc := fold_left current_step entries current_acc_init in
    let count := float_of_len (length entries) in
    let confidence := calculateConfidence_entries entries in
    let description := mostCommonString (descriptions acc) in
    let icon := match entries with
                | [] => ""
                | e :: _ => cw_Icon (snd e)
                end in
    Some {| acw_City := city;
            acw_Temperature := (totalTemp acc / count)%Q;
            acw_FeelsLike := (totalFeelsLike acc / count)%Q;
            acw_Humidity := (totalHumidity acc / count)%Q;
            acw_Pressure := (totalPressure acc / count)%Q;
            acw_WindSpeed := (totalWindSpeed acc / count)%Q;
            acw_Description := description;
            acw_Icon := icon;
            acw_LastUpdated := latestTimestamp acc;
            acw_Sources := sources acc;
            acw_Confidence := confidence |}.

Definition aggregateCurrentWeather (data : WeatherData) : option AggregatedCurrentWeather :=
  aggregateCurrentWeather_entries (wd_City data) (map_to_list (wd_Current data)).

(** The first loop of [aggregateForecast]: keep the providers with at least
    [days] entries, cut to the first [days]. *)
Definition collect_step (days : Z)
    (acc : exec (list (list ForecastDay) * list string))
    (e : string * WeatherForecast)
  : exec (list (list ForecastDay) * list string) :=
  exec_bind acc (fun '(allForecasts, srcs) =>
    if Z.of_nat (length (wf_Forecast (snd e))) >=? days
    then exec_bind (slice_to (wf_Forecast (snd e)) days) (fun cut =>
           Done (allForecasts ++ [cut], srcs ++ [fst e]))
    else Done (allForecasts, srcs)).

(** The variables of the inner loop of [aggregateForecast], for one day. *)
Record day_acc := {
  totalMaxTemp : float64;
  totalMinTemp : float64;
  totalAvgTemp : float64;
  dayTotalHumidity : float64;
  totalPrecipitation : float64;
  dayDescriptions : list string;
  date : Time;
  dayCount : nat
}.

Definition day_acc_init : day_acc :=
  {| totalMaxTemp := 0%Q; totalMinTemp := 0%Q; totalAvgTemp := 0%Q;
     dayTotalHumidity := 0%Q; totalPrecipitation := 0%Q;
     dayDescriptions := []; date := zeroTime; dayCount := 0%nat |}.

(** One iteration of [for _, forecast := range allForecasts]. *)
Definition day_step (day : nat) (acc : day_acc) (forecast : list ForecastDay) : day_acc :=
  match forecast !! day with
  | Some dayForecast =>
      {| totalMaxTemp := (totalMaxTemp acc + fd_MaxTemp dayForecast)%Q;
         totalMinTemp := (totalMinTemp acc + fd_MinTemp dayForecast)%Q;
         totalAvgTemp := (totalAvgTemp acc + fd_AvgTemp dayForecast)%Q;
         dayTotalHumidity := (dayTotalHumidity acc + fd_Humidity dayForecast)%Q;
         totalPrecipitation := (totalPrecipitation acc + fd_Precipitation dayForecast)%Q;
         dayDescriptions := dayDescriptions acc ++ [fd_Description dayForecast];
         date := fd_Date dayForecast;
         dayCount := S (dayCount acc) |}
  | None => acc
  end.

(** The record stored in [aggregatedDays[day]].  [allForecasts[0][day]] is
    in range whenever this record is built: every collected slice has
    [days] entries and [day < days]. *)
Definition merged_day (allForecasts : list (list ForecastDay)) (day : nat)
    (acc : day_acc) : ForecastDay :=
  let dayCountFloat := float_of_len (dayCount acc) in
  let icon := match allForecasts with
              | first :: _ => default "" (fd_Icon <$> first !! day)
              | [] => ""
              end in
  {| fd_Date := date acc;
     fd_MaxTemp := (totalMaxTemp acc / dayCountFloat)%Q;
     fd_MinTemp := (totalMinTemp acc / dayCountFloat)%Q;
     fd_AvgTemp := (totalAvgTemp acc / dayCountFloat)%Q;
     fd_Humidity := (dayTotalHumidity acc / dayCountFloat)%Q;
     fd_Description := mostCommonString (dayDescriptions acc);
     fd_Icon := icon;
     fd_Precipitation := (totalPrecipitation acc / dayCountFloat)%Q |}.

(** The body of [for day := 0; day < days; day++]. *)
Definition aggregate_day (allForecasts : list (list ForecastDay))
    (aggregatedDays : list ForecastDay) (day : nat) : list ForecastDay :=
  let acc := fold_left (day_step day) allForecasts day_acc_init in
  if (dayCount acc =? 0)%nat then aggregatedDays
  else <[day := merged_day allForecasts day acc]> aggregatedDays.

(** [aggregateForecast]; [now] is the instant read by [time.Now()].  The
    inner [None] is the nil result, [Panic] a run-time panic. *)
Definition aggregateForecast_entries
    (city : string) (entries : list (string * WeatherForecast)) (days : Z) (now : Time)
  : exec (option AggregatedForecast) :=
  if (length entries =? 0)%nat then Done None
  else
    exec_bind (fold_left (collect_step days) entries (Done ([], [])))
      (fun '(allForecasts, srcs) =>
         if (length allForecasts =? 0)%nat then Done None
         else if days <? 0 then Panic "makeslice: len out of range"
         else
           let aggregatedDays :=
             fold_left (aggregate_day allForecasts)
                       (seq 0 (Z.to_nat days))
                       (replicate (Z.to_nat days) zeroForecastDay) in
           Done (Some {| af_City := city;
                         af_Days := aggregatedDays;
                         af_LastUpdated := now;
                         af_Sources := srcs |})).

Definition aggregateForecast (data : WeatherData) (days : Z) (now : Time)
  : exec (option AggregatedForecast) :=
  aggregateForecast_entries (wd_City data) (map_to_list (wd_Forecasts data)) days now.

(** ** internal/services: the cache *)

(** [CacheItem.Data] is an [interface{}]; the two dynamic types stored in
    it are pointers to the two aggregated records. *)
Inductive payload : Type :=
| CurrentData (weather : option AggregatedCurrentWeather)
| ForecastData (forecast : option AggregatedForecast).

Record CacheItem := {
  Data : payload;
  ExpiresAt : Time
}.

Record WeatherCache := {
  currentWeather : gmap string CacheItem;
  forecast : gmap string (gmap Z CacheItem);
  defaultDuration : Duration;
  maxSize : Z
}.

Definition NewWeatherCache (defaultDuration : Duration) (maxSize : Z) : WeatherCache :=
  {| currentWeather := ∅; forecast := ∅;
     defaultDuration := defaultDuration; maxSize := maxSize |}.

Definition set_currentWeather (c : WeatherCache) (m : gmap string CacheItem) : WeatherCache :=
  {| currentWeather := m; forecast := forecast c;
     defaultDuration := defaultDuration c; maxSize := maxSize c |}.

Definition set_forecast (c : WeatherCache) (m : gmap string (gmap Z CacheItem)) : WeatherCache :=
  {| currentWeather := currentWeather c; forecast := m;
     defaultDuration := defaultDuration c; maxSize := maxSize c |}.

(** The loop of [evictOldestCurrent]: [(oldestKey, oldestTime)]. *)
Definition oldest_current_step (st : string * Time) (e : string * CacheItem) : string * Time :=
  if String.eqb (fst st) "" || Before (ExpiresAt (snd e)) (snd st)
  then (fst e, ExpiresAt (snd e))
  else st.

Definition evictOldestCurrent (c : WeatherCache) : WeatherCache :=
  let '(oldestKey, _) :=
    fold_left oldest_current_step (map_to_list (currentWeather c)) ("", zeroTime) in
  if negb (String.eqb oldestKey "")
  then set_currentWeather c (delete oldestKey (currentWeather c))
  else c.

(** The loops of [evictOldestForecast]: [(oldestCity, oldestDays, oldestTime)]. *)
Definition oldest_forecast_step (city : string) (st : string * Z * Time) (e : Z * CacheItem)
  : string * Z * Time :=
  let '(oldestCity, oldestDays, oldestTime) := st in
  if String.eqb oldestCity "" || Before (ExpiresAt (snd e)) oldestTime
  then (city, fst e, ExpiresAt (snd e))
  else st.

Definition oldest_forecast_city_step (st : string * Z * Time) (e : string * gmap Z CacheItem)
  : string * Z * Time :=
  fold_left (oldest_forecast_step (fst e)) (map_to_list (snd e)) st.

(** [delete(m[city], days)]: the inner map is updated in place; deleting
    from the nil map of an absent city does nothing. *)
Definition delete_forecast (city : string) (days : Z) (m : gmap string (gmap Z CacheItem))
  : gmap string (gmap Z CacheItem) :=
  match m !! city with
  | Some inner => <[city := delete days inner]> m
  | None => m
  end.

Definition evictOldestForecast (c : WeatherCache) : WeatherCache :=
  let '(oldestCity, oldestDays, _) :=
    fold_left oldest_forecast_city_step (map_to_list (forecast c)) ("", 0, zeroTime) in
  if negb (String.eqb oldestCity "")
  then set_forecast c (delete_forecast oldestCity oldestDays (forecast c))
  else c.

(** [SetCurrentWeather]; [now] is the instant read by [time.Now()]. *)
Definition SetCurrentWeather (c : WeatherCache) (city : string)
    (weather : option AggregatedCurrentWeather) (now : Time) : WeatherCache :=
  let c := if Z.of_nat (size (currentWeather c)) >=? maxSize c
           then evictOldestCurrent c else c in
  set_currentWeather c
    (<[city := {| Data := CurrentData weather;
                  ExpiresAt := Add now (defaultDuration c) |}]> (currentWeather c)).

(** [GetCurrentWeather]: the pair [(weather, ok)] it returns and the cache
    after the call. *)
Definition GetCurrentWeather (c : WeatherCache) (city : string) (now : Time)
  : (option AggregatedCurrentWeather * bool) * WeatherCache :=
  match currentWeather c !! city with
  | None => ((None, false), c)
  | Some item =>
      if After now (ExpiresAt item)
      then ((None, false), set_currentWeather c (delete city (currentWeather c)))
      else match Data item with
           | CurrentData weather => ((weather, true), c)
           | ForecastData _ => ((None, false), c)
           end
  end.

(** The number of items counted by [SetForecast]. *)
Definition totalItems (c : WeatherCache) : nat :=
  fold_left (fun total e => (total + size (snd e))%nat)
            (map_to_list (forecast c)) (size (currentWeather c)).

Definition SetForecast (c : WeatherCache) (city : string) (days : Z)
    (fc : option AggregatedForecast) (now : Time) : WeatherCache :=
  let c := match forecast c !! city with
           | Some _ => c
           | None => set_forecast c (<[city := ∅]> (forecast c))
           end in
  let c := if Z.of_nat (totalItems c) >=? maxSize c
           then evictOldestForecast c else c in
  set_forecast c
    (<[city := <[days := {| Data := ForecastData fc;
                            ExpiresAt := Add now (defaultDuration c) |}]>
                 (default ∅ (forecast c !! city))]> (forecast c)).

Definition GetForecast (c : WeatherCache) (city : string) (days : Z) (now : Time)
  : (option AggregatedForecast * bool) * WeatherCache :=
  match forecast c !! city with
  | None => ((None, false), c)
  | Some cityForecasts =>
      match cityForecasts !! days with
      | None => ((None, false), c)
      | Some item =>
          if After now (ExpiresAt item)
          then ((None, false), set_forecast c (delete_forecast city days (forecast c)))
          else match Data item with
               | ForecastData fc => ((fc, true), c)
               | CurrentData _ => ((None, false), c)
               end
      end
  end.

(** [cleanup], the body of the background sweep. *)
Definition expired (now : Time) (item : CacheItem) : bool := After now (ExpiresAt item).

Definition cleanup (c : WeatherCache) (now : Time) : WeatherCache :=
  {| currentWeather := filter (fun e => expired now (snd e) = false) (currentWeather c);
     forecast :=
       filter (fun e => size (snd e) <> 0%nat)
              ((fun forecasts : gmap Z CacheItem =>
                  filter (fun e => expired now (snd e) = false) forecasts)
                 <$> forecast c);
     defaultDuration := defaultDuration c;
     maxSize := maxSize c |}.

(** ** internal/services: the coordinator *)

(** The dynamic types of a client tested by [getSourceName]. *)
Inductive ClientType : Type :=
| OpenWeatherClient
| OpenMeteoClient
| OtherClient.

Definition getSourceName (client : ClientType) : string :=
  match client with
  | OpenWeatherClient => "openweathermap"
  | OpenMeteoClient => "open-meteo"
  | OtherClient => "unknown"
  end.

(** The [WeatherClient] interface.  A method returns the Go pair
    [(pointer, err)]; what a provider answers is an input of the model. *)
Record WeatherClient := {
  client_type : ClientType;
  client_GetCurrentWeather : string -> option CurrentWeather * option error;
  client_GetForecast : string -> Z -> option WeatherForecast * option error
}.

Record Aggregator := {
  clients : list WeatherClient;
  cache : WeatherCache;
  lastFetchTime : Time;
  successCount : Z;
  failureCount : Z;
  weatherData : gmap string WeatherData
}.

(** The state threaded through the coordinator: the [Aggregator] and the
    number of readings of the wall clock made so far. *)
Record World := {
  agg : Aggregator;
  ticks : nat
}.

Definition M (A : Type) : Type := World -> exec (A * World).

Definition ret {A} (a : A) : M A := fun w => Done (a, w).

Definition bind {A B} (m : M A) (f : A -> M B) : M B :=
  fun w => exec_bind (m w) (fun '(a, w') => f a w').

#[global] Instance M_ret : MRet M := @ret.
#[global] Instance M_bind : MBind M := fun A B f m => bind m f.

Definition get_agg : M Aggregator := fun w => Done (agg w, w).

Definition modify_agg (f : Aggregator -> Aggregator) : M unit :=
  fun w => Done (tt, {| agg := f (agg w); ticks := ticks w |}).

Definition lift_exec {A} (x : exec A) : M A :=
  fun w => exec_bind x (fun a => Done (a, w)).

Definition with_cache (a : Aggregator) (c : WeatherCache) : Aggregator :=
  {| clients := clients a; cache := c; lastFetchTime := lastFetchTime a;
     successCount := successCount a; failureCount := failureCount a;
     weatherData := weatherData a |}.

Definition with_weatherData (a : Aggregator) (m : gmap string WeatherData) : Aggregator :=
  {| clients := clients a; cache := cache a; lastFetchTime := lastFetchTime a;
     successCount := successCount a; failureCount := failureCount a;
     weatherData := m |}.

Definition with_lastFetchTime (a : Aggregator) (t : Time) : Aggregator :=
  {| clients := clients a; cache := cache a; lastFetchTime := t;
     successCount := successCount a; failureCount := failureCount a;
     weatherData := weatherData a |}.

Definition incr_successCount (a : Aggregator) : Aggregator :=
  {| clients := clients a; cache := cache a; lastFetchTime := lastFetchTime a;
     successCount := successCount a + 1; failureCount := failureCount a;
     weatherData := weatherData a |}.

Definition incr_failureCount (a : Aggregator) : Aggregator :=
  {| clients := clients a; cache := cache a; lastFetchTime := lastFetchTime a;
     successCount := successCount a; failureCount := failureCount a + 1;
     weatherData := weatherData a |}.

(** The body of the goroutine started for one client by [fetchCityWeather]. *)
Definition fetchSource (city : string) (c : WeatherClient) : APIResponse :=
  let source := getSourceName (client_type c) in
  let response := {| resp_Current := None; resp_Forecast := None;
                     resp_Error := None; resp_Source := source |} in
  let '(current, err) := client_GetCurrentWeather c city in
  let response :=
    match err with
    | Some e => {| resp_Current := resp_Current response;
                   resp_Forecast := resp_Forecast response;
                   resp_Error := Some e; resp_Source := resp_Source response |}
    | None => {| resp_Current := current;
                 resp_Forecast := resp_Forecast response;
                 resp_Error := resp_Error response;
                 resp_Source := resp_Source response |}
    end in
  let '(fc, err) := client_GetForecast c city 3 in
  match err with
  | Some e => {| resp_Current := resp_Current response;
                 resp_Forecast := resp_Forecast response;
                 resp_Error := match resp_Error response with
                               | None => Some e
                               | Some e0 => Some e0
                               end;
                 resp_Source := resp_Source response |}
  | None => {| resp_Current := resp_Current response;
               resp_Forecast := fc;
               resp_Error := resp_Error response;
               resp_Source := resp_Source response |}
  end.

(** One iteration of [for response := range responses]:
    [(weatherData, successCount)]. *)
Definition process_response (st : WeatherData * nat) (response : APIResponse)
  : WeatherData * nat :=
  let '(wd, count) := st in
  let '(wd, count) :=
    match resp_Current response with
    | Some current =>
        ({| wd_City := wd_City wd;
            wd_Current := <[resp_Source response := current]> (wd_Current wd);
            wd_Forecasts := wd_Forecasts wd;
            wd_Timestamp := wd_Timestamp wd |}, S count)
    | None => (wd, count)
    end in
  match resp_Forecast response with
  | Some fc =>
      ({| wd_City := wd_City wd;
          wd_Current := wd_Current wd;
          wd_Forecasts := <[resp_Source response := fc]> (wd_Forecasts wd);
          wd_Timestamp := wd_Timestamp wd |}, count)
  | None => (wd, count)
  end.

Section Coordinator.

(** [clock n] is the instant returned by the [n]-th call of [time.Now()];
    [arrival] is the order in which the responses of the goroutines are
    received from the channel. *)
Variable clock : nat -> Time.
Variable arrival : list APIResponse -> list APIResponse.

Definition Now : M Time :=
  fun w => Done (clock (ticks w), {| agg := agg w; ticks := S (ticks w) |}).

(** [a.cache.SetCurrentWeather(city, weather)] *)
Definition cache_SetCurrentWeather (city : string)
    (weather : option AggregatedCurrentWeather) : M unit :=
  now ← Now;
  modify_agg (fun a => with_cache a (SetCurrentWeather (cache a) city weather now)).

(** [a.cache.SetForecast(city, days, forecast)] *)
Definition cache_SetForecast (city : string) (days : Z)
    (fc : option AggregatedForecast) : M unit :=
  now ← Now;
  modify_agg (fun a => with_cache a (SetForecast (cache a) city days fc now)).

(** [a.cache.GetCurrentWeather(city)]; the clock is read only when the
    city has an entry. *)
Definition cache_GetCurrentWeather (city : string)
  : M (option AggregatedCurrentWeather * bool) :=
  a ← get_agg;
  match currentWeather (cache a) !! city with
  | None => ret (None, false)
  | Some _ =>
      now ← Now;
      let '(r, c) := GetCurrentWeather (cache a) city now in
      modify_agg (fun a => with_cache a c);;
      ret r
  end.

(** [a.cache.GetForecast(city, days)]; the clock is read only when the
    pair has an entry. *)
Definition cache_GetForecast (city : string) (days : Z)
  : M (option AggregatedForecast * bool) :=
  a ← get_agg;
  match forecast (cache a) !! city ≫= (fun cityForecasts => cityForecasts !! days) with
  | None => ret (None, false)
  | Some _ =>
      now ← Now;
      let '(r, c) := GetForecast (cache a) city days now in
      modify_agg (fun a => with_cache a c);;
      ret r
  end.

(** [a.aggregateForecast(weatherData, days)]; the clock is read only when
    a forecast is built. *)
Definition agg_aggregateForecast (wd : WeatherData) (days : Z)
  : M (option AggregatedForecast) :=
  fun w =>
    exec_bind (aggregateForecast wd days (clock (ticks w))) (fun r =>
      match r with
      | Some fc => Done (Some fc, {| agg := agg w; ticks := S (ticks w) |})
      | None => Done (None, w)
      end).

(** The body of [for days := 1; days <= 7; days++] in [aggregateAndCache]. *)
Definition cache_forecast_for (city : string) (wd : WeatherData) (days : Z) : M unit :=
  aggregatedForecast ← agg_aggregateForecast wd days;
  match aggregatedForecast with
  | Some fc => cache_SetForecast city days (Some fc)
  | None => ret tt
  end.

Definition aggregateAndCache (city : string) : M unit :=
  a ← get_agg;
  match weatherData a !! city with
  | None => ret tt
  | Some wd =>
      if (size (wd_Current wd) =? 0)%nat then ret tt
      else
        cache_SetCurrentWeather city (aggregateCurrentWeather wd);;
        fold_left (fun m days => m;; cache_forecast_for city wd days)
                  [1; 2; 3; 4; 5; 6; 7] (ret tt)
  end.

(** [fetchCityWeather]; the result is the returned [error] (nil is [None]). *)
Definition fetchCityWeather (city : string) : M (option error) :=
  a ← get_agg;
  let responses := arrival (fetchSource city <$> clients a) in
  now ← Now;
  let weatherData0 := {| wd_City := city; wd_Current := ∅;
                         wd_Forecasts := ∅; wd_Timestamp := now |} in
  let '(wd, count) := fold_left process_response responses (weatherData0, 0%nat) in
  if (count =? 0)%nat
  then ret (Some (Errorf "all API calls failed for city %s" [AStr city]))
  else
    modify_agg (fun a => with_weatherData a (<[city := wd]> (weatherData a)));;
    aggregateAndCache city;;
    ret None.

(** One goroutine of [FetchWeatherData]; [errors] collects what is sent on
    the channel of errors. *)
Definition fetch_city (errors : list error) (city : string) : M (list error) :=
  err ← fetchCityWeather city;
  match err with
  | Some e => modify_agg incr_failureCount;; ret (errors ++ [e])
  | None => modify_agg incr_successCount;; ret errors
  end.

(** [FetchWeatherData]: the goroutines of the cities are run one after the
    other, in the order of [cities]. *)
Definition FetchWeatherData (cities : list string) : M (option error) :=
  now ← Now;
  modify_agg (fun a => with_lastFetchTime a now);;
  startTime ← Now;
  errors ← fold_left (fun m city => errors ← m; fetch_city errors city)
                     cities (ret []);
  finish ← Now;
  match errors with
  | _ :: _ => ret (Some (Errorf "some cities failed to fetch weather data" []))
  | [] => ret None
  end.

Definition GetAggregatedCurrentWeather (city : string)
  : M (option AggregatedCurrentWeather * option error) :=
  '(cached, ok) ← cache_GetCurrentWeather city;
  if (ok : bool) then ret (cached, None)
  else
    err ← FetchWeatherData [city];
    match err with
    | Some e => ret (None, Some (Errorf "failed to fetch weather for %s: %w"
                                        [AStr city; AErr (Some e)]))
    | None =>
        '(cached, ok) ← cache_GetCurrentWeather city;
        if (ok : bool) then ret (cached, None)
        else ret (None, Some (Errorf "weather data not available for %s" [AStr city]))
    end.

Definition GetAggregatedForecast (city : string) (days : Z)
  : M (option AggregatedForecast * option error) :=
  if (days <? 1) || (days >? 7)
  then ret (None, Some (Errorf "days must be between 1 and 7" []))
  else
    '(cached, ok) ← cache_GetForecast city days;
    if (ok : bool) then ret (cached, None)
    else
      err ← FetchWeatherData [city];
      match err with
      | Some e => ret (None, Some (Errorf "failed to fetch forecast for %s: %w"
                                          [AStr city; AErr (Some e)]))
      | None =>
          '(cached, ok) ← cache_GetForecast city days;
          if (ok : bool) then ret (cached, None)
          else ret (None, Some (Errorf "forecast data not available for %s" [AStr city]))
      end.

End Coordinator.

(** ** pkg/client: the resilient fetcher *)

Record ClientConfig := {
  Timeout : Duration;
  MaxRetries : Z;
  RetryDelay : Duration;
  Multiplier : float64;
  Threshold : Z;
  BreakerTimeout : Duration
}.

(** [gobreaker.Counts] and [gobreaker.Settings], as far as [NewBaseClient]
    uses them. *)
Record Counts := {
  Requests : Z;
  TotalSuccesses : Z;
  TotalFailures : Z;
  ConsecutiveSuccesses : Z;
  ConsecutiveFailures : Z
}.

Record Settings := {
  breaker_Name : string;
  breaker_MaxRequests : Z;
  breaker_Interval : Duration;
  breaker_Timeout : Duration;
  breaker_ReadyToTrip : Counts -> bool
}.

(** The [ReadyToTrip] closure of [NewBaseClient]. *)
Definition ReadyToTrip (counts : Counts) : bool :=
  let failureRatio := (inject_Z (TotalFailures counts) / inject_Z (Requests counts))%Q in
  (Requests counts >=? 3) && Qle_bool 0.6 failureRatio.

Record BaseClient := {
  circuitBreaker : Settings;
  maxRetries : Z;
  retryDelay : Duration;
  multiplier : float64
}.

Definition NewBaseClient (name : string) (config : ClientConfig) : BaseClient :=
  let breakerSettings :=
    {| breaker_Name := name;
       breaker_MaxRequests := 1;
       breaker_Interval := 0;
       breaker_Timeout := BreakerTimeout config;
       breaker_ReadyToTrip := ReadyToTrip |} in
  {| circuitBreaker := breakerSettings;
     maxRetries := MaxRetries config;
     retryDelay := RetryDelay config;
     multiplier := Multiplier config |}.

(** [time.Duration(x)] for a float [x]: the fraction is discarded. *)
Definition Duration_of_float (x : float64) : Duration :=
  Z.quot (Qnum x) (Z.pos (Qden x)).

(** The delay computed before retry [attempt]:
    [time.Duration(float64(c.retryDelay) * math.Pow(c.multiplier, float64(attempt-1)))]. *)
Definition backoff_delay (c : BaseClient) (attempt : Z) : Duration :=
  Duration_of_float (inject_Z (retryDelay c) * multiplier c ^ (attempt - 1))%Q.

(** What the network does in one call of [doGetWithRetry].
    - [newRequest]: the error of [http.NewRequestWithContext], if any;
    - [ctxDone k]: [Some e] when [ctx.Done()] is selected during the
      wait before attempt [k], [ctx_Err e] being [ctx.Err()];
    - [roundTrip k]: the outcome of [c.client.Do] at attempt [k]. *)
Inductive round_trip : Type :=
| DoError (err : error)
| DoResponse (StatusCode : Z) (body : list Byte.byte + error).

Record Network := {
  newRequest : option error;
  ctxDone : Z -> option context_error;
  roundTrip : Z -> round_trip
}.

(** What [doGetWithRetry] does that can be observed from outside. *)
Inductive event : Type :=
| Wait (attempt : Z) (delay : Duration)
| Do (attempt : Z).

Definition max_retries_exceeded (lastErr : option error) : error :=
  Errorf "max retries exceeded, last error: %w" [AErr lastErr].

(** The loop [for attempt := 0; attempt <= c.maxRetries; attempt++], on the
    attempts that remain; the result is [(body, nil)] or [(nil, err)]. *)
Fixpoint retry_loop (c : BaseClient) (net : Network)
    (attempts : list Z) (lastErr : option error)
  : (list Byte.byte + error) * list event :=
  match attempts with
  | [] => (inr (max_retries_exceeded lastErr), [])
  | attempt :: rest =>
      let waited := if 0 <? attempt
                    then [Wait attempt (backoff_delay c attempt)] else [] in
      match (if 0 <? attempt then ctxDone net attempt else None) with
      | Some err => (inr (ctx_Err err), waited)
      | None =>
          match newRequest net with
          | Some err =>
              (inr (Errorf "creating request failed: %w" [AErr (Some err)]), waited)
          | None =>
              let continue lastErr :=
                let '(r, evs) := retry_loop c net rest lastErr in
                (r, waited ++ Do attempt :: evs) in
              match roundTrip net attempt with
              | DoError err => continue (Some err)
              | DoResponse StatusCode body =>
                  if (200 <=? StatusCode) && (StatusCode <? 300)
                  then match body with
                       | inl bytes => (inl bytes, waited ++ [Do attempt])
                       | inr err => continue (Some err)
                       end
                  else
                    let lastErr := Some (Errorf "HTTP %d" [AInt StatusCode]) in
                    if (400 <=? StatusCode) && (StatusCode <? 500)
                       && negb (StatusCode =? 429)
                    then (inr (max_retries_exceeded lastErr), waited ++ [Do attempt])
                    else continue lastErr
              end
          end
      end
  end.

Definition doGetWithRetry (c : BaseClient) (net : Network)
  : (list Byte.byte + error) * list event :=
  retry_loop c net (seqZ 0 (maxRetries c + 1)) None.

(** ** Vocabulary of the specification *)

(** Sum, arithmetic mean and population variance of a list of numbers. *)
Definition Qsum (l : list Q) : Q := fold_right Qplus 0%Q l.

Definition mean (l : list Q) : Q := (Qsum l / float_of_len (length l))%Q.







(** The providers of a snapshot that supplied at least [days] forecast
    entries. *)
Definition enough_entries (days : Z) (e : string * WeatherForecast) : Prop :=
  days <= Z.of_nat (length (wf_Forecast (snd e))).

#[global] Instance enough_entries_dec days e : Decision (enough_entries days e).
Proof. unfold enough_entries. apply _. Defined.

Definition contributors (data : WeatherData) (days : Z) : list (string * WeatherForecast) :=
  filter (enough_entries days) (map_to_list (wd_Forecasts data)).

(** The entries of day [i] of a list of forecasts. *)
Definition day_entries (i : nat) (l : list (string * WeatherForecast)) : list ForecastDay :=
  omap (fun e => wf_Forecast (snd e) !! i) l.

(** ** Sample data *)

Definition sample_reading (source : string) (temp : Q) (timestamp : Time) : CurrentWeather :=
  {| cw_City := "Prague"; cw_Temperature := temp; cw_FeelsLike := temp;
     cw_Humidity := 50%Q; cw_Pressure := 1000%Q; cw_WindSpeed := 3%Q;
     cw_WindDegree := 0%Q; cw_Description := "Clear sky"; cw_Icon := "01d";
     cw_Timestamp := timestamp; cw_Source := source |}.

(** Two providers reporting 10 and 20 degrees. *)
Definition readings_10_20 : gmap string CurrentWeather :=
  {[ "openweathermap" := sample_reading "openweathermap" 10%Q 1000;
     "open-meteo" := sample_reading "open-meteo" 20%Q 2000 ]}.

Definition snapshot_10_20 : WeatherData :=
  {| wd_City := "Prague"; wd_Current := readings_10_20;
     wd_Forecasts := ∅; wd_Timestamp := 3000 |}.

(** One provider whose observation is dated one second before Go's zero
    [Time], as [time.Unix(-62135596801, 0)] is. *)
Definition snapshot_before_zero : WeatherData :=
  {| wd_City := "Prague";
     wd_Current := {[ "openweathermap" :=
                        sample_reading "openweathermap" 10%Q (-1000000000) ]};
     wd_Forecasts := ∅; wd_Timestamp := 3000 |}.

Definition sample_day (d : Time) (maxTemp minTemp : Q) : ForecastDay :=
  {| fd_Date := d; fd_MaxTemp := maxTemp; fd_MinTemp := minTemp;
     fd_AvgTemp := ((maxTemp + minTemp) / 2)%Q; fd_Humidity := 60%Q;
     fd_Description := "Overcast"; fd_Icon := "02d"; fd_Precipitation := 1%Q |}.

(** One provider with three forecast days, one with two. *)
Definition snapshot_forecasts : WeatherData :=
  {| wd_City := "Prague"; wd_Current := readings_10_20;
     wd_Forecasts :=
       {[ "openweathermap" :=
            {| wf_City := "Prague";
               wf_Forecast := [sample_day 100 20 10; sample_day 200 22 12;
                               sample_day 300 24 14];
               wf_Source := "openweathermap" |};
          "open-meteo" :=
            {| wf_City := "Prague";
               wf_Forecast := [sample_day 100 30 20; sample_day 200 32 22];
               wf_Source := "open-meteo" |} ]};
     wd_Timestamp := 3000 |}.

Definition sample_current : AggregatedCurrentWeather :=
  {| acw_City := "Prague"; acw_Temperature := 15%Q; acw_FeelsLike := 15%Q;
     acw_Humidity := 50%Q; acw_Pressure := 1000%Q; acw_WindSpeed := 3%Q;
     acw_Description := "Clear sky"; acw_Icon := "01d"; acw_LastUpdated := 2000;
     acw_Sources := ["openweathermap"; "open-meteo"]; acw_Confidence := 0.1%Q |}.

Definition sample_forecast : AggregatedForecast :=
  {| af_City := "Prague"; af_Days := [sample_day 100 20 10];
     af_LastUpdated := 2000; af_Sources := ["openweathermap"] |}.

(** A cache of at most one item that lives for 600 nanoseconds. *)
Definition cache_of_one : WeatherCache := NewWeatherCache 600 1.

(** The same cache after the current weather of Prague was stored at
    instant 1000, and after its one-day forecast was stored too. *)
Definition cache_with_current : WeatherCache :=
  SetCurrentWeather cache_of_one "Prague" (Some sample_current) 1000.

Definition cache_with_both : WeatherCache :=
  SetForecast cache_with_current "Prague" 1 (Some sample_forecast) 1001.



(** Three clients: the first and the third fail, the second answers. *)
Definition failing_client (t : ClientType) : WeatherClient :=
  {| client_type := t;
     client_GetCurrentWeather := fun _ => (None, Some (External "connection refused"));
     client_GetForecast := fun _ _ => (None, Some (External "connection refused")) |}.

Definition answering_client : WeatherClient :=
  {| client_type := OpenMeteoClient;
     client_GetCurrentWeather := fun _ =>
       (Some (sample_reading "open-meteo" 20%Q 2000), None);
     client_GetForecast := fun city _ =>
       (Some {| wf_City := city;
                wf_Forecast := [sample_day 100 30 20; sample_day 200 32 22;
                                sample_day 300 34 24];
                wf_Source := "open-meteo" |}, None) |}.

Definition sample_aggregator (cs : list WeatherClient) (c : WeatherCache) : Aggregator :=
  {| clients := cs; cache := c; lastFetchTime := zeroTime;
     successCount := 0; failureCount := 0; weatherData := ∅ |}.

Definition world_one_of_three : World :=
  {| agg := sample_aggregator
              [failing_client OpenWeatherClient; answering_client;
               failing_client OtherClient]
              (NewWeatherCache 600 1000);
     ticks := 0 |}.

Definition world_all_fail : World :=
  {| agg := sample_aggregator
              [failing_client OpenWeatherClient; failing_client OtherClient]
              (NewWeatherCache 600 1000);
     ticks := 0 |}.

(** A world whose cache holds a fresh forecast under the day-count 0. *)
Definition world_with_day_zero : World :=
  {| agg := sample_aggregator [answering_client]
              (SetForecast (NewWeatherCache 600 1000) "Prague" 0
                           (Some sample_forecast) 1000);
     ticks := 0 |}.

Definition sample_clock (n : nat) : Time := 1000 + Z.of_nat n.

(** The responses arrive in the opposite order of the clients. *)
Definition sample_arrival (l : list APIResponse) : list APIResponse := reverse l.

(** ** Vocabulary for the retry loop *)

(** How one answer of the network is treated by the loop. *)
Inductive verdict : Type :=
| Success (bytes : list Byte.byte)
| Retryable (err : error)
| Fatal (err : error).

Definition classify (o : round_trip) : verdict :=
  match o with
  | DoError err => Retryable err
  | DoResponse StatusCode body =>
      if (200 <=? StatusCode) && (StatusCode <? 300)
      then match body with
           | inl bytes => Success bytes
           | inr err => Retryable err
           end
      else if (400 <=? StatusCode) && (StatusCode <? 500) && negb (StatusCode =? 429)
           then Fatal (Errorf "HTTP %d" [AInt StatusCode])
           else Retryable (Errorf "HTTP %d" [AInt StatusCode])
  end.


(** The backoff wait that precedes an attempt. *)
Definition waited (c : BaseClient) (attempt : Z) : list event :=
  if 0 <? attempt then [Wait attempt (backoff_delay c attempt)] else [].

(** One iteration of the loop: it either leaves the function or goes on
    with a new [lastErr]. *)
Inductive iteration : Type :=
| Return (r : list Byte.byte + error) (evs : list event)
| Continue (lastErr : option error) (evs : list event).

Definition attempt_step (c : BaseClient) (net : Network) (attempt : Z) : iteration :=
  match (if 0 <? attempt then ctxDone net attempt else None) with
  | Some err => Return (inr (ctx_Err err)) (waited c attempt)
  | None =>
      match newRequest net with
      | Some err =>
          Return (inr (Errorf "creating request failed: %w" [AErr (Some err)]))
                 (waited c attempt)
      | None =>
          match classify (roundTrip net attempt) with
          | Success bytes => Return (inl bytes) (waited c attempt ++ [Do attempt])
          | Fatal err =>
              Return (inr (max_retries_exceeded (Some err)))
                     (waited c attempt ++ [Do attempt])
          | Retryable err => Continue (Some err) (waited c attempt ++ [Do attempt])
          end
      end
  end.

(** The five ways an iteration can go. *)
Inductive step_case (c : BaseClient) (net : Network) (attempt : Z) : iteration -> Prop :=
| step_cancelled err :
    0 < attempt -> ctxDone net attempt = Some err ->
    step_case c net attempt
      (Return (inr (ctx_Err err)) [Wait attempt (backoff_delay c attempt)])
| step_no_request err :
    (0 < attempt -> ctxDone net attempt = None) -> newRequest net = Some err ->
    step_case c net attempt
      (Return (inr (Errorf "creating request failed: %w" [AErr (Some err)]))
              (waited c attempt))
| step_success bytes :
    (0 < attempt -> ctxDone net attempt = None) -> newRequest net = None ->
    classify (roundTrip net attempt) = Success bytes ->
    step_case c net attempt (Return (inl bytes) (waited c attempt ++ [Do attempt]))
| step_fatal err :
    (0 < attempt -> ctxDone net attempt = None) -> newRequest net = None ->
    classify (roundTrip net attempt) = Fatal err ->
    step_case c net attempt
      (Return (inr (max_retries_exceeded (Some err))) (waited c attempt ++ [Do attempt]))
| step_retry err :
    (0 < attempt -> ctxDone net attempt = None) -> newRequest net = None ->
    classify (roundTrip net attempt) = Retryable err ->
    step_case c net attempt (Continue (Some err) (waited c attempt ++ [Do attempt])).




(** A network on which every attempt gets the same answer and the context
    is never cancelled. *)
Definition always (o : round_trip) : Network :=
  {| newRequest := None; ctxDone := fun _ => None; roundTrip := fun _ => o |}.

(** The same, but the context is cancelled during the wait before
    attempt 2. *)
Definition cancelled_at_2 (o : round_trip) : Network :=
  {| newRequest := None;
     ctxDone := fun k => if k =? 2 then Some Canceled else None;
     roundTrip := fun _ => o |}.

(** Three retries, one second doubled at every retry (the defaults of the
    configuration). *)
Definition default_client : BaseClient :=
  NewBaseClient "openmeteo"
    {| Timeout := 10000000000; MaxRetries := 3; RetryDelay := 1000000000;
       Multiplier := 2%Q; Threshold := 3; BreakerTimeout := 30000000000 |}.


(** A world whose cache holds at most one item. *)
Definition world_small_cache : World :=
  {| agg := sample_aggregator [answering_client] cache_of_one; ticks := 0 |}.

(** ** Vocabulary for the further properties *)

(** How often [s] occurs in [strs]. *)
Definition occurrences (s : string) (strs : list string) : nat :=
  length (filter (fun x => x = s) strs).

(** ** The sweep as the source writes it *)

(** [cleanup] as the loops of the source: each store is ranged over while
    its expired entries are deleted from it in place, and a city whose map
    of forecasts has become empty is deleted from the forecast store. *)
Definition cleanup_current_step (now : Time) (m : gmap string CacheItem)
    (e : string * CacheItem) : gmap string CacheItem :=
  if After now (ExpiresAt (snd e)) then delete (fst e) m else m.

Definition cleanup_forecast_step (now : Time) (forecasts : gmap Z CacheItem)
    (e : Z * CacheItem) : gmap Z CacheItem :=
  if After now (ExpiresAt (snd e)) then delete (fst e) forecasts else forecasts.

Definition cleanup_city_step (now : Time) (m : gmap string (gmap Z CacheItem))
    (e : string * gmap Z CacheItem) : gmap string (gmap Z CacheItem) :=
  let forecasts := fold_left (cleanup_forecast_step now) (map_to_list (snd e)) (snd e) in
  if (size forecasts =? 0)%nat then delete (fst e) m else <[fst e := forecasts]> m.

Definition cleanup_loops (c : WeatherCache) (now : Time) : WeatherCache :=
  {| currentWeather :=
       fold_left (cleanup_current_step now) (map_to_list (currentWeather c)) (currentWeather c);
     forecast :=
       fold_left (cleanup_city_step now) (map_to_list (forecast c)) (forecast c);
     defaultDuration := defaultDuration c;
     maxSize := maxSize c |}.

(** A cache with one expired and one live entry in each store, at instant
    1500. *)
Definition item_at (t : Time) : CacheItem :=
  {| Data := CurrentData None; ExpiresAt := t |}.

Definition forecast_item_at (t : Time) : CacheItem :=
  {| Data := ForecastData None; ExpiresAt := t |}.

Definition cache_half_expired : WeatherCache :=
  {| currentWeather := {[ "Prague" := item_at 1400; "London" := item_at 1600 ]};
     forecast := {[ "Prague" := {[ 1 := forecast_item_at 1400 ]};
                    "London" := {[ 1 := forecast_item_at 1400; 3 := forecast_item_at 1600 ]} ]};
     defaultDuration := 600;
     maxSize := 10 |}.

(** ** Sequences of operations on the current-weather store *)

(** The operations of the cache that touch the current-weather store, and a
    run of them in order. *)
Inductive current_op : Type :=
| WriteCurrent (city : string) (weather : option AggregatedCurrentWeather) (now : Time)
| ReadCurrent (city : string) (now : Time)
| Sweep (now : Time).

Definition apply_current_op (c : WeatherCache) (op : current_op) : WeatherCache :=
  match op with
  | WriteCurrent city weather now => SetCurrentWeather c city weather now
  | ReadCurrent city now => snd (GetCurrentWeather c city now)
  | Sweep now => cleanup_loops c now
  end.

Definition written_city (op : current_op) : option string :=
  match op with
  | WriteCurrent city _ _ => Some city
  | _ => None
  end.

Definition sample_ops : list current_op :=
  [WriteCurrent "Prague" None 1000; WriteCurrent "London" None 1001;
   ReadCurrent "Prague" 1002; Sweep 1003; WriteCurrent "Tokyo" None 1004].

(** The entries of the forecast store in the order in which the nested
    loops of [evictOldestForecast] visit them. *)
Definition forecast_entries (l : list (string * gmap Z CacheItem))
  : list (string * (Z * CacheItem)) :=
  l ≫= (fun e => (fun d => (fst e, d)) <$> map_to_list (snd e)).

Definition stored_forecast (c : WeatherCache) (city : string) (days : Z) : option CacheItem :=
  forecast c !! city ≫= (fun inner => inner !! days).

(** ** Vocabulary for a fetch cycle over several cities *)







(** A world whose cache holds a fresh current-weather entry and a fresh
    one-day forecast for Prague, and whose clients all fail. *)
Definition world_cached : World :=
  {| agg := sample_aggregator [failing_client OpenWeatherClient] cache_with_both;
     ticks := 0 |}.





(** ** Vocabulary for whole runs of the retry loop *)

(** The events of the attempts [first, first + 1, ..., first + n - 1] when
    each of them sends its request: the wait of a retry, then the request. *)
Definition full_trace (c : BaseClient) (first : Z) (n : nat) : list event :=
  seqZ first (Z.of_nat n) ≫= (fun k => waited c k ++ [Do k]).

Definition wait_of (e : event) : Duration :=
  match e with
  | Wait _ d => d
  | Do _ => 0
  end.

(** The time spent in backoff waits. *)
Definition total_wait (evs : list event) : Duration :=
  fold_right Z.add 0 (wait_of <$> evs).

(** A network whose requests cannot be built. *)
Definition no_request (err : error) : Network :=
  {| newRequest := Some err; ctxDone := fun _ => None;
     roundTrip := fun _ => DoError err |}.

(** A network that answers 503 twice and then 200 with a body of one
    byte. *)
Definition third_time_lucky : Network :=
  {| newRequest := None; ctxDone := fun _ => None;
     roundTrip := fun k => if k <? 2 then DoResponse 503 (inl [])
                           else DoResponse 200 (inl [Byte.x78]) |}.

(** ** pkg/client: the Open-Meteo adapter *)

(** A URL built by [fmt.Sprintf(format, args...)]. *)
Inductive url : Type :=
| Sprintf (format : string) (args : list fmt_arg).

(** [a[i]] on a slice. *)
Definition index {A} (a : list A) (i : nat) : exec A :=
  match a !! i with
  | Some x => Done x
  | None => Panic "index out of range"
  end.

(** [response.Daily] of an [OpenMeteoForecastResponse], and the fields of
    [response.Current] of an [OpenMeteoCurrentResponse]. *)
Record OpenMeteoDaily := {
  daily_Time : list string;
  daily_Temperature2MMax : list float64;
  daily_Temperature2MMin : list float64;
  daily_PrecipitationSum : list float64;
  daily_WeatherCode : list Z
}.

Record OpenMeteoCurrent := {
  current_Time : string;
  current_Temperature2M : float64;
  current_WindSpeed10M : float64;
  current_WindDirection : float64;
  current_RelativeHumidity2M : Z;
  current_PressureMSL : float64;
  current_WeatherCode : Z
}.

(** The coordinates hard-coded in [GetCurrentWeather] and [GetForecast]. *)
Definition coordinates : gmap string string :=
  list_to_map [("Prague", "50.0755,14.4378");
               ("London", "51.5074,-0.1278");
               ("NewYork", "40.7128,-74.0060");
               ("Tokyo", "35.6762,139.6503");
               ("Sydney", "-33.8688,151.2093")].

(** [coords[len(coords)/2:]] *)
Definition coords_tail (coords : string) : string :=
  let n := String.length coords in
  String.substring (n / 2) (n - n / 2) coords.

Definition weatherCodes : gmap Z string :=
  list_to_map [(0, "Clear sky"); (1, "Mainly clear"); (2, "Partly cloudy"); (3, "Overcast");
               (45, "Foggy"); (48, "Depositing rime fog");
               (51, "Light drizzle"); (53, "Moderate drizzle"); (55, "Dense drizzle");
               (56, "Light freezing drizzle"); (57, "Dense freezing drizzle");
               (61, "Slight rain"); (63, "Moderate rain"); (65, "Heavy rain");
               (66, "Light freezing rain"); (67, "Heavy freezing rain");
               (71, "Slight snow fall"); (73, "Moderate snow fall"); (75, "Heavy snow fall");
               (77, "Snow grains");
               (80, "Slight rain showers"); (81, "Moderate rain showers");
               (82, "Violent rain showers");
               (85, "Slight snow showers"); (86, "Heavy snow showers");
               (95, "Thunderstorm"); (96, "Thunderstorm with slight hail");
               (99, "Thunderstorm with heavy hail")].

Definition weatherCodeToDescription (code : Z) : string :=
  match weatherCodes !! code with
  | Some desc => desc
  | None => "Unknown"
  end.

Definition weatherCodeToIcon (code : Z) : string :=
  if code =? 0 then "01d"
  else if code <=? 3 then "02d"
  else if code <=? 48 then "50d"
  else if code <=? 67 then "10d"
  else if code <=? 77 then "13d"
  else if code <=? 82 then "09d"
  else if code <=? 86 then "13d"
  else "11d".

Definition openmeteo_current_url (baseURL coords : string) : url :=
  Sprintf "%s/forecast?latitude=%s&longitude=%s&current=temperature_2m,relative_humidity_2m,pressure_msl,wind_speed_10m,wind_direction_10m,weather_code"
          [AStr baseURL; AStr coords; AStr (coords_tail coords)].

Definition openmeteo_forecast_url (baseURL coords : string) (days : Z) : url :=
  Sprintf "%s/forecast?latitude=%s&longitude=%s&daily=temperature_2m_max,temperature_2m_min,precipitation_sum,weather_code&forecast_days=%d"
          [AStr baseURL; AStr coords; AStr (coords_tail coords); AInt days].

(** The body of the loop of [GetForecast] for index [i]. *)
Definition openmeteo_day (parse_date : string -> Time) (daily : OpenMeteoDaily) (i : nat)
  : exec ForecastDay :=
  exec_bind (index (daily_Time daily) i) (fun time =>
  exec_bind (index (daily_WeatherCode daily) i) (fun code =>
  exec_bind (index (daily_Temperature2MMax daily) i) (fun maxTemp =>
  exec_bind (index (daily_Temperature2MMin daily) i) (fun minTemp =>
  exec_bind (index (daily_PrecipitationSum daily) i) (fun precipitation =>
    Done {| fd_Date := parse_date time;
            fd_MaxTemp := maxTemp;
            fd_MinTemp := minTemp;
            fd_AvgTemp := ((maxTemp + minTemp) / 2)%Q;
            fd_Humidity := 0%Q;
            fd_Description := weatherCodeToDescription code;
            fd_Icon := weatherCodeToIcon code;
            fd_Precipitation := precipitation |}))))).

Definition openmeteo_step (parse_date : string -> Time) (daily : OpenMeteoDaily)
    (acc : exec (list ForecastDay)) (i : nat) : exec (list ForecastDay) :=
  exec_bind acc (fun days =>
    exec_bind (openmeteo_day parse_date daily i) (fun day => Done (days ++ [day]))).

Section OpenMeteo.

(** What lies outside the adapter: [c.GetWithRetry] (the resilient fetcher
    behind the circuit breaker), [json.Unmarshal] into the two response
    types, and [time.Parse] for the two layouts, whose error the adapter
    discards. *)
Variable GetWithRetry : url -> list Byte.byte + error.
Variable Unmarshal_current : list Byte.byte -> OpenMeteoCurrent + error.
Variable Unmarshal_forecast : list Byte.byte -> OpenMeteoDaily + error.
Variable parse_RFC3339 : string -> Time.
Variable parse_date : string -> Time.
Variable baseURL : string.

(** The adapter's methods return the Go pair [(pointer, err)] and the list
    of the URLs they requested. *)
Definition OpenMeteo_GetCurrentWeather (city : string)
  : (option CurrentWeather * option error) * list url :=
  match coordinates !! city with
  | None => ((None, Some (Errorf "coordinates not found for city: %s" [AStr city])), [])
  | Some coords =>
      let u := openmeteo_current_url baseURL coords in
      match GetWithRetry u with
      | inr err =>
          ((None, Some (Errorf "failed to fetch current weather: %w" [AErr (Some err)])), [u])
      | inl data =>
          match Unmarshal_current data with
          | inr err =>
              ((None, Some (Errorf "failed to parse response: %w" [AErr (Some err)])), [u])
          | inl current =>
              ((Some {| cw_City := city;
                        cw_Temperature := current_Temperature2M current;
                        cw_FeelsLike := current_Temperature2M current;
                        cw_Humidity := inject_Z (current_RelativeHumidity2M current);
                        cw_Pressure := current_PressureMSL current;
                        cw_WindSpeed := current_WindSpeed10M current;
                        cw_WindDegree := current_WindDirection current;
                        cw_Description :=
                          weatherCodeToDescription (current_WeatherCode current);
                        cw_Icon := weatherCodeToIcon (current_WeatherCode current);
                        cw_Timestamp := parse_RFC3339 (current_Time current);
                        cw_Source := "open-meteo" |}, None), [u])
          end
      end
  end.

Definition OpenMeteo_GetForecast (city : string) (days : Z)
  : exec (option WeatherForecast * option error) * list url :=
  match coordinates !! city with
  | None =>
      (Done (None, Some (Errorf "coordinates not found for city: %s" [AStr city])), [])
  | Some coords =>
      let u := openmeteo_forecast_url baseURL coords days in
      match GetWithRetry u with
      | inr err =>
          (Done (None, Some (Errorf "failed to fetch forecast: %w" [AErr (Some err)])), [u])
      | inl data =>
          match Unmarshal_forecast data with
          | inr err =>
              (Done (None, Some (Errorf "failed to parse forecast response: %w"
                                        [AErr (Some err)])), [u])
          | inl daily =>
              if days <? 0 then (Panic "makeslice: cap out of range", [u])
              else
                let n := Nat.min (Z.to_nat days) (length (daily_Time daily)) in
                (exec_bind (fold_left (openmeteo_step parse_date daily) (seq 0 n) (Done []))
                   (fun forecast =>
                      Done (Some {| wf_City := city;
                                    wf_Forecast := forecast;
                                    wf_Source := "open-meteo" |}, None)),
                 [u])
          end
      end
  end.

End OpenMeteo.

(** A decoded daily forecast of four days, and one whose list of weather
    codes is too short. *)
Definition sample_daily : OpenMeteoDaily :=
  {| daily_Time := ["2024-01-01"; "2024-01-02"; "2024-01-03"; "2024-01-04"];
     daily_Temperature2MMax := [5; 6; 7; 8]%Q;
     daily_Temperature2MMin := [1; 2; 3; 4]%Q;
     daily_PrecipitationSum := [0; 0; 1; 2]%Q;
     daily_WeatherCode := [0; 3; 61; 71] |}.

Definition short_daily : OpenMeteoDaily :=
  {| daily_Time := ["2024-01-01"; "2024-01-02"];
     daily_Temperature2MMax := [5; 6]%Q;
     daily_Temperature2MMin := [1; 2]%Q;
     daily_PrecipitationSum := [0; 0]%Q;
     daily_WeatherCode := [0] |}.

(** ** pkg/client: the OpenWeatherMap adapter *)

(** The fields of the two response types that the adapter reads. *)
Record OpenWeatherCondition := {
  condition_Description : string;
  condition_Icon : string
}.

Record OpenWeatherCurrentResponse := {
  owc_Weather : list OpenWeatherCondition;
  owc_Temp : float64;
  owc_FeelsLike : float64;
  owc_Pressure : float64;
  owc_Humidity : float64;
  owc_WindSpeed : float64;
  owc_WindDeg : float64;
  owc_Dt : Z;
  owc_Name : string;
  owc_Cod : Z
}.

Record OpenWeatherItem := {
  item_Dt : Z;
  item_Temp : float64;
  item_Humidity : Z;
  item_Weather : list OpenWeatherCondition
}.

Record OpenWeatherForecastResponse := {
  owf_Cod : string;
  owf_List : list OpenWeatherItem;
  owf_CityName : string
}.

Definition openweather_current_url (baseURL city apiKey : string) : url :=
  Sprintf "%s/weather?q=%s&appid=%s&units=metric" [AStr baseURL; AStr city; AStr apiKey].

Definition openweather_forecast_url (baseURL city apiKey : string) (days : Z) : url :=
  Sprintf "%s/forecast?q=%s&appid=%s&units=metric&cnt=%d"
          [AStr baseURL; AStr city; AStr apiKey; AInt (days * 8)].

(** The variables of the loop over the items of one day:
    [(totalTemp, maxTemp, minTemp, totalHumidity)]. *)
Record item_acc := {
  acc_totalTemp : float64;
  acc_maxTemp : float64;
  acc_minTemp : float64;
  acc_totalHumidity : float64
}.

Definition item_acc_init : item_acc :=
  {| acc_totalTemp := 0%Q; acc_maxTemp := (-100)%Q; acc_minTemp := 100%Q;
     acc_totalHumidity := 0%Q |}.

Definition item_step (acc : item_acc) (item : OpenWeatherItem) : item_acc :=
  let temp := item_Temp item in
  {| acc_totalTemp := (acc_totalTemp acc + temp)%Q;
     acc_maxTemp := if Qgtb temp (acc_maxTemp acc) then temp else acc_maxTemp acc;
     acc_minTemp := if Qltb temp (acc_minTemp acc) then temp else acc_minTemp acc;
     acc_totalHumidity := (acc_totalHumidity acc + inject_Z (item_Humidity item))%Q |}.

Section OpenWeather.

(** What lies outside the adapter: [c.GetWithRetry], [json.Unmarshal],
    [time.Unix(dt, 0)], [time.Unix(dt, 0).Format("2006-01-02")],
    [time.Parse("2006-01-02", s)] (whose error the adapter discards), and
    the order in which Go ranges over the map of the days. *)
Variable GetWithRetry : url -> list Byte.byte + error.
Variable Unmarshal_current : list Byte.byte -> OpenWeatherCurrentResponse + error.
Variable Unmarshal_forecast : list Byte.byte -> OpenWeatherForecastResponse + error.
Variable Unix : Z -> Time.
Variable format_date : Z -> string.
Variable parse_date : string -> Time.
Variable order : list (string * list OpenWeatherItem) -> list (string * list OpenWeatherItem).
Variable baseURL apiKey : string.

Definition OpenWeather_GetCurrentWeather (city : string)
  : exec (option CurrentWeather * option error) :=
  match GetWithRetry (openweather_current_url baseURL city apiKey) with
  | inr err =>
      Done (None, Some (Errorf "failed to fetch current weather: %w" [AErr (Some err)]))
  | inl data =>
      match Unmarshal_current data with
      | inr err => Done (None, Some (Errorf "failed to parse response: %w" [AErr (Some err)]))
      | inl response =>
          if negb (owc_Cod response =? 200)
          then Done (None, Some (Errorf "API error: %d" [AInt (owc_Cod response)]))
          else
            exec_bind (index (owc_Weather response) 0) (fun first =>
              Done (Some {| cw_City := owc_Name response;
                            cw_Temperature := owc_Temp response;
                            cw_FeelsLike := owc_FeelsLike response;
                            cw_Humidity := owc_Humidity response;
                            cw_Pressure := owc_Pressure response;
                            cw_WindSpeed := owc_WindSpeed response;
                            cw_WindDegree := owc_WindDeg response;
                            cw_Description := condition_Description first;
                            cw_Icon := condition_Icon first;
                            cw_Timestamp := Unix (owc_Dt response);
                            cw_Source := "openweathermap" |}, None))
      end
  end.

(** [forecastByDay[date] = append(forecastByDay[date], item)] *)
Definition group_step (forecastByDay : gmap string (list OpenWeatherItem))
    (item : OpenWeatherItem) : gmap string (list OpenWeatherItem) :=
  let date := format_date (item_Dt item) in
  <[date := default [] (forecastByDay !! date) ++ [item]]> forecastByDay.

(** The day built from one entry of [forecastByDay]. *)
Definition openweather_day (e : string * list OpenWeatherItem) : ForecastDay :=
  let items := snd e in
  let acc := fold_left item_step items item_acc_init in
  let described :=
    match items with
    | first :: _ =>
        match item_Weather first with
        | condition :: _ => (condition_Description condition, condition_Icon condition)
        | [] => ("", "")
        end
    | [] => ("", "")
    end in
  {| fd_Date := parse_date (fst e);
     fd_MaxTemp := acc_maxTemp acc;
     fd_MinTemp := acc_minTemp acc;
     fd_AvgTemp := (acc_totalTemp acc / float_of_len (length items))%Q;
     fd_Humidity := (acc_totalHumidity acc / float_of_len (length items))%Q;
     fd_Description := fst described;
     fd_Icon := snd described;
     fd_Precipitation := 0%Q |}.

(** [for dateStr, items := range forecastByDay], left by [break] as soon as
    the forecast has [days] entries. *)
Fixpoint openweather_loop (days : Z) (entries : list (string * list OpenWeatherItem))
    (forecast : list ForecastDay) : list ForecastDay :=
  match entries with
  | [] => forecast
  | e :: rest =>
      if Z.of_nat (length forecast) >=? days then forecast
      else openweather_loop days rest (forecast ++ [openweather_day e])
  end.

Definition OpenWeather_GetForecast (city : string) (days : Z)
  : exec (option WeatherForecast * option error) :=
  match GetWithRetry (openweather_forecast_url baseURL city apiKey days) with
  | inr err => Done (None, Some (Errorf "failed to fetch forecast: %w" [AErr (Some err)]))
  | inl data =>
      match Unmarshal_forecast data with
      | inr err =>
          Done (None, Some (Errorf "failed to parse forecast response: %w" [AErr (Some err)]))
      | inl response =>
          if negb (String.eqb (owf_Cod response) "200")
          then Done (None, Some (Errorf "API error: %s" [AStr (owf_Cod response)]))
          else
            let forecastByDay := fold_left group_step (owf_List response) ∅ in
            if days <? 0 then Panic "makeslice: cap out of range"
            else
              Done (Some {| wf_City := owf_CityName response;
                            wf_Forecast :=
                              openweather_loop days (order (map_to_list forecastByDay)) [];
                            wf_Source := "openweathermap" |}, None)
      end
  end.

End OpenWeather.

(** Readings of one day taken apart, and a decoded answer with three
    readings on two days. *)
Definition temps_of (items : list OpenWeatherItem) : list Q := item_Temp <$> items.

Definition sample_item (dt : Z) (temp : Q) : OpenWeatherItem :=
  {| item_Dt := dt; item_Temp := temp; item_Humidity := 50;
     item_Weather := [{| condition_Description := "clear sky"; condition_Icon := "01d" |}] |}.

Definition sample_openweather : OpenWeatherForecastResponse :=
  {| owf_Cod := "200";
     owf_List := [sample_item 10 4; sample_item 20 8; sample_item 90000 6]%Q;
     owf_CityName := "Prague" |}.

(** Days of 86400 seconds, named by their number. *)
Definition sample_format_date (dt : Z) : string :=
  if dt <? 86400 then "day 0" else "day 1".

(** ** internal/scheduler *)

Record Scheduler := {
  sched_cities : list string;
  sched_interval : Duration;
  sched_running : bool;
  sched_lastRun : Time;
  sched_nextRun : Time;
  sched_skipIfRunning : bool
}.

Definition NewScheduler (cities : list string) (interval : Duration) : Scheduler :=
  {| sched_cities := cities; sched_interval := interval; sched_running := false;
     sched_lastRun := zeroTime; sched_nextRun := zeroTime; sched_skipIfRunning := true |}.

Definition with_lastRun (s : Scheduler) (t : Time) : Scheduler :=
  {| sched_cities := sched_cities s; sched_interval := sched_interval s;
     sched_running := sched_running s; sched_lastRun := t;
     sched_nextRun := sched_nextRun s; sched_skipIfRunning := sched_skipIfRunning s |}.

Definition with_nextRun (s : Scheduler) (t : Time) : Scheduler :=
  {| sched_cities := sched_cities s; sched_interval := sched_interval s;
     sched_running := sched_running s; sched_lastRun := sched_lastRun s;
     sched_nextRun := t; sched_skipIfRunning := sched_skipIfRunning s |}.

Definition with_running (s : Scheduler) (b : bool) : Scheduler :=
  {| sched_cities := sched_cities s; sched_interval := sched_interval s;
     sched_running := b; sched_lastRun := sched_lastRun s;
     sched_nextRun := sched_nextRun s; sched_skipIfRunning := sched_skipIfRunning s |}.

(** [t.IsZero()] *)
Definition IsZero (t : Time) : bool := t =? zeroTime.

(** What sets off [runFetch] once the scheduler is started: a tick of the
    ticker, or [ForceRun]. *)
Inductive trigger : Type :=
| Ticker
| Forced.

Section SchedulerModel.

Variable clock : nat -> Time.
Variable arrival : list APIResponse -> list APIResponse.

(** [runFetch]: the scheduler after the call, and whether a fetch cycle
    ran.  [time.Since(t)] reads the clock. *)
Definition runFetch (s : Scheduler) : M (Scheduler * bool) :=
  skip ← (if sched_skipIfRunning s && negb (IsZero (sched_lastRun s))
          then now ← Now clock; ret (now - sched_lastRun s <? sched_interval s)
          else ret false);
  if (skip : bool) then ret (s, false)
  else
    now ← Now clock;
    let s := with_lastRun s now in
    startTime ← Now clock;
    err ← FetchWeatherData clock arrival (sched_cities s);
    finish ← Now clock;
    ret (s, true).

(** [Start], with the fetch it starts at once. *)
Definition Start (s : Scheduler) : M (Scheduler * bool) :=
  if sched_running s then ret (s, false)
  else
    let s := with_running s true in
    now ← Now clock;
    let s := with_nextRun s (Add now (sched_interval s)) in
    runFetch s.

(** One round of the loop of [run] for a tick, and [ForceRun]. *)
Definition triggered (s : Scheduler) (t : trigger) : M (Scheduler * bool) :=
  match t with
  | Ticker =>
      now ← Now clock;
      runFetch (with_nextRun s (Add now (sched_interval s)))
  | Forced => runFetch s
  end.

(** The instants at which the fetch cycles of a list of triggers
    started. *)
Fixpoint triggered_all (s : Scheduler) (triggers : list trigger)
  : M (Scheduler * list Time) :=
  match triggers with
  | [] => ret (s, [])
  | t :: rest =>
      '(s1, ran) ← triggered s t;
      '(s2, starts) ← triggered_all s1 rest;
      ret (s2, if (ran : bool) then sched_lastRun s1 :: starts else starts)
  end.

(** A scheduler is started and then set off by the triggers. *)
Definition scheduler_run (s : Scheduler) (triggers : list trigger)
  : M (Scheduler * list Time) :=
  '(s1, ran) ← Start s;
  '(s2, starts) ← triggered_all s1 triggers;
  ret (s2, if (ran : bool) then sched_lastRun s1 :: starts else starts).

End SchedulerModel.


(** A clock that advances by 400 at every reading. *)
Definition slow_clock (n : nat) : Time := 1000 + 400 * Z.of_nat n.

(** ** internal/services: building the aggregator *)

(** The settings of [config.Config] that [NewAggregator] reads. *)
Record Config := {
  cfg_OpenWeatherAPIKey : string;
  cfg_CacheDuration : Duration;
  cfg_CacheMaxSize : Z;
  cfg_Threshold : Z;
  cfg_BreakerTimeout : Duration;
  cfg_MaxRetries : Z;
  cfg_RetryDelay : Duration;
  cfg_RetryMultiplier : float64
}.

Definition with_Threshold (cfg : Config) (threshold : Z) : Config :=
  {| cfg_OpenWeatherAPIKey := cfg_OpenWeatherAPIKey cfg;
     cfg_CacheDuration := cfg_CacheDuration cfg;
     cfg_CacheMaxSize := cfg_CacheMaxSize cfg;
     cfg_Threshold := threshold;
     cfg_BreakerTimeout := cfg_BreakerTimeout cfg;
     cfg_MaxRetries := cfg_MaxRetries cfg;
     cfg_RetryDelay := cfg_RetryDelay cfg;
     cfg_RetryMultiplier := cfg_RetryMultiplier cfg |}.

Section NewAggregator.

(** What a client of a given type, built on a given [BaseClient] (and with
    a given API key), answers on the network of the day. *)
Variable connect : ClientType -> BaseClient -> string -> WeatherClient.

Definition NewOpenWeatherClient (apiKey : string) (config : ClientConfig) : WeatherClient :=
  connect OpenWeatherClient (NewBaseClient "openweather" config) apiKey.

Definition NewOpenMeteoClient (config : ClientConfig) : WeatherClient :=
  connect OpenMeteoClient (NewBaseClient "openmeteo" config) "".

Definition NewAggregator (cfg : Config) : option Aggregator * option error :=
  let clientConfig :=
    {| Timeout := 10 * 1000000000;
       MaxRetries := cfg_MaxRetries cfg;
       RetryDelay := cfg_RetryDelay cfg;
       Multiplier := cfg_RetryMultiplier cfg;
       Threshold := cfg_Threshold cfg;
       BreakerTimeout := cfg_BreakerTimeout cfg |} in
  let clients := [] in
  let clients :=
    if negb (String.eqb (cfg_OpenWeatherAPIKey cfg) "")
    then clients ++ [NewOpenWeatherClient (cfg_OpenWeatherAPIKey cfg) clientConfig]
    else clients in
  let clients := clients ++ [NewOpenMeteoClient clientConfig] in
  if (length clients =? 0)%nat
  then (None, Some (Errorf "no weather clients initialized" []))
  else
    (Some {| clients := clients;
             cache := NewWeatherCache (cfg_CacheDuration cfg) (cfg_CacheMaxSize cfg);
             lastFetchTime := zeroTime;
             successCount := 0;
             failureCount := 0;
             weatherData := ∅ |}, None).

End NewAggregator.

Definition default_config : Config :=
  {| cfg_OpenWeatherAPIKey := ""; cfg_CacheDuration := 600000000000;
     cfg_CacheMaxSize := 1000; cfg_Threshold := 3; cfg_BreakerTimeout := 30000000000;
     cfg_MaxRetries := 3; cfg_RetryDelay := 1000000000; cfg_RetryMultiplier := 2%Q |}.

(** ** internal/api: the handlers *)

(** What a handler sends: [c.JSON(data)], or
    [c.Status(status).JSON(fiber.Map{"error": ..., "details": ...})]. *)
Inductive http_response : Type :=
| JSON_current (weather : option AggregatedCurrentWeather)
| JSON_forecast (fc : option AggregatedForecast)
| JSON_error (status : Z) (message : string) (details : option error).

Definition StatusBadRequest : Z := 400.
Definition StatusInternalServerError : Z := 500.


Section Handlers.

Variable clock : nat -> Time.
Variable arrival : list APIResponse -> list APIResponse.

(** [strconv.Atoi]: the number, or [None] for an error. *)
Variable Atoi : string -> option Z.


(** [Handler.GetForecast]; [city] is [c.Query("city")] and [daysStr] is
    [c.Query("days", "3")]. *)
Definition Handler_GetForecast (city daysStr : string) : M http_response :=
  if String.eqb city ""
  then ret (JSON_error StatusBadRequest "City parameter is required" None)
  else
    match Atoi daysStr with
    | None =>
        ret (JSON_error StatusBadRequest "Days parameter must be between 1 and 7" None)
    | Some days =>
        if (days <? 1) || (days >? 7)
        then ret (JSON_error StatusBadRequest "Days parameter must be between 1 and 7" None)
        else
          '(fc, err) ← GetAggregatedForecast clock arrival city days;
          match err with
          | Some e =>
              ret (JSON_error StatusInternalServerError "Failed to fetch forecast data"
                              (Some e))
          | None => ret (JSON_forecast fc)
          end
    end.

End Handlers.

(** A reader of one decimal digit. *)
Definition sample_Atoi (s : string) : option Z :=
  if String.eqb s "3" then Some 3
  else if String.eqb s "5" then Some 5
  else if String.eqb s "9" then Some 9
  else None.

(** ** Sequences of operations on the whole cache *)

Inductive cache_op : Type :=
| OpSetCurrent (city : string) (weather : option AggregatedCurrentWeather) (now : Time)
| OpSetForecast (city : string) (days : Z) (fc : option AggregatedForecast) (now : Time)
| OpGetCurrent (city : string) (now : Time)
| OpGetForecast (city : string) (days : Z) (now : Time)
| OpCleanup (now : Time).

Definition apply_cache_op (c : WeatherCache) (op : cache_op) : WeatherCache :=
  match op with
  | OpSetCurrent city weather now => SetCurrentWeather c city weather now
  | OpSetForecast city days fc now => SetForecast c city days fc now
  | OpGetCurrent city now => snd (GetCurrentWeather c city now)
  | OpGetForecast city days now => snd (GetForecast c city days now)
  | OpCleanup now => cleanup_loops c now
  end.

(** The city an operation writes, if it writes. *)
Definition op_city (op : cache_op) : option string :=
  match op with
  | OpSetCurrent city _ _ | OpSetForecast city _ _ _ => Some city
  | _ => None
  end.

(** The number of forecasts in the forecast store. *)
Definition forecast_count (m : gmap string (gmap Z CacheItem)) : nat :=
  length (forecast_entries (map_to_list m)).

Definition sample_cache_ops : list cache_op :=
  [OpSetForecast "Prague" 1 None 1000; OpSetCurrent "Prague" None 1001;
   OpSetForecast "London" 1 None 1002; OpGetForecast "Prague" 1 1003;
   OpSetCurrent "London" None 1004; OpCleanup 1005].

(** * Properties *)

(** ** Arithmetic of the loops *)




Lemma Qgtb_true (a b : Q) : Qgtb a b = true <-> (b < a)%Q.
Proof.
  unfold Qgtb. rewrite negb_true_iff. split.
  - intros H. apply Qnot_le_lt. intros Hle.
    apply Qle_bool_iff in Hle. congruence.
  - intros H. destruct (Qle_bool a b) eqn:E; [|done].
    apply Qle_bool_iff in E. lra.
Qed.

Lemma Qgtb_false (a b : Q) : Qgtb a b = false <-> (a <= b)%Q.
Proof.
  unfold Qgtb. rewrite negb_false_iff. apply Qle_bool_iff.
Qed.

Lemma Qltb_true (a b : Q) : Qltb a b = true <-> (a < b)%Q.
Proof. apply Qgtb_true. Qed.

Lemma Qltb_false (a b : Q) : Qltb a b = false <-> (b <= a)%Q.
Proof. apply Qgtb_false. Qed.


(** ** The confidence score *)









Example calculateConfidence_10_20 : (calculateConfidence readings_10_20 == 0.1)%Q.
Proof. vm_compute. reflexivity. Qed.


(** ** Merging current weather *)






Example aggregateCurrentWeather_10_20 :
  exists r, aggregateCurrentWeather snapshot_10_20 = Some r /\
            (acw_Temperature r == 15)%Q /\ (acw_Confidence r == 0.1)%Q /\
            acw_LastUpdated r = 2000 /\
            acw_Sources r ≡ₚ ["openweathermap"; "open-meteo"].
Proof.
  eexists. split; [vm_compute; reflexivity|]. cbn.
  repeat split; reflexivity.
Qed.



(** ** Merging forecasts *)

Lemma collect_loop (days : Z) (entries : list (string * WeatherForecast))
    (allForecasts : list (list ForecastDay)) (srcs : list string) :
  0 <= days ->
  fold_left (collect_step days) entries (Done (allForecasts, srcs))
  = Done (allForecasts
            ++ ((fun e => take (Z.to_nat days) (wf_Forecast (snd e)))
                  <$> filter (enough_entries days) entries),
          srcs ++ (fst <$> filter (enough_entries days) entries)).
Proof.
  intros Hdays. revert allForecasts srcs.
  induction entries as [|e entries IH]; intros allForecasts srcs.
  - cbn. by rewrite !app_nil_r.
  - cbn [fold_left]. unfold collect_step at 2. cbn [exec_bind].
    destruct (decide (enough_entries days e)) as [Hyes|Hno].
    + rewrite filter_cons_True by done. unfold enough_entries in Hyes.
      destruct (Z.of_nat (length (wf_Forecast e.2)) >=? days) eqn:E;
        [|rewrite Z.geb_leb in E; apply Z.leb_gt in E; lia].
      unfold slice_to.
      destruct (Z.leb_spec 0 days); [|lia].
      destruct (Z.leb_spec days (Z.of_nat (length (wf_Forecast e.2)))); [|lia].
      cbn [andb exec_bind]. rewrite IH. cbn [fmap list_fmap].
      by rewrite <- !app_assoc.
    + rewrite filter_cons_False by done. unfold enough_entries in Hno.
      destruct (Z.of_nat (length (wf_Forecast e.2)) >=? days) eqn:E;
        [rewrite Z.geb_leb in E; apply Z.leb_le in E; lia|].
      apply IH.
Qed.

(** What the inner loop of [aggregateForecast] accumulates for one day. *)
Lemma day_loop (i : nat) (allForecasts : list (list ForecastDay)) (acc : day_acc) :
  let r := fold_left (day_step i) allForecasts acc in
  let ds := omap (fun f : list ForecastDay => f !! i) allForecasts in
  (totalMaxTemp r == totalMaxTemp acc + Qsum (fd_MaxTemp <$> ds))%Q /\
  (totalMinTemp r == totalMinTemp acc + Qsum (fd_MinTemp <$> ds))%Q /\
  (totalAvgTemp r == totalAvgTemp acc + Qsum (fd_AvgTemp <$> ds))%Q /\
  (dayTotalHumidity r == dayTotalHumidity acc + Qsum (fd_Humidity <$> ds))%Q /\
  (totalPrecipitation r == totalPrecipitation acc + Qsum (fd_Precipitation <$> ds))%Q /\
  dayCount r = (dayCount acc + length ds)%nat.
Proof.
  unfold Qsum. revert acc.
  induction allForecasts as [|f allForecasts IH]; intros acc; cbn.
  - repeat split; try lra. lia.
  - destruct (IH (day_step i acc f)) as (H1 & H2 & H3 & H4 & H5 & H6).
    rewrite H1, H2, H3, H4, H5, H6. clear IH H1 H2 H3 H4 H5 H6.
    unfold day_step. destruct (f !! i) as [d|]; cbn.
    + repeat split; try lra. lia.
    + repeat split; reflexivity.
Qed.

(** The loop over the days fills the positions below [k]. *)
Lemma days_loop (allForecasts : list (list ForecastDay)) (init : list ForecastDay) (k : nat) :
  let r := fold_left (aggregate_day allForecasts) (seq 0 k) init in
  length r = length init /\
  forall i, (i < length init)%nat ->
    r !! i =
    if decide (i < k)%nat
    then let acc := fold_left (day_step i) allForecasts day_acc_init in
         if (dayCount acc =? 0)%nat then init !! i
         else Some (merged_day allForecasts i acc)
    else init !! i.
Proof.
  induction k as [|k IH].
  - cbn. split; [done|]. intros i Hi. destruct (decide (i < 0)%nat); [lia|done].
  - rewrite seq_S, fold_left_app. cbn [fold_left plus].
    destruct IH as [Hlen IH]. cbv zeta in *.
    set (r := fold_left (aggregate_day allForecasts) (seq 0 k) init) in *.
    unfold aggregate_day.
    destruct (dayCount (fold_left (day_step k) allForecasts day_acc_init) =? 0)%nat eqn:E.
    + split; [done|]. intros i Hi. rewrite (IH i Hi).
      destruct (decide (i < k)%nat), (decide (i < S k)%nat); try lia; try done.
      assert (i = k) as -> by lia. by rewrite E.
    + rewrite length_insert. split; [done|]. intros i Hi.
      destruct (decide (i = k)) as [->|Hne].
      * rewrite list_lookup_insert_eq by lia.
        destruct (decide (k < S k)%nat); [|lia]. by rewrite E.
      * rewrite list_lookup_insert_ne by done. rewrite (IH i Hi).
        destruct (decide (i < k)%nat), (decide (i < S k)%nat); try lia; done.
Qed.

Lemma day_entries_take (i n : nat) (cs : list (string * WeatherForecast)) :
  (i < n)%nat ->
  omap (fun f : list ForecastDay => f !! i)
       ((fun e => take n (wf_Forecast (snd e))) <$> cs)
  = day_entries i cs.
Proof.
  intros Hi. unfold day_entries. induction cs as [|e cs IH]; [done|].
  cbn. rewrite lookup_take_lt by done. by rewrite IH.
Qed.

Lemma day_entries_length (i : nat) (days : Z) (l : list (string * WeatherForecast)) :
  (i < Z.to_nat days)%nat ->
  length (day_entries i (filter (enough_entries days) l))
  = length (filter (enough_entries days) l).
Proof.
  intros Hi. unfold day_entries. induction l as [|e l IH]; [done|].
  destruct (decide (enough_entries days e)) as [Hyes|Hno].
  - rewrite filter_cons_True by done. cbn.
    destruct (lookup_lt_is_Some_2 (wf_Forecast e.2) i) as [d Hd].
    { unfold enough_entries in Hyes. lia. }
    rewrite Hd. cbn. by rewrite IH.
  - by rewrite filter_cons_False.
Qed.

Lemma mean_of_day_total (f : ForecastDay -> Q) (ds : list ForecastDay) (total : Q) (n : nat) :
  (total == 0 + Qsum (f <$> ds))%Q -> n = (0 + length ds)%nat ->
  (total / float_of_len n == mean (f <$> ds))%Q.
Proof.
  intros -> ->. unfold mean. rewrite length_fmap, Qplus_0_l. reflexivity.
Qed.

(** C9. For a day-count [days >= 0] the forecast merge uses exactly the
    providers that supplied at least [days] entries, each cut to its first
    [days] entries (day [i] of the result averages the entries of day [i]
    of every such provider), and it yields nil, not an empty forecast, when
    no provider supplied enough entries. *)
Theorem aggregateForecast_spec (data : WeatherData) (days : Z) (now : Time) :
  0 <= days ->
  let cs := contributors data days in
  (cs = [] -> aggregateForecast data days now = Done None) /\
  (cs <> [] ->
   exists r,
     aggregateForecast data days now = Done (Some r) /\
     af_Sources r = fst <$> cs /\
     (forall s, s ∈ af_Sources r <->
                exists f, wd_Forecasts data !! s = Some f /\
                          days <= Z.of_nat (length (wf_Forecast f))) /\
     length (af_Days r) = Z.to_nat days /\
     forall i, (i < Z.to_nat days)%nat ->
       exists d,
         af_Days r !! i = Some d /\
         length (day_entries i cs) = length cs /\
         (fd_MaxTemp d == mean (fd_MaxTemp <$> day_entries i cs))%Q /\
         (fd_MinTemp d == mean (fd_MinTemp <$> day_entries i cs))%Q /\
         (fd_AvgTemp d == mean (fd_AvgTemp <$> day_entries i cs))%Q /\
         (fd_Humidity d == mean (fd_Humidity <$> day_entries i cs))%Q /\
         (fd_Precipitation d == mean (fd_Precipitation <$> day_entries i cs))%Q).
Proof.
  intros Hdays cs. unfold aggregateForecast, aggregateForecast_entries.
  unfold contributors in cs.
  set (l := map_to_list (wd_Forecasts data)) in *.
  destruct (Nat.eqb_spec (length l) 0) as [Hnil|Hnonnil].
  { apply length_zero_iff_nil in Hnil. subst cs. rewrite Hnil. split; [done|].
    intros H. by rewrite filter_nil in H. }
  rewrite collect_loop by done. cbn [exec_bind app]. fold cs.
  destruct (Nat.eqb_spec (length ((fun e => take (Z.to_nat days) (wf_Forecast e.2)) <$> cs)) 0)
    as [Hz|Hnz]; rewrite length_fmap in *.
  { apply length_zero_iff_nil in Hz. split; [done|]. intros H. by destruct H. }
  split; [intros Hcs; rewrite Hcs in Hnz; done|]. intros _.
  destruct (Z.ltb_spec days 0) as [|_]; [lia|].
  eexists. split; [reflexivity|]. cbn [af_Sources af_Days].
  set (all := (fun e => take (Z.to_nat days) (wf_Forecast e.2)) <$> cs).
  pose proof (days_loop all (replicate (Z.to_nat days) zeroForecastDay) (Z.to_nat days))
    as [Hlen Hlook].
  rewrite length_replicate in Hlen, Hlook.
  split; [done|]. split; [|split; [exact Hlen|]].
  - intros s. subst cs. split.
    + intros Hs. apply list_elem_of_fmap in Hs as ([s' f] & -> & He).
      apply list_elem_of_filter in He as [Hen He].
      apply elem_of_map_to_list in He. by exists f.
    + intros (f & Hf & Hen). apply list_elem_of_fmap. exists (s, f). split; [done|].
      apply list_elem_of_filter. split; [done|]. by apply elem_of_map_to_list.
  - intros i Hi. rewrite (Hlook i Hi). destruct (decide (i < Z.to_nat days)%nat); [|lia].
    pose proof (day_loop i all day_acc_init) as (H1 & H2 & H3 & H4 & H5 & H6).
    cbv zeta in *. unfold all in H1, H2, H3, H4, H5, H6.
    rewrite (day_entries_take i (Z.to_nat days) cs Hi) in H1, H2, H3, H4, H5, H6.
    fold all in H1, H2, H3, H4, H5, H6.
    pose proof (day_entries_length i days l Hi) as Hl. fold cs in Hl.
    set (acc := fold_left (day_step i) all day_acc_init) in *.
    destruct (Nat.eqb_spec (dayCount acc) 0) as [Hc|_].
    { rewrite H6, Hl in Hc. cbn in Hc. lia. }
    eexists. split; [reflexivity|]. split; [exact Hl|].
    unfold merged_day. cbn.
    repeat split; by apply mean_of_day_total.
Qed.

Example aggregateForecast_two_days :
  exists r, aggregateForecast snapshot_forecasts 2 5000 = Done (Some r) /\
            af_Sources r ≡ₚ ["openweathermap"; "open-meteo"] /\
            Forall2 Qeq (fd_MaxTemp <$> af_Days r) [25; 27]%Q.
Proof.
  eexists. split; [vm_compute; reflexivity|]. cbn. split; [reflexivity|].
  repeat constructor.
Qed.

Example aggregateForecast_three_days :
  exists r, aggregateForecast snapshot_forecasts 3 5000 = Done (Some r) /\
            af_Sources r = ["openweathermap"] /\
            Forall2 Qeq (fd_MaxTemp <$> af_Days r) [20; 22; 24]%Q.
Proof.
  eexists. split; [vm_compute; reflexivity|]. cbn. split; [reflexivity|].
  repeat constructor.
Qed.

Example aggregateForecast_four_days :
  aggregateForecast snapshot_forecasts 4 5000 = Done None.
Proof. vm_compute. reflexivity. Qed.

(** A negative day-count makes the slice expression panic. *)
Example aggregateForecast_negative_days :
  aggregateForecast snapshot_forecasts (-1) 5000 = Panic "slice bounds out of range".
Proof. vm_compute. reflexivity. Qed.

Lemma aggregateForecast_spec_witness :
  0 <= 3 /\
  aggregateForecast snapshot_forecasts 4 5000 = Done None /\
  exists r, aggregateForecast snapshot_forecasts 3 5000 = Done (Some r) /\
            af_Sources r = fst <$> contributors snapshot_forecasts 3.
Proof.
  split; [lia|]. split.
  - apply (aggregateForecast_spec snapshot_forecasts 4 5000); [lia|].
    vm_compute. reflexivity.
  - destruct (aggregateForecast_spec snapshot_forecasts 3 5000) as [_ H]; [lia|].
    destruct H as (r & Hr & Hs & _).
    + vm_compute. discriminate.
    + exists r. split; [exact Hr|exact Hs].
Defined.

(** ** The cache *)

Lemma delete_forecast_lookup (city : string) (days : Z)
    (m : gmap string (gmap Z CacheItem)) :
  m !! city ≫= (fun inner => inner !! days) <> None ->
  delete_forecast city days m !! city ≫= (fun inner => inner !! days) = None.
Proof.
  unfold delete_forecast. destruct (m !! city) as [inner|] eqn:E; cbn.
  - intros _. rewrite lookup_insert_eq. cbn. apply lookup_delete_eq.
  - done.
Qed.

Lemma delete_forecast_lookup_ne (city city' : string) (days days' : Z)
    (m : gmap string (gmap Z CacheItem)) :
  (city', days') <> (city, days) ->
  delete_forecast city days m !! city' ≫= (fun inner => inner !! days')
  = m !! city' ≫= (fun inner => inner !! days').
Proof.
  intros Hne. unfold delete_forecast. destruct (m !! city) as [inner|] eqn:E; [|done].
  destruct (decide (city' = city)) as [->|Hc].
  - rewrite lookup_insert_eq, E. cbn. apply lookup_delete_ne. congruence.
  - by rewrite lookup_insert_ne.
Qed.

(** C3. A read whose stored entry is past its expiry instant returns absent
    and deletes that entry (and nothing else), whatever the background
    sweep did or did not do before; a payload that is returned is never
    past its expiry instant.  Both stores. *)
Theorem cache_read_checks_expiry (c : WeatherCache) (now : Time) :
  (forall city item,
     currentWeather c !! city = Some item -> ExpiresAt item < now ->
     exists c',
       GetCurrentWeather c city now = ((None, false), c') /\
       currentWeather c' = delete city (currentWeather c) /\
       currentWeather c' !! city = None /\
       forecast c' = forecast c) /\
  (forall city weather c',
     GetCurrentWeather c city now = ((weather, true), c') ->
     c' = c /\
     exists item, currentWeather c !! city = Some item /\
                  Data item = CurrentData weather /\ now <= ExpiresAt item) /\
  (forall city days item,
     forecast c !! city ≫= (fun inner => inner !! days) = Some item ->
     ExpiresAt item < now ->
     exists c',
       GetForecast c city days now = ((None, false), c') /\
       forecast c' !! city ≫= (fun inner => inner !! days) = None /\
       (forall city' days', (city', days') <> (city, days) ->
          forecast c' !! city' ≫= (fun inner => inner !! days')
          = forecast c !! city' ≫= (fun inner => inner !! days')) /\
       currentWeather c' = currentWeather c) /\
  (forall city days fc c',
     GetForecast c city days now = ((fc, true), c') ->
     c' = c /\
     exists item, forecast c !! city ≫= (fun inner => inner !! days) = Some item /\
                  Data item = ForecastData fc /\ now <= ExpiresAt item).
Proof.
  split; [|split; [|split]].
  - intros city item Hitem Hexp. unfold GetCurrentWeather. rewrite Hitem.
    unfold After. destruct (Z.ltb_spec (ExpiresAt item) now); [|lia].
    eexists. split; [reflexivity|]. cbn. split; [done|]. split; [|done].
    apply lookup_delete_eq.
  - intros city weather c' H. unfold GetCurrentWeather in H.
    destruct (currentWeather c !! city) as [item|]; [|congruence].
    unfold After in H. destruct (Z.ltb_spec (ExpiresAt item) now); [congruence|].
    destruct (Data item) eqn:E; [|congruence].
    injection H as -> ->. split; [done|]. exists item. split; [done|]. split; [done|lia].
  - intros city days item Hitem Hexp. unfold GetForecast.
    destruct (forecast c !! city) as [inner|] eqn:E; [|done]. cbn in Hitem.
    rewrite Hitem. unfold After. destruct (Z.ltb_spec (ExpiresAt item) now); [|lia].
    eexists. split; [reflexivity|]. cbn. split; [|split; [|done]].
    + apply delete_forecast_lookup. rewrite E. cbn. congruence.
    + intros city' days' Hne. by apply delete_forecast_lookup_ne.
  - intros city days fc c' H. unfold GetForecast in H.
    destruct (forecast c !! city) as [inner|]; [|congruence]. cbn.
    destruct (inner !! days) as [item|]; [|congruence].
    unfold After in H. destruct (Z.ltb_spec (ExpiresAt item) now); [congruence|].
    destruct (Data item) eqn:E; [congruence|].
    injection H as -> ->. split; [done|]. exists item. split; [done|]. split; [done|lia].
Qed.

(** The result of a read does not depend on whether the sweep ran before
    it. *)
Lemma GetCurrentWeather_after_cleanup (c : WeatherCache) (t now : Time) (city : string) :
  t <= now ->
  fst (GetCurrentWeather (cleanup c t) city now) = fst (GetCurrentWeather c city now).
Proof.
  intros Ht. unfold GetCurrentWeather, cleanup. cbn.
  rewrite map_lookup_filter.
  destruct (currentWeather c !! city) as [item|]; cbn; [|done].
  unfold expired, After. case_guard as Hg; cbn in *.
  - destruct (ExpiresAt item <? now); [done|]. by destruct (Data item).
  - destruct (Z.ltb_spec (ExpiresAt item) t); [|done].
    destruct (Z.ltb_spec (ExpiresAt item) now); [done|lia].
Qed.

Lemma swept_entry_is_expired (inner : gmap Z CacheItem) (days : Z)
    (item : CacheItem) (t now : Time) :
  t <= now -> inner !! days = Some item ->
  filter (fun e : Z * CacheItem => expired t e.2 = false) inner !! days = None ->
  After now (ExpiresAt item) = true.
Proof.
  intros Ht Hi Hf. rewrite map_lookup_filter, Hi in Hf. cbn in Hf.
  unfold expired, After in *. case_guard as Hg; cbn in *; [done|].
  destruct (Z.ltb_spec (ExpiresAt item) t); [|done].
  destruct (Z.ltb_spec (ExpiresAt item) now); [done|lia].
Qed.

Lemma GetForecast_after_cleanup (c : WeatherCache) (t now : Time)
    (city : string) (days : Z) :
  t <= now ->
  fst (GetForecast (cleanup c t) city days now) = fst (GetForecast c city days now).
Proof.
  intros Ht. unfold GetForecast, cleanup. cbn.
  rewrite map_lookup_filter, lookup_fmap.
  destruct (forecast c !! city) as [inner|]; cbn; [|done].
  case_guard as Hg; cbn.
  - destruct (inner !! days) as [item|] eqn:Hi.
    + destruct (filter _ inner !! days) as [item'|] eqn:Hf.
      * apply map_lookup_filter_Some in Hf as [Hf _].
        rewrite Hi in Hf. injection Hf as <-.
        destruct (After now (ExpiresAt item)); [done|]. by destruct (Data item).
      * by rewrite (swept_entry_is_expired inner days item t now Ht Hi Hf).
    + by rewrite map_lookup_filter, Hi.
  - destruct (inner !! days) as [item|] eqn:Hi; [|done].
    rewrite (swept_entry_is_expired inner days item t now Ht Hi); [done|].
    destruct (filter _ inner !! days) eqn:Hf; [|done].
    apply map_size_empty_inv in Hg.
    rewrite Hg in Hf. by rewrite lookup_empty in Hf.
Qed.

Lemma cache_read_checks_expiry_witness :
  ExpiresAt {| Data := CurrentData (Some sample_current); ExpiresAt := 1600 |} < 1601 /\
  (exists c', GetCurrentWeather cache_with_both "Prague" 1601 = ((None, false), c') /\
              currentWeather c' !! "Prague" = None) /\
  (exists c', GetForecast cache_with_both "Prague" 1 1602 = ((None, false), c') /\
              forecast c' !! "Prague" ≫= (fun inner => inner !! 1) = None).
Proof.
  split; [cbn; lia|]. split.
  - destruct (cache_read_checks_expiry cache_with_both 1601) as (H & _).
    destruct (H "Prague" {| Data := CurrentData (Some sample_current); ExpiresAt := 1600 |})
      as (c' & Hget & _ & Hgone & _); [vm_compute; reflexivity | cbn; lia |].
    exists c'. split; [exact Hget|exact Hgone].
  - destruct (cache_read_checks_expiry cache_with_both 1602) as (_ & _ & H & _).
    destruct (H "Prague" 1 {| Data := ForecastData (Some sample_forecast); ExpiresAt := 1601 |})
      as (c' & Hget & Hgone & _); [vm_compute; reflexivity | cbn; lia |].
    exists c'. split; [exact Hget|exact Hgone].
Defined.

Example GetCurrentWeather_before_expiry :
  GetCurrentWeather cache_with_both "Prague" 1600
  = ((Some sample_current, true), cache_with_both).
Proof. vm_compute. reflexivity. Qed.

(** ** The coordinator *)







Ltac run_M :=
  unfold mbind, M_bind, bind, mret, M_ret, ret, get_agg, modify_agg, lift_exec;
  cbn [exec_bind].



Lemma evictOldestForecast_currentWeather (c : WeatherCache) :
  currentWeather (evictOldestForecast c) = currentWeather c /\
  defaultDuration (evictOldestForecast c) = defaultDuration c /\
  maxSize (evictOldestForecast c) = maxSize c.
Proof.
  unfold evictOldestForecast.
  destruct (fold_left _ _ _) as [[oldestCity oldestDays] oldestTime].
  by destruct (negb _).
Qed.

Lemma SetForecast_currentWeather (c : WeatherCache) (city : string) (days : Z)
    (fc : option AggregatedForecast) (now : Time) :
  currentWeather (SetForecast c city days fc now) = currentWeather c /\
  defaultDuration (SetForecast c city days fc now) = defaultDuration c /\
  maxSize (SetForecast c city days fc now) = maxSize c.
Proof.
  unfold SetForecast. cbn.
  set (c1 := match forecast c !! city with
             | Some _ => c
             | None => set_forecast c (<[city:=∅]> (forecast c))
             end).
  assert (H1 : currentWeather c1 = currentWeather c /\
               defaultDuration c1 = defaultDuration c /\ maxSize c1 = maxSize c).
  { unfold c1. by destruct (forecast c !! city). }
  destruct H1 as (E1 & E2 & E3).
  destruct (Z.of_nat (totalItems c1) >=? maxSize c1).
  - destruct (evictOldestForecast_currentWeather c1) as (F1 & F2 & F3).
    repeat split; congruence.
  - repeat split; congruence.
Qed.

Section CoordinatorFacts.

Variable clock : nat -> Time.
Variable arrival : list APIResponse -> list APIResponse.

(** The channel delivers every response once, in some order. *)
Hypothesis arrival_perm : forall l, arrival l ≡ₚ l.






(** C10. A day-count below 1 or above 7 makes [GetAggregatedForecast]
    return the error at once: whatever the cache holds and whatever the
    clients would answer, nothing is read from the cache, no fetch cycle
    runs, the clock is not read and the state is unchanged. *)
Theorem GetAggregatedForecast_invalid_days (city : string) (days : Z) (w : World) :
  days < 1 \/ days > 7 ->
  GetAggregatedForecast clock arrival city days w
  = Done ((None, Some (Errorf "days must be between 1 and 7" [])), w).
Proof.
  intros Hdays. unfold GetAggregatedForecast.
  destruct (Z.ltb_spec days 1) as [|Hge]; [reflexivity|].
  destruct (Z.gtb_spec days 7) as [|Hle]; [reflexivity|]. lia.
Qed.

End CoordinatorFacts.

Example fetchCityWeather_one_of_three :
  exists w' item consensus,
    fetchCityWeather sample_clock sample_arrival "Prague" world_one_of_three = Done (None, w') /\
    currentWeather (cache (agg w')) !! "Prague" = Some item /\
    Data item = CurrentData (Some consensus) /\
    acw_Sources consensus = ["open-meteo"] /\
    successCount (agg w') = 0.
Proof.
  eexists _, _, _. split; [vm_compute; reflexivity|].
  split; [vm_compute; reflexivity|].
  split; [vm_compute; reflexivity|].
  split; vm_compute; reflexivity.
Qed.

Example fetchCityWeather_all_fail :
  fetchCityWeather sample_clock sample_arrival "Prague" world_all_fail
  = Done (Some (Errorf "all API calls failed for city %s" [AStr "Prague"]),
          {| agg := agg world_all_fail; ticks := 1 |}).
Proof. vm_compute. reflexivity. Qed.


Example GetAggregatedForecast_day_zero_cached :
  fst (GetForecast (cache (agg world_with_day_zero)) "Prague" 0 1001)
  = (Some sample_forecast, true).
Proof. vm_compute. reflexivity. Qed.

Lemma GetAggregatedForecast_invalid_days_witness :
  (0 < 1 \/ 0 > 7) /\
  GetAggregatedForecast sample_clock sample_arrival "Prague" 0 world_with_day_zero
  = Done ((None, Some (Errorf "days must be between 1 and 7" [])),
          world_with_day_zero).
Proof.
  assert (H : 0 < 1 \/ 0 > 7) by (left; lia).
  split; [exact H|].
  exact (GetAggregatedForecast_invalid_days sample_clock sample_arrival "Prague" 0
           world_with_day_zero H).
Defined.

Example GetAggregatedForecast_valid_days :
  exists r w',
    GetAggregatedForecast sample_clock sample_arrival "Prague" 2 world_one_of_three
    = Done ((Some r, None), w') /\
    af_Sources r = ["open-meteo"] /\ length (af_Days r) = 2%nat /\
    successCount (agg w') = 1 /\ lastFetchTime (agg w') = 1000.
Proof.
  eexists _, _. split; [vm_compute; reflexivity|].
  split; [vm_compute; reflexivity|].
  split; [vm_compute; reflexivity|].
  split; vm_compute; reflexivity.
Qed.

(** ** The resilient fetcher *)

Example doGetWithRetry_503 :
  doGetWithRetry default_client (always (DoResponse 503 (inl [])))
  = (inr (max_retries_exceeded (Some (Errorf "HTTP %d" [AInt 503]))),
     [Do 0; Wait 1 1000000000; Do 1; Wait 2 2000000000; Do 2;
      Wait 3 4000000000; Do 3]).
Proof. vm_compute. reflexivity. Qed.

Example doGetWithRetry_404 :
  doGetWithRetry default_client (always (DoResponse 404 (inl [])))
  = (inr (max_retries_exceeded (Some (Errorf "HTTP %d" [AInt 404]))), [Do 0]).
Proof. vm_compute. reflexivity. Qed.

Example doGetWithRetry_200 :
  doGetWithRetry default_client (always (DoResponse 200 (inl [Byte.x78])))
  = (inl [Byte.x78], [Do 0]).
Proof. vm_compute. reflexivity. Qed.

Example doGetWithRetry_cancelled :
  doGetWithRetry default_client (cancelled_at_2 (DoResponse 429 (inl [])))
  = (inr ContextCanceled, [Do 0; Wait 1 1000000000; Do 1; Wait 2 2000000000]).
Proof. vm_compute. reflexivity. Qed.

(** The loop of the source, one iteration at a time. *)
Lemma retry_loop_cons (c : BaseClient) (net : Network)
    (attempt : Z) (rest : list Z) (lastErr : option error) :
  retry_loop c net (attempt :: rest) lastErr
  = match attempt_step c net attempt with
    | Return r evs => (r, evs)
    | Continue lastErr' evs =>
        let '(r, evs') := retry_loop c net rest lastErr' in (r, evs ++ evs')
    end.
Proof.
  cbn [retry_loop]. unfold attempt_step, waited, classify.
  destruct (if 0 <? attempt then ctxDone net attempt else None); [done|].
  destruct (newRequest net); [done|].
  destruct (roundTrip net attempt) as [err|StatusCode body].
  - destruct (retry_loop c net rest (Some err)). by rewrite <- app_assoc.
  - destruct ((200 <=? StatusCode) && (StatusCode <? 300)).
    + destruct body as [bytes|err]; [done|].
      destruct (retry_loop c net rest (Some err)). by rewrite <- app_assoc.
    + destruct ((400 <=? StatusCode) && (StatusCode <? 500) && negb (StatusCode =? 429));
        [done|].
      destruct (retry_loop c net rest _). by rewrite <- app_assoc.
Qed.




Lemma attempt_step_case (c : BaseClient) (net : Network) (attempt : Z) :
  step_case c net attempt (attempt_step c net attempt).
Proof.
  unfold attempt_step.
  destruct (Z.ltb_spec 0 attempt) as [Hpos|Hneg].
  - destruct (ctxDone net attempt) as [err|] eqn:Hctx.
    + unfold waited. destruct (Z.ltb_spec 0 attempt); [|lia]. by constructor.
    + destruct (newRequest net) as [err|] eqn:Hnew; [by constructor|].
      destruct (classify (roundTrip net attempt)) eqn:Hcls; by constructor.
  - destruct (newRequest net) as [err|] eqn:Hnew; [constructor; [lia|done]|].
    destruct (classify (roundTrip net attempt)) eqn:Hcls; constructor; try done; lia.
Qed.

















(** ** The settings of the circuit breaker *)

(** The [ReadyToTrip] predicate passed to the breaker holds exactly when at
    least three requests were counted and at least 0.6 of them failed. *)
Lemma ReadyToTrip_spec (counts : Counts) :
  ReadyToTrip counts = true <->
  3 <= Requests counts /\
  (0.6 * inject_Z (Requests counts) <= inject_Z (TotalFailures counts))%Q.
Proof.
  unfold ReadyToTrip. rewrite andb_true_iff, Qle_bool_iff, Z.geb_le.
  split.
  - intros [Hreq Hratio]. split; [done|].
    assert (Hpos : (0 < inject_Z (Requests counts))%Q).
    { change 0%Q with (inject_Z 0). rewrite <- Zlt_Qlt. lia. }
    pose proof (Qmult_le_compat_r _ _ _ Hratio (Qlt_le_weak _ _ Hpos)) as H.
    rewrite (Qmult_comm (_ / _)), Qmult_div_r in H; [exact H|].
    intros Hz. rewrite Hz in Hpos. by apply Qlt_irrefl in Hpos.
  - intros [Hreq Hratio]. split; [done|].
    assert (Hpos : (0 < inject_Z (Requests counts))%Q).
    { change 0%Q with (inject_Z 0). rewrite <- Zlt_Qlt. lia. }
    apply Qle_shift_div_l; done.
Qed.

Lemma NewBaseClient_breaker (name : string) (config : ClientConfig) :
  breaker_MaxRequests (circuitBreaker (NewBaseClient name config)) = 1 /\
  breaker_Interval (circuitBreaker (NewBaseClient name config)) = 0 /\
  breaker_Timeout (circuitBreaker (NewBaseClient name config)) = BreakerTimeout config /\
  breaker_ReadyToTrip (circuitBreaker (NewBaseClient name config)) = ReadyToTrip.
Proof. done. Qed.

Example ReadyToTrip_two_of_three :
  ReadyToTrip {| Requests := 3; TotalSuccesses := 1; TotalFailures := 2;
                 ConsecutiveSuccesses := 1; ConsecutiveFailures := 0 |} = true.
Proof. reflexivity. Qed.

Example ReadyToTrip_two_of_two :
  ReadyToTrip {| Requests := 2; TotalSuccesses := 0; TotalFailures := 2;
                 ConsecutiveSuccesses := 0; ConsecutiveFailures := 2 |} = false.
Proof. reflexivity. Qed.

(** ** The backoff delay for an integral multiplier *)

Lemma Duration_of_float_integer (x : Q) (z : Z) :
  (x == inject_Z z)%Q -> Duration_of_float x = z.
Proof.
  unfold Qeq, Duration_of_float. cbn. intros H.
  rewrite Z.mul_1_r in H. rewrite H. apply Z.quot_mul. done.
Qed.

(** With an integral multiplier (2 by default) the conversion to a
    [time.Duration] loses nothing: retry [k] waits exactly
    [retryDelay * multiplier^(k-1)] nanoseconds. *)
Lemma backoff_delay_integer (c : BaseClient) (m k : Z) :
  multiplier c = inject_Z m -> 1 <= k ->
  backoff_delay c k = retryDelay c * m ^ (k - 1).
Proof.
  intros Hm Hk. unfold backoff_delay. apply Duration_of_float_integer.
  rewrite Hm, inject_Z_mult, Zpower_Qpower by lia. reflexivity.
Qed.

Example backoff_delay_default :
  backoff_delay default_client <$> [1; 2; 3]
  = [1000000000; 2000000000; 4000000000].
Proof. reflexivity. Qed.

(** ** The capacity of the cache *)

(** The loop of [evictOldestCurrent], started on a city already chosen,
    ends on an entry with the earliest expiry met so far, provided no city
    name is empty (the loop takes an empty [oldestKey] for "nothing chosen
    yet"). *)
Lemma oldest_current_loop (l : list (string * CacheItem)) (k0 : string) (t0 : Time) :
  k0 <> "" -> Forall (fun e => fst e <> "") l ->
  let '(k, t) := fold_left oldest_current_step l (k0, t0) in
  k <> "" /\ t <= t0 /\
  (forall e, e ∈ l -> t <= ExpiresAt (snd e)) /\
  ((k, t) = (k0, t0) \/ exists item, (k, item) ∈ l /\ t = ExpiresAt item).
Proof.
  intros Hk0 Hl. revert k0 t0 Hk0.
  induction Hl as [|[k1 item1] l Hk1 _ IH]; intros k0 t0 Hk0.
  - cbn. split; [done|]. split; [lia|]. split; [|by left].
    intros e He. by apply elem_of_nil in He.
  - cbn [fold_left]. unfold oldest_current_step at 2. cbn [fst snd] in *.
    destruct (String.eqb_spec k0 ""); [done|]. cbn [orb]. unfold Before.
    destruct (Z.ltb_spec (ExpiresAt item1) t0) as [Hlt|Hge].
    + specialize (IH k1 (ExpiresAt item1) Hk1).
      destruct (fold_left oldest_current_step l (k1, ExpiresAt item1)) as [k t].
      destruct IH as (Hk & Ht & Hall & Hin). split; [done|]. split; [lia|]. split.
      * intros e He. apply elem_of_cons in He as [->|He]; [done|by apply Hall].
      * right. destruct Hin as [Hin|(item & Hin & ->)].
        -- injection Hin as -> ->. exists item1. split; [apply elem_of_cons; by left|done].
        -- exists item. split; [apply elem_of_cons; by right|done].
    + specialize (IH k0 t0 Hk0).
      destruct (fold_left oldest_current_step l (k0, t0)) as [k t].
      destruct IH as (Hk & Ht & Hall & Hin). split; [done|]. split; [lia|]. split.
      * intros e He. apply elem_of_cons in He as [->|He]; [cbn; lia|by apply Hall].
      * destruct Hin as [Hin|(item & Hin & ->)]; [by left|].
        right. exists item. split; [apply elem_of_cons; by right|done].
Qed.

(** [evictOldestCurrent] removes an entry with the earliest expiry of the
    current-weather store, when the store is not empty and no city name is
    empty. *)
Lemma evictOldestCurrent_earliest (c : WeatherCache) :
  currentWeather c <> ∅ -> currentWeather c !! "" = None ->
  exists city item,
    currentWeather c !! city = Some item /\
    evictOldestCurrent c = set_currentWeather c (delete city (currentWeather c)) /\
    forall city' item', currentWeather c !! city' = Some item' ->
                        ExpiresAt item <= ExpiresAt item'.
Proof.
  intros Hne Hempty. unfold evictOldestCurrent.
  assert (Hkeys : Forall (fun e : string * CacheItem => fst e <> "")
                         (map_to_list (currentWeather c))).
  { apply Forall_forall. intros [k item] Hin Hk. cbn in Hk. subst k.
    apply elem_of_map_to_list in Hin. congruence. }
  assert (Hlook : forall k item, (k, item) ∈ map_to_list (currentWeather c) <->
                                 currentWeather c !! k = Some item).
  { intros k item. apply elem_of_map_to_list. }
  destruct (map_to_list (currentWeather c)) as [|[k1 item1] l] eqn:El.
  { by apply map_to_list_empty_iff in El. }
  cbn [fold_left]. unfold oldest_current_step at 2. cbn [fst snd orb String.eqb].
  apply Forall_cons in Hkeys as [Hk1 Hkeys]. cbn in Hk1.
  pose proof (oldest_current_loop l k1 (ExpiresAt item1) Hk1 Hkeys) as Hloop.
  destruct (fold_left oldest_current_step l (k1, ExpiresAt item1)) as [k t].
  destruct Hloop as (Hk & Ht & Hall & Hin).
  destruct (String.eqb_spec k ""); [done|]. cbn [negb].
  assert (Hitem : exists item, (k, item) ∈ (k1, item1) :: l /\ t = ExpiresAt item).
  { destruct Hin as [Hin|(item & Hin & ->)].
    - injection Hin as -> ->. exists item1. split; [apply elem_of_cons; by left|done].
    - exists item. split; [apply elem_of_cons; by right|done]. }
  destruct Hitem as (item & Hin' & ->).
  exists k, item. split; [by apply Hlook|]. split; [done|].
  intros city' item' Hc. apply Hlook in Hc.
  apply elem_of_cons in Hc as [Hc|Hc].
  - injection Hc as -> ->. done.
  - by apply (Hall (city', item')).
Qed.

(** [SetCurrentWeather] keeps its own store within the maximum, for a
    maximum of at least one and non-empty city names. *)
Lemma SetCurrentWeather_current_bound (c : WeatherCache) (city : string)
    (weather : option AggregatedCurrentWeather) (now : Time) :
  1 <= maxSize c -> currentWeather c !! "" = None ->
  Z.of_nat (size (currentWeather c)) <= maxSize c ->
  Z.of_nat (size (currentWeather (SetCurrentWeather c city weather now))) <= maxSize c /\
  forecast (SetCurrentWeather c city weather now) = forecast c.
Proof.
  intros Hmax Hempty Hsize. unfold SetCurrentWeather.
  destruct (Z.of_nat (size (currentWeather c)) >=? maxSize c) eqn:E.
  - rewrite Z.geb_leb in E. apply Z.leb_le in E.
    destruct (evictOldestCurrent_earliest c) as (k & item & Hk & -> & _); [|done|].
    { intros H. rewrite H, map_size_empty in E. lia. }
    cbn. split; [|done].
    pose proof (map_size_insert city
                  {| Data := CurrentData weather; ExpiresAt := Add now (defaultDuration c) |}
                  (delete k (currentWeather c))) as Hins.
    pose proof (map_size_delete_Some k (currentWeather c) (mk_is_Some _ _ Hk)) as Hdel.
    destruct (delete k (currentWeather c) !! city); cbn in Hins; lia.
  - rewrite Z.geb_leb in E. apply Z.leb_gt in E. cbn. split; [|done].
    pose proof (map_size_insert city
                  {| Data := CurrentData weather; ExpiresAt := Add now (defaultDuration c) |}
                  (currentWeather c)) as Hins.
    destruct (currentWeather c !! city); cbn in Hins; lia.
Qed.

Example fetch_cycle_small_cache :
  exists w',
    fetchCityWeather sample_clock sample_arrival "Prague" world_small_cache
    = Done (None, w') /\
    totalItems (cache (agg w')) = 2%nat /\ maxSize (cache (agg w')) = 1.
Proof.
  eexists. split; [vm_compute; reflexivity|]. split; vm_compute; reflexivity.
Qed.

(** C2: the occupancy of the cache after two insertions into a cache of
    maximum size one, in either order: two items.  [SetCurrentWeather]
    compares only the length of the current-weather store with the maximum;
    [SetForecast] counts both stores but evicts from the forecast store
    alone. *)
Theorem cache_exceeds_maxSize :
  maxSize cache_of_one = 1 /\
  totalItems cache_with_current = 1%nat /\
  totalItems cache_with_both = 2%nat /\
  totalItems (SetCurrentWeather
                (SetForecast cache_of_one "Prague" 1 (Some sample_forecast) 1000)
                "Prague" (Some sample_current) 1001) = 2%nat.
Proof. vm_compute. repeat split; reflexivity. Qed.

(** * Further properties of the modelled code *)

(** ** [mostCommonString] *)

Lemma count_strings_lookup (strs : list string) (counts : gmap string nat) (s : string) :
  fold_left (fun counts s => <[s := S (default 0%nat (counts !! s))]> counts) strs counts !! s
  = match occurrences s strs with
    | O => counts !! s
    | S n => Some (default 0 (counts !! s) + S n)%nat
    end.
Proof.
  unfold occurrences. revert counts. induction strs as [|x strs IH]; intros counts; [done|].
  cbn [fold_left]. rewrite IH. destruct (decide (x = s)) as [Heq|Hne].
  - subst x. rewrite filter_cons_True by done. cbn [length].
    rewrite lookup_insert_eq. cbn.
    destruct (length (filter (fun x => x = s) strs)); f_equal; lia.
  - rewrite filter_cons_False by done. by rewrite lookup_insert_ne.
Qed.

(** The loop that keeps the first string with a strictly larger count. *)
Lemma most_common_loop (l : list (string * nat)) (init : string * nat) :
  let r := fold_left (fun (best : string * nat) (e : string * nat) =>
                        if (snd best <? snd e)%nat then e else best) l init in
  (snd init <= snd r)%nat /\
  (forall e, e ∈ l -> (snd e <= snd r)%nat) /\
  (r = init \/ r ∈ l).
Proof.
  revert init. induction l as [|e l IH]; intros init; cbn [fold_left]; cbv zeta.
  - split; [done|]. split; [|by left]. intros e He. by apply elem_of_nil in He.
  - destruct (Nat.ltb_spec (snd init) (snd e)) as [Hlt|Hge].
    + destruct (IH e) as (H1 & H2 & H3). split; [lia|]. split.
      * intros e' He'. apply elem_of_cons in He' as [->|He']; [done|by apply H2].
      * right. destruct H3 as [->|H3]; apply elem_of_cons; [by left|by right].
    + destruct (IH init) as (H1 & H2 & H3). split; [done|]. split.
      * intros e' He'. apply elem_of_cons in He' as [->|He']; [lia|by apply H2].
      * destruct H3 as [H3|H3]; [by left|]. right. apply elem_of_cons. by right.
Qed.

(** X1. [mostCommonString] of the empty list is the empty string; of a
    non-empty list it is one of the strings of the list, and no string of
    the list occurs more often. *)
Theorem mostCommonString_most_common (strs : list string) :
  (strs = [] -> mostCommonString strs = "") /\
  (strs <> [] ->
   mostCommonString strs ∈ strs /\
   forall s, (occurrences s strs <= occurrences (mostCommonString strs) strs)%nat).
Proof.
  split; [by intros ->|]. intros Hne. unfold mostCommonString.
  assert (Hlook : forall s, count_strings strs !! s
                            = match occurrences s strs with
                              | O => None
                              | S n => Some (S n)
                              end).
  { intros s. unfold count_strings. rewrite count_strings_lookup, lookup_empty.
    by destruct (occurrences s strs). }
  pose proof (most_common_loop (map_to_list (count_strings strs)) ("", 0%nat))
    as (_ & Hmax & Hin). cbv zeta in *.
  set (r := fold_left _ (map_to_list (count_strings strs)) ("", 0%nat)) in *.
  assert (Hr : r ∈ map_to_list (count_strings strs)).
  { destruct Hin as [Hin|Hin]; [|done]. exfalso.
    destruct strs as [|x strs]; [done|].
    assert (Hocc : exists n, occurrences x (x :: strs) = S n).
    { unfold occurrences. rewrite filter_cons_True by done. by eexists. }
    destruct Hocc as [n Hocc].
    assert (Hx : count_strings (x :: strs) !! x = Some (S n)).
    { by rewrite Hlook, Hocc. }
    apply elem_of_map_to_list in Hx. specialize (Hmax _ Hx).
    rewrite Hin in Hmax. cbn [snd] in Hmax. lia. }
  destruct r as [best n]. apply elem_of_map_to_list in Hr. cbn [fst].
  rewrite Hlook in Hr.
  destruct (occurrences best strs) as [|k] eqn:Hbest; [done|]. injection Hr as <-.
  split.
  - unfold occurrences in Hbest.
    assert (Hnonempty : filter (fun x => x = best) strs <> []).
    { intros H. by rewrite H in Hbest. }
    destruct (filter (fun x => x = best) strs) as [|y ys] eqn:Hf; [done|].
    assert (Hy : y ∈ filter (fun x => x = best) strs) by (rewrite Hf; apply elem_of_cons; by left).
    apply list_elem_of_filter in Hy as [-> Hy]. done.
  - intros s. destruct (occurrences s strs) as [|m] eqn:Hs; [lia|].
    assert (Hx : count_strings strs !! s = Some (S m)) by (by rewrite Hlook, Hs).
    apply elem_of_map_to_list in Hx. by specialize (Hmax _ Hx).
Qed.

Lemma mostCommonString_most_common_witness :
  ["Rain"; "Clear sky"; "Rain"] <> [] /\
  mostCommonString ["Rain"; "Clear sky"; "Rain"] ∈ ["Rain"; "Clear sky"; "Rain"] /\
  (occurrences "Clear sky" ["Rain"; "Clear sky"; "Rain"]
   <= occurrences (mostCommonString ["Rain"; "Clear sky"; "Rain"])
                  ["Rain"; "Clear sky"; "Rain"])%nat.
Proof.
  assert (H : ["Rain"; "Clear sky"; "Rain"] <> []) by discriminate.
  split; [exact H|].
  destruct (mostCommonString_most_common ["Rain"; "Clear sky"; "Rain"]) as [_ Hspec].
  destruct (Hspec H) as [Hin Hmax]. split; [exact Hin|apply Hmax].
Defined.

Example mostCommonString_majority :
  mostCommonString ["Rain"; "Clear sky"; "Rain"] = "Rain".
Proof. vm_compute. reflexivity. Qed.

(** ** More on the confidence score *)






(** ** The order in which [range] visits the readings *)






(** ** A single provider *)

Lemma mostCommonString_singleton (s : string) : mostCommonString [s] = s.
Proof.
  unfold mostCommonString, count_strings. cbn [fold_left].
  rewrite lookup_empty. cbn [default]. rewrite insert_empty, map_to_list_singleton.
  reflexivity.
Qed.

(** X4. When exactly one provider answered, the merged current weather is
    that provider's reading: the same numbers, description and icon, the
    provider as only source, confidence 0.5, and its observation instant as
    last-updated instant unless that is before Go's zero [Time]. *)
Theorem aggregateCurrentWeather_single (data : WeatherData) (s : string) (r : CurrentWeather) :
  wd_Current data = {[ s := r ]} ->
  exists a,
    aggregateCurrentWeather data = Some a /\
    acw_City a = wd_City data /\
    (acw_Temperature a == cw_Temperature r)%Q /\
    (acw_FeelsLike a == cw_FeelsLike r)%Q /\
    (acw_Humidity a == cw_Humidity r)%Q /\
    (acw_Pressure a == cw_Pressure r)%Q /\
    (acw_WindSpeed a == cw_WindSpeed r)%Q /\
    acw_Description a = cw_Description r /\
    acw_Icon a = cw_Icon r /\
    acw_LastUpdated a = Z.max zeroTime (cw_Timestamp r) /\
    acw_Sources a = [s] /\
    acw_Confidence a = 0.5%Q.
Proof.
  intros Hcur. unfold aggregateCurrentWeather. rewrite Hcur, map_to_list_singleton.
  unfold aggregateCurrentWeather_entries. cbn [length Nat.eqb fold_left].
  eexists. split; [reflexivity|]. cbn -[mostCommonString Z.max].
  assert (Hone : forall x : Q, ((0 + x) / float_of_len 1 == x)%Q).
  { intros x. unfold Qdiv. change (/ float_of_len 1)%Q with 1%Q. lra. }
  repeat split; try apply Hone.
  - apply mostCommonString_singleton.
  - unfold After, zeroTime. destruct (Z.ltb_spec 0 (cw_Timestamp r)); lia.
Qed.

Lemma aggregateCurrentWeather_single_witness :
  wd_Current snapshot_before_zero
  = {[ "openweathermap" := sample_reading "openweathermap" 10%Q (-1000000000) ]} /\
  exists a,
    aggregateCurrentWeather snapshot_before_zero = Some a /\
    (acw_Temperature a == 10)%Q /\ acw_Confidence a = 0.5%Q /\
    acw_LastUpdated a = zeroTime.
Proof.
  assert (H : wd_Current snapshot_before_zero
              = {[ "openweathermap" := sample_reading "openweathermap" 10%Q (-1000000000) ]})
    by reflexivity.
  split; [exact H|].
  destruct (aggregateCurrentWeather_single snapshot_before_zero _ _ H)
    as (a & Ha & _ & Ht & _ & _ & _ & _ & _ & _ & Hl & _ & Hc).
  exists a. split; [exact Ha|]. split; [exact Ht|]. split; [exact Hc|exact Hl].
Defined.

(** ** The cache: a write followed by a read *)

Lemma evictOldestCurrent_fields (c : WeatherCache) :
  forecast (evictOldestCurrent c) = forecast c /\
  defaultDuration (evictOldestCurrent c) = defaultDuration c /\
  maxSize (evictOldestCurrent c) = maxSize c.
Proof.
  unfold evictOldestCurrent.
  destruct (fold_left _ _ _) as [oldestKey oldestTime].
  by destruct (negb _).
Qed.

(** X5. A current-weather entry written at [now] is returned, with the
    cache left as it is, by every read of the same city up to and including
    the instant [now + defaultDuration], whatever the cache held before and
    whether or not the write evicted an entry; a read after that instant
    returns absent and removes the entry. *)
Theorem SetCurrentWeather_then_Get (c : WeatherCache) (city : string)
    (weather : option AggregatedCurrentWeather) (now later : Time) :
  (later <= Add now (defaultDuration c) ->
   GetCurrentWeather (SetCurrentWeather c city weather now) city later
   = ((weather, true), SetCurrentWeather c city weather now)) /\
  (Add now (defaultDuration c) < later ->
   exists c',
     GetCurrentWeather (SetCurrentWeather c city weather now) city later
     = ((None, false), c') /\
     currentWeather c' !! city = None).
Proof.
  assert (Hitem : currentWeather (SetCurrentWeather c city weather now) !! city
                  = Some {| Data := CurrentData weather;
                            ExpiresAt := Add now (defaultDuration c) |}).
  { unfold SetCurrentWeather. cbn [currentWeather set_currentWeather].
    rewrite lookup_insert_eq. do 2 f_equal.
    destruct (_ >=? _); [|done]. by destruct (evictOldestCurrent_fields c) as (_ & -> & _). }
  split; intros Hlater; unfold GetCurrentWeather; rewrite Hitem; cbn [ExpiresAt Data];
    unfold After.
  - destruct (Z.ltb_spec (Add now (defaultDuration c)) later); [lia|done].
  - destruct (Z.ltb_spec (Add now (defaultDuration c)) later); [|lia].
    eexists. split; [reflexivity|]. cbn [currentWeather set_currentWeather].
    apply lookup_delete_eq.
Qed.

Lemma SetCurrentWeather_then_Get_witness :
  1600 <= Add 1000 (defaultDuration cache_of_one) /\
  GetCurrentWeather cache_with_current "Prague" 1600
  = ((Some sample_current, true), cache_with_current) /\
  Add 1000 (defaultDuration cache_of_one) < 1601 /\
  exists c', GetCurrentWeather cache_with_current "Prague" 1601 = ((None, false), c') /\
             currentWeather c' !! "Prague" = None.
Proof.
  destruct (SetCurrentWeather_then_Get cache_of_one "Prague" (Some sample_current) 1000 1600)
    as (Hhit & _).
  destruct (SetCurrentWeather_then_Get cache_of_one "Prague" (Some sample_current) 1000 1601)
    as (_ & Hmiss).
  assert (H1 : 1600 <= Add 1000 (defaultDuration cache_of_one)) by (vm_compute; discriminate).
  assert (H2 : Add 1000 (defaultDuration cache_of_one) < 1601) by (vm_compute; reflexivity).
  split; [exact H1|]. split; [exact (Hhit H1)|]. split; [exact H2|exact (Hmiss H2)].
Defined.

(** X6. A forecast written at [now] for a city and a number of days is
    returned, with the cache left as it is, by every read of the same city
    and number of days up to and including [now + defaultDuration],
    whatever the cache held before and whether or not the write evicted an
    entry; a read after that instant returns absent and removes the entry. *)
Theorem SetForecast_then_Get (c : WeatherCache) (city : string) (days : Z)
    (fc : option AggregatedForecast) (now later : Time) :
  (later <= Add now (defaultDuration c) ->
   GetForecast (SetForecast c city days fc now) city days later
   = ((fc, true), SetForecast c city days fc now)) /\
  (Add now (defaultDuration c) < later ->
   exists c',
     GetForecast (SetForecast c city days fc now) city days later = ((None, false), c') /\
     forecast c' !! city ≫= (fun inner => inner !! days) = None).
Proof.
  assert (Hitem : exists inner,
            forecast (SetForecast c city days fc now) !! city = Some inner /\
            inner !! days = Some {| Data := ForecastData fc;
                                    ExpiresAt := Add now (defaultDuration c) |}).
  { unfold SetForecast. cbn [forecast set_forecast]. eexists.
    split; [apply lookup_insert_eq|]. rewrite lookup_insert_eq. do 2 f_equal.
    set (c1 := match forecast c !! city with
               | Some _ => c
               | None => set_forecast c (<[city:=∅]> (forecast c))
               end).
    assert (H1 : defaultDuration c1 = defaultDuration c).
    { unfold c1. by destruct (forecast c !! city). }
    destruct (_ >=? _); [|by rewrite H1].
    destruct (evictOldestForecast_currentWeather c1) as (_ & -> & _). by rewrite H1. }
  destruct Hitem as (inner & Hcity & Hdays).
  split; intros Hlater; unfold GetForecast; rewrite Hcity, Hdays; cbn [ExpiresAt Data];
    unfold After.
  - destruct (Z.ltb_spec (Add now (defaultDuration c)) later); [lia|done].
  - destruct (Z.ltb_spec (Add now (defaultDuration c)) later); [|lia].
    eexists. split; [reflexivity|]. cbn [forecast set_forecast].
    apply delete_forecast_lookup. rewrite Hcity. cbn. congruence.
Qed.

Lemma SetForecast_then_Get_witness :
  1601 <= Add 1001 (defaultDuration cache_with_current) /\
  GetForecast cache_with_both "Prague" 1 1601 = ((Some sample_forecast, true), cache_with_both) /\
  Add 1001 (defaultDuration cache_with_current) < 1602 /\
  exists c', GetForecast cache_with_both "Prague" 1 1602 = ((None, false), c') /\
             forecast c' !! "Prague" ≫= (fun inner => inner !! 1) = None.
Proof.
  destruct (SetForecast_then_Get cache_with_current "Prague" 1 (Some sample_forecast) 1001 1601)
    as (Hhit & _).
  destruct (SetForecast_then_Get cache_with_current "Prague" 1 (Some sample_forecast) 1001 1602)
    as (_ & Hmiss).
  assert (H1 : 1601 <= Add 1001 (defaultDuration cache_with_current))
    by (vm_compute; discriminate).
  assert (H2 : Add 1001 (defaultDuration cache_with_current) < 1602)
    by (vm_compute; reflexivity).
  split; [exact H1|]. split; [exact (Hhit H1)|]. split; [exact H2|exact (Hmiss H2)].
Defined.

(** ** The sweep *)

(** Ranging over a list of entries and deleting the expired ones from a map
    removes exactly the keys that have an expired entry in the list. *)
Lemma cleanup_loop_lookup `{Countable K} (now : Time)
    (l : list (K * CacheItem)) (m0 : gmap K CacheItem) (k : K) :
  fold_left (fun m e => if After now (ExpiresAt (snd e)) then delete (fst e) m else m) l m0 !! k
  = if decide (Exists (fun e => fst e = k /\ After now (ExpiresAt (snd e)) = true) l)
    then None else m0 !! k.
Proof.
  revert m0. induction l as [|[k1 item1] l IH]; intros m0; cbn [fold_left fst snd].
  - case_decide as Hex; [by apply Exists_nil in Hex|done].
  - rewrite IH. case_decide as Hex; case_decide as Hex'; try done.
    + exfalso. apply Hex'. by apply Exists_cons_tl.
    + apply Exists_cons in Hex' as [[Hk Hexp]|Hex']; [|done].
      cbn in Hk, Hexp. subst k1. rewrite Hexp. by rewrite lookup_delete_eq.
    + destruct (After now (ExpiresAt item1)) eqn:Hexp; [|done].
      rewrite lookup_delete_ne; [done|]. intros ->. apply Hex'. by apply Exists_cons_hd.
Qed.

Lemma cleanup_loop_filter `{Countable K} (now : Time) (m : gmap K CacheItem) :
  fold_left (fun m e => if After now (ExpiresAt (snd e)) then delete (fst e) m else m)
            (map_to_list m) m
  = filter (fun e => expired now (snd e) = false) m.
Proof.
  apply map_eq. intros k. rewrite cleanup_loop_lookup, map_lookup_filter.
  destruct (m !! k) as [item|] eqn:Hk; cbn.
  - case_decide as Hex.
    + apply Exists_exists in Hex as ([k' item'] & Hin & Hk' & Hexp). cbn in Hk', Hexp.
      subst k'. apply elem_of_map_to_list in Hin. rewrite Hk in Hin. injection Hin as <-.
      case_guard as Hg; [|done]. cbn in Hg. unfold expired in Hg. congruence.
    + case_guard as Hg; [done|]. exfalso. apply Hex. apply Exists_exists.
      exists (k, item). split; [by apply elem_of_map_to_list|]. split; [done|].
      cbn. unfold expired in Hg. by destruct (After now (ExpiresAt item)).
  - by case_decide.
Qed.

Lemma cleanup_city_loop_lookup (now : Time) (l : list (string * gmap Z CacheItem))
    (m0 : gmap string (gmap Z CacheItem)) (city : string) :
  NoDup l.*1 ->
  fold_left (cleanup_city_step now) l m0 !! city
  = match (list_to_map l : gmap string (gmap Z CacheItem)) !! city with
    | Some inner =>
        let forecasts := filter (fun e => expired now (snd e) = false) inner in
        if (size forecasts =? 0)%nat then None else Some forecasts
    | None => m0 !! city
    end.
Proof.
  revert m0. induction l as [|[k1 inner1] l IH]; intros m0 Hnd; cbn [fold_left].
  - done.
  - cbn in Hnd. apply NoDup_cons in Hnd as [Hk1 Hnd]. rewrite (IH _ Hnd).
    cbn [list_to_map foldr]. unfold curry. cbn [fst snd].
    destruct (decide (city = k1)) as [Heq|Hne].
    + subst city. rewrite lookup_insert_eq.
      rewrite (not_elem_of_list_to_map_1 _ _ Hk1).
      unfold cleanup_city_step. cbn [fst snd]. unfold cleanup_forecast_step.
      rewrite cleanup_loop_filter. cbv zeta.
      destruct (_ =? _)%nat; [apply lookup_delete_eq|apply lookup_insert_eq].
    + rewrite lookup_insert_ne by done.
      destruct (list_to_map l !! city); [done|].
      unfold cleanup_city_step. cbn [fst snd]. cbv zeta.
      destruct (_ =? _)%nat; [by rewrite lookup_delete_ne|by rewrite lookup_insert_ne].
Qed.

(** The loops of the source compute the filters by which [cleanup] is
    written above. *)
Lemma cleanup_loops_cleanup (c : WeatherCache) (now : Time) :
  cleanup_loops c now = cleanup c now.
Proof.
  unfold cleanup_loops, cleanup. f_equal.
  - unfold cleanup_current_step. apply cleanup_loop_filter.
  - apply map_eq. intros city.
    rewrite cleanup_city_loop_lookup by apply NoDup_fst_map_to_list.
    rewrite list_to_map_to_list, map_lookup_filter, lookup_fmap.
    destruct (forecast c !! city) as [inner|]; cbn; [|done].
    case_guard as Hg; cbn in Hg.
    + destruct (Nat.eqb_spec (size (filter (fun e => expired now e.2 = false) inner)) 0); done.
    + destruct (Nat.eqb_spec (size (filter (fun e => expired now e.2 = false) inner)) 0);
        [done|congruence].
Qed.

Lemma not_expired_iff (now : Time) (item : CacheItem) :
  expired now item = false <-> now <= ExpiresAt item.
Proof. unfold expired, After. destruct (Z.ltb_spec (ExpiresAt item) now); split; (done || lia). Qed.

(** X7. The sweep, written as the loops of the source that delete from the
    maps they range over, keeps exactly the entries whose expiry instant is
    not before the instant of the sweep (an entry expiring at that very
    instant stays), in both stores; no city is left with an empty map of
    forecasts; duration and maximum size are unchanged. *)
Theorem cleanup_loops_spec (c : WeatherCache) (now : Time) :
  (forall city item,
     currentWeather (cleanup_loops c now) !! city = Some item <->
     currentWeather c !! city = Some item /\ now <= ExpiresAt item) /\
  (forall city days item,
     forecast (cleanup_loops c now) !! city ≫= (fun inner => inner !! days) = Some item <->
     forecast c !! city ≫= (fun inner => inner !! days) = Some item /\
     now <= ExpiresAt item) /\
  (forall city inner, forecast (cleanup_loops c now) !! city = Some inner -> inner <> ∅) /\
  defaultDuration (cleanup_loops c now) = defaultDuration c /\
  maxSize (cleanup_loops c now) = maxSize c.
Proof.
  rewrite cleanup_loops_cleanup. unfold cleanup. cbn [currentWeather forecast defaultDuration maxSize].
  split; [|split; [|split; [|done]]].
  - intros city item. rewrite map_lookup_filter_Some. cbn [snd].
    by rewrite not_expired_iff.
  - intros city days item. rewrite map_lookup_filter, lookup_fmap.
    destruct (forecast c !! city) as [inner|]; cbn; [|split; [done|by intros [? _]]].
    case_guard as Hg; cbn in Hg |- *.
    + rewrite map_lookup_filter_Some. cbn [snd]. by rewrite not_expired_iff.
    + split; [done|]. intros [Hi Hnow]. exfalso.
      apply map_size_empty_inv in Hg.
      assert (Hf : filter (fun e : Z * CacheItem => expired now e.2 = false) inner !! days
                   = Some item).
      { apply map_lookup_filter_Some. split; [done|]. by apply not_expired_iff. }
      rewrite Hg, lookup_empty in Hf. done.
  - intros city inner Hin. apply map_lookup_filter_Some in Hin as [_ Hsize].
    cbn in Hsize. intros ->. by rewrite map_size_empty in Hsize.
Qed.

Example cleanup_loops_half_expired :
  cleanup_loops cache_half_expired 1500
  = {| currentWeather := {[ "London" := item_at 1600 ]};
       forecast := {[ "London" := {[ 3 := forecast_item_at 1600 ]} ]};
       defaultDuration := 600; maxSize := 10 |}.
Proof. vm_compute. reflexivity. Qed.

(** X8. What a read returns does not depend on whether the sweep (the loops
    of the source) ran at an earlier or the same instant: the background
    sweep only removes entries that a read would refuse anyway.  Both
    stores. *)
Theorem reads_ignore_the_sweep (c : WeatherCache) (swept now : Time)
    (city : string) (days : Z) :
  swept <= now ->
  fst (GetCurrentWeather (cleanup_loops c swept) city now) = fst (GetCurrentWeather c city now) /\
  fst (GetForecast (cleanup_loops c swept) city days now) = fst (GetForecast c city days now).
Proof.
  intros Hle. rewrite cleanup_loops_cleanup. split.
  - by apply GetCurrentWeather_after_cleanup.
  - by apply GetForecast_after_cleanup.
Qed.

Lemma reads_ignore_the_sweep_witness :
  1500 <= 1550 /\
  fst (GetCurrentWeather (cleanup_loops cache_half_expired 1500) "London" 1550)
  = fst (GetCurrentWeather cache_half_expired "London" 1550) /\
  fst (GetForecast (cleanup_loops cache_half_expired 1500) "London" 1 1550)
  = fst (GetForecast cache_half_expired "London" 1 1550).
Proof.
  assert (H : 1500 <= 1550) by lia.
  split; [exact H|]. exact (reads_ignore_the_sweep cache_half_expired 1500 1550 "London" 1 H).
Defined.

(** ** Eviction from the current-weather store *)

(** X9. [evictOldestCurrent] on a store without an entry for the empty city
    name: an empty store is left as it is; from a non-empty store exactly
    one entry is removed, and no entry of the store expires earlier than
    the removed one. *)
Theorem evictOldestCurrent_spec (c : WeatherCache) :
  currentWeather c !! "" = None ->
  (currentWeather c = ∅ -> evictOldestCurrent c = c) /\
  (currentWeather c <> ∅ ->
   exists city item,
     currentWeather c !! city = Some item /\
     currentWeather (evictOldestCurrent c) = delete city (currentWeather c) /\
     (size (currentWeather (evictOldestCurrent c)) + 1)%nat = size (currentWeather c) /\
     forecast (evictOldestCurrent c) = forecast c /\
     forall city' item', currentWeather c !! city' = Some item' ->
                         ExpiresAt item <= ExpiresAt item').
Proof.
  intros Hempty. split.
  - intros Hnil. unfold evictOldestCurrent. rewrite Hnil, map_to_list_empty. reflexivity.
  - intros Hne.
    destruct (evictOldestCurrent_earliest c Hne Hempty) as (city & item & Hc & Hev & Hmin).
    exists city, item. split; [done|]. rewrite Hev. cbn [currentWeather forecast set_currentWeather].
    split; [done|]. split; [|split; [done|exact Hmin]].
    pose proof (map_size_delete_Some city (currentWeather c) (mk_is_Some _ _ Hc)) as Hdel.
    assert (Hpos : size (currentWeather c) <> 0%nat).
    { intros H0. by apply map_size_empty_inv in H0. }
    lia.
Qed.

Lemma evictOldestCurrent_spec_witness :
  currentWeather cache_half_expired !! "" = None /\
  exists city item,
    currentWeather cache_half_expired !! city = Some item /\
    currentWeather (evictOldestCurrent cache_half_expired)
    = delete city (currentWeather cache_half_expired) /\
    forall city' item', currentWeather cache_half_expired !! city' = Some item' ->
                        ExpiresAt item <= ExpiresAt item'.
Proof.
  assert (H : currentWeather cache_half_expired !! "" = None) by (vm_compute; reflexivity).
  split; [exact H|].
  destruct (evictOldestCurrent_spec cache_half_expired H) as (_ & Hev).
  destruct Hev as (city & item & Hc & Hd & _ & _ & Hmin).
  { intros Hnil. apply (f_equal size) in Hnil. vm_compute in Hnil. discriminate. }
  exists city, item. split; [exact Hc|]. split; [exact Hd|exact Hmin].
Defined.

(** X10. The loop of [evictOldestCurrent] takes an empty [oldestKey] for
    "nothing chosen yet": from a store whose only entry is cached under the
    empty city name nothing is evicted, and a write of another city into
    such a cache of maximum size one leaves two entries in the store. *)
Theorem evictOldestCurrent_empty_name (c : WeatherCache) (item : CacheItem) :
  currentWeather c = {[ "" := item ]} ->
  evictOldestCurrent c = c /\
  (maxSize c <= 1 ->
   forall city weather now, city <> "" ->
     size (currentWeather (SetCurrentWeather c city weather now)) = 2%nat).
Proof.
  intros Hcur.
  assert (Hev : evictOldestCurrent c = c).
  { unfold evictOldestCurrent. rewrite Hcur, map_to_list_singleton. reflexivity. }
  split; [exact Hev|]. intros Hmax city weather now Hcity.
  unfold SetCurrentWeather. rewrite Hev.
  assert (Hc : (if Z.of_nat (size (currentWeather c)) >=? maxSize c then c else c) = c)
    by (by destruct (_ >=? _)).
  rewrite Hc. cbn [currentWeather set_currentWeather]. rewrite Hcur.
  rewrite map_size_insert_None by (by apply lookup_singleton_ne).
  by rewrite map_size_singleton.
Qed.

Lemma evictOldestCurrent_empty_name_witness :
  currentWeather (SetCurrentWeather cache_of_one "" None 1000)
  = {[ "" := {| Data := CurrentData None; ExpiresAt := 1600 |} ]} /\
  evictOldestCurrent (SetCurrentWeather cache_of_one "" None 1000)
  = SetCurrentWeather cache_of_one "" None 1000 /\
  size (currentWeather
          (SetCurrentWeather (SetCurrentWeather cache_of_one "" None 1000) "Prague" None 1001))
  = 2%nat.
Proof.
  assert (H : currentWeather (SetCurrentWeather cache_of_one "" None 1000)
              = {[ "" := {| Data := CurrentData None; ExpiresAt := 1600 |} ]})
    by (vm_compute; reflexivity).
  split; [exact H|].
  destruct (evictOldestCurrent_empty_name _ _ H) as (Hev & Hsize).
  split; [exact Hev|].
  apply Hsize; [vm_compute; discriminate|discriminate].
Defined.

(** ** The size of the current-weather store *)

Lemma size_delete_le `{Countable K} {A} (k : K) (m : gmap K A) : (size (delete k m) <= size m)%nat.
Proof. apply map_subseteq_size, delete_subseteq. Qed.

Lemma size_insert_le `{Countable K} {A} (k : K) (v : A) (m : gmap K A) :
  (size (<[k := v]> m) <= S (size m))%nat.
Proof.
  pose proof (map_size_insert k v m) as Hins. destruct (m !! k); cbn in Hins; lia.
Qed.

Lemma SetCurrentWeather_bounded (c : WeatherCache) (city : string)
    (weather : option AggregatedCurrentWeather) (now : Time) :
  city <> "" -> currentWeather c !! "" = None ->
  Z.of_nat (size (currentWeather c)) <= Z.max 1 (maxSize c) ->
  currentWeather (SetCurrentWeather c city weather now) !! "" = None /\
  Z.of_nat (size (currentWeather (SetCurrentWeather c city weather now)))
  <= Z.max 1 (maxSize c) /\
  maxSize (SetCurrentWeather c city weather now) = maxSize c.
Proof.
  intros Hcity Hempty Hsize. unfold SetCurrentWeather.
  destruct (Z.of_nat (size (currentWeather c)) >=? maxSize c) eqn:E;
    rewrite Z.geb_leb in E.
  - apply Z.leb_le in E.
    destruct (decide (currentWeather c = ∅)) as [Hnil|Hne].
    + assert (Hev : evictOldestCurrent c = c).
      { unfold evictOldestCurrent. rewrite Hnil, map_to_list_empty. reflexivity. }
      rewrite Hev. cbn [currentWeather maxSize set_currentWeather].
      split; [by rewrite lookup_insert_ne|]. split; [|done].
      rewrite Hnil, insert_empty, map_size_singleton. lia.
    + destruct (evictOldestCurrent_earliest c Hne Hempty) as (k & item & Hk & -> & _).
      cbn [currentWeather maxSize defaultDuration set_currentWeather].
      split; [rewrite lookup_insert_ne by done; by apply lookup_delete_None; right|].
      split; [|done].
      pose proof (size_insert_le city
                    {| Data := CurrentData weather; ExpiresAt := Add now (defaultDuration c) |}
                    (delete k (currentWeather c))) as Hins.
      pose proof (map_size_delete_Some k (currentWeather c) (mk_is_Some _ _ Hk)) as Hdel.
      assert (Hpos : size (currentWeather c) <> 0%nat).
      { intros H0. by apply map_size_empty_inv in H0. }
      lia.
  - apply Z.leb_gt in E. cbn [currentWeather maxSize set_currentWeather].
    split; [by rewrite lookup_insert_ne|]. split; [|done].
    pose proof (size_insert_le city
                  {| Data := CurrentData weather; ExpiresAt := Add now (defaultDuration c) |}
                  (currentWeather c)) as Hins.
    lia.
Qed.

Lemma GetCurrentWeather_shrinks (c : WeatherCache) (city : string) (now : Time) :
  currentWeather (snd (GetCurrentWeather c city now)) ⊆ currentWeather c /\
  maxSize (snd (GetCurrentWeather c city now)) = maxSize c.
Proof.
  unfold GetCurrentWeather. destruct (currentWeather c !! city) as [item|]; [|done].
  destruct (After now (ExpiresAt item)).
  - cbn. split; [apply delete_subseteq|done].
  - by destruct (Data item).
Qed.

(** X11. Starting from a new cache, after any run of writes (for non-empty
    city names), reads and sweeps of the current-weather store, in any
    order, that store holds at most [maxSize] entries, and at most one
    entry when [maxSize] is below one. *)
Theorem current_store_bounded (duration : Duration) (size_limit : Z) (ops : list current_op) :
  (forall op, op ∈ ops -> written_city op <> Some "") ->
  Z.of_nat (size (currentWeather
                    (fold_left apply_current_op ops (NewWeatherCache duration size_limit))))
  <= Z.max 1 size_limit.
Proof.
  intros Hops.
  assert (Hinv : forall c,
            currentWeather c !! "" = None ->
            Z.of_nat (size (currentWeather c)) <= Z.max 1 size_limit ->
            maxSize c = size_limit ->
            Z.of_nat (size (currentWeather (fold_left apply_current_op ops c)))
            <= Z.max 1 size_limit).
  { induction ops as [|op ops IH]; intros c Hempty Hsize Hmax; [done|].
    cbn [fold_left].
    assert (Hrest : forall op', op' ∈ ops -> written_city op' <> Some "").
    { intros op' Hin. apply Hops. by apply elem_of_cons; right. }
    assert (Hop : written_city op <> Some "").
    { apply Hops. by apply elem_of_cons; left. }
    destruct op as [city weather now|city now|now]; cbn [apply_current_op].
    - assert (Hcity : city <> "") by (intros ->; by apply Hop).
      rewrite <- Hmax in Hsize.
      destruct (SetCurrentWeather_bounded c city weather now Hcity Hempty Hsize)
        as (H1 & H2 & H3).
      apply (IH Hrest); [done| |congruence]. by rewrite <- Hmax.
    - destruct (GetCurrentWeather_shrinks c city now) as (Hsub & Hm).
      apply (IH Hrest); [|  |congruence].
      + eapply lookup_weaken_None; [exact Hempty|exact Hsub].
      + apply map_subseteq_size in Hsub. lia.
    - rewrite cleanup_loops_cleanup. apply (IH Hrest); [| |done].
      + cbn. apply map_lookup_filter_None. by left.
      + cbn [cleanup currentWeather].
        pose proof (map_subseteq_size _ _
                      (map_filter_subseteq (fun e : string * CacheItem => expired now e.2 = false)
                                           (currentWeather c))).
        lia. }
  apply Hinv; [done| |done]. cbn. rewrite map_size_empty. lia.
Qed.

Lemma current_store_bounded_witness :
  (forall op, op ∈ sample_ops -> written_city op <> Some "") /\
  Z.of_nat (size (currentWeather (fold_left apply_current_op sample_ops (NewWeatherCache 600 2))))
  <= Z.max 1 2.
Proof.
  assert (H : forall op, op ∈ sample_ops -> written_city op <> Some "").
  { intros op Hin. unfold sample_ops in Hin.
    repeat (apply elem_of_cons in Hin as [->|Hin]; [discriminate|]).
    by apply elem_of_nil in Hin. }
  split; [exact H|]. exact (current_store_bounded 600 2 sample_ops H).
Defined.

(** ** Eviction from the forecast store *)

Lemma oldest_forecast_loops (l : list (string * gmap Z CacheItem)) (st : string * Z * Time) :
  fold_left oldest_forecast_city_step l st
  = fold_left (fun st e => oldest_forecast_step (fst e) st (snd e)) (forecast_entries l) st.
Proof.
  revert st. induction l as [|[city inner] l IH]; intros st; [done|].
  cbn [fold_left]. rewrite IH. unfold forecast_entries. cbn [mbind list_bind fst snd].
  rewrite fold_left_app. f_equal. unfold oldest_forecast_city_step. cbn [fst snd].
  generalize (map_to_list inner). intros ds. revert st.
  induction ds as [|d ds IHd]; intros st; [done|]. cbn [fmap list_fmap fold_left fst snd].
  apply IHd.
Qed.

Lemma elem_of_forecast_entries (m : gmap string (gmap Z CacheItem))
    (city : string) (days : Z) (item : CacheItem) :
  (city, (days, item)) ∈ forecast_entries (map_to_list m) <->
  m !! city ≫= (fun inner => inner !! days) = Some item.
Proof.
  unfold forecast_entries. rewrite list_elem_of_bind. split.
  - intros ([city' inner] & Hin & Hm). cbn [fst snd] in Hin.
    apply list_elem_of_fmap in Hin as ([days' item'] & Heq & Hin).
    injection Heq as -> -> ->. apply elem_of_map_to_list in Hm, Hin.
    rewrite Hm. cbn. exact Hin.
  - intros H. destruct (m !! city) as [inner|] eqn:Hm; [|done]. cbn in H.
    exists (city, inner). split; [|by apply elem_of_map_to_list].
    cbn [fst snd]. apply list_elem_of_fmap. exists (days, item).
    split; [done|by apply elem_of_map_to_list].
Qed.

Lemma oldest_forecast_loop (l : list (string * (Z * CacheItem)))
    (k0 : string) (d0 : Z) (t0 : Time) :
  k0 <> "" -> Forall (fun e => fst e <> "") l ->
  exists k d t,
    fold_left (fun st e => oldest_forecast_step (fst e) st (snd e)) l (k0, d0, t0) = (k, d, t) /\
    k <> "" /\ t <= t0 /\
    (forall e, e ∈ l -> t <= ExpiresAt (snd (snd e))) /\
    ((k, d, t) = (k0, d0, t0) \/ exists item, (k, (d, item)) ∈ l /\ t = ExpiresAt item).
Proof.
  intros Hk0 Hl. revert k0 d0 t0 Hk0.
  induction Hl as [|[k1 [d1 item1]] l Hk1 _ IH]; intros k0 d0 t0 Hk0.
  - exists k0, d0, t0. split; [done|]. split; [done|]. split; [lia|]. split; [|by left].
    intros e He. by apply elem_of_nil in He.
  - cbn [fold_left fst snd] in *. unfold oldest_forecast_step at 2. cbn [fst snd].
    destruct (String.eqb_spec k0 ""); [done|]. cbn [orb]. unfold Before.
    destruct (Z.ltb_spec (ExpiresAt item1) t0) as [Hlt|Hge].
    + destruct (IH k1 d1 (ExpiresAt item1) Hk1) as (k & d & t & Hf & Hk & Ht & Hall & Hin).
      exists k, d, t. split; [done|]. split; [done|]. split; [lia|]. split.
      * intros e He. apply elem_of_cons in He as [->|He]; [done|by apply Hall].
      * right. destruct Hin as [Hin|(item & Hin & ->)].
        -- injection Hin as -> -> ->. exists item1. split; [apply elem_of_cons; by left|done].
        -- exists item. split; [apply elem_of_cons; by right|done].
    + destruct (IH k0 d0 t0 Hk0) as (k & d & t & Hf & Hk & Ht & Hall & Hin).
      exists k, d, t. split; [done|]. split; [done|]. split; [lia|]. split.
      * intros e He. apply elem_of_cons in He as [->|He]; [cbn; lia|by apply Hall].
      * destruct Hin as [Hin|(item & Hin & ->)]; [by left|].
        right. exists item. split; [apply elem_of_cons; by right|done].
Qed.

Lemma evictOldestForecast_earliest (c : WeatherCache) :
  forecast c !! "" = None ->
  (forecast_entries (map_to_list (forecast c)) = [] /\ evictOldestForecast c = c) \/
  (exists city days item,
     stored_forecast c city days = Some item /\
     evictOldestForecast c = set_forecast c (delete_forecast city days (forecast c)) /\
     forall city' days' item', stored_forecast c city' days' = Some item' ->
                               ExpiresAt item <= ExpiresAt item').
Proof.
  intros Hempty. unfold evictOldestForecast. rewrite oldest_forecast_loops.
  assert (Hkeys : Forall (fun e : string * (Z * CacheItem) => fst e <> "")
                         (forecast_entries (map_to_list (forecast c)))).
  { apply Forall_forall. intros [k [d item]] Hin Hk. cbn in Hk. subst k.
    apply elem_of_forecast_entries in Hin. rewrite Hempty in Hin. done. }
  pose proof (elem_of_forecast_entries (forecast c)) as Hlook.
  destruct (forecast_entries (map_to_list (forecast c))) as [|[k1 [d1 item1]] l] eqn:El.
  - left. done.
  - right.
    cbn [fold_left fst snd]. unfold oldest_forecast_step at 2. cbn [fst snd orb String.eqb].
    apply Forall_cons in Hkeys as [Hk1 Hkeys]. cbn in Hk1.
    destruct (oldest_forecast_loop l k1 d1 (ExpiresAt item1) Hk1 Hkeys)
      as (k & d & t & -> & Hk & Ht & Hall & Hin).
    destruct (String.eqb_spec k ""); [done|]. cbn [negb].
    assert (Hitem : exists item, (k, (d, item)) ∈ (k1, (d1, item1)) :: l /\ t = ExpiresAt item).
    { destruct Hin as [Hin|(item & Hin & ->)].
      - injection Hin as -> -> ->. exists item1. split; [apply elem_of_cons; by left|done].
      - exists item. split; [apply elem_of_cons; by right|done]. }
    destruct Hitem as (item & Hin' & ->).
    exists k, d, item. split; [by apply Hlook|]. split; [done|].
    intros city' days' item' Hc. apply Hlook in Hc.
    apply elem_of_cons in Hc as [Hc|Hc].
    + injection Hc as -> -> ->. done.
    + by apply (Hall (city', (days', item'))).
Qed.

(** X12. [evictOldestForecast] on a store without the empty city name: when
    no forecast is stored (every city's map is empty) the cache is left as
    it is; otherwise one stored forecast is deleted from its city's map, no
    stored forecast expires earlier than it, every other stored forecast
    stays, and the current-weather store is not touched. *)
Theorem evictOldestForecast_spec (c : WeatherCache) :
  forecast c !! "" = None ->
  ((forall city days, stored_forecast c city days = None) -> evictOldestForecast c = c) /\
  (forall city0 days0 item0, stored_forecast c city0 days0 = Some item0 ->
   exists city days item,
     stored_forecast c city days = Some item /\
     stored_forecast (evictOldestForecast c) city days = None /\
     (forall city' days', (city', days') <> (city, days) ->
        stored_forecast (evictOldestForecast c) city' days' = stored_forecast c city' days') /\
     currentWeather (evictOldestForecast c) = currentWeather c /\
     (forall city' days' item', stored_forecast c city' days' = Some item' ->
        ExpiresAt item <= ExpiresAt item')).
Proof.
  intros Hempty.
  destruct (evictOldestForecast_earliest c Hempty)
    as [[Hnil Hev]|(k & d & item & Hs & Hev & Hmin)].
  - split; [done|]. intros city0 days0 item0 H0.
    apply elem_of_forecast_entries in H0. rewrite Hnil in H0. by apply elem_of_nil in H0.
  - split; [intros Hnone; by rewrite Hnone in Hs|]. intros _ _ _ _.
    exists k, d, item. split; [done|]. rewrite Hev.
    unfold stored_forecast in *. cbn [forecast currentWeather set_forecast].
    split; [|split; [|split; [done|exact Hmin]]].
    + apply delete_forecast_lookup. by rewrite Hs.
    + intros city' days' Hne. by apply delete_forecast_lookup_ne.
Qed.

Lemma evictOldestForecast_spec_witness :
  forecast cache_with_both !! "" = None /\
  stored_forecast cache_with_both "Prague" 1
  = Some {| Data := ForecastData (Some sample_forecast); ExpiresAt := 1601 |} /\
  exists city days item,
    stored_forecast cache_with_both city days = Some item /\
    stored_forecast (evictOldestForecast cache_with_both) city days = None.
Proof.
  assert (H : forecast cache_with_both !! "" = None) by (vm_compute; reflexivity).
  assert (H1 : stored_forecast cache_with_both "Prague" 1
               = Some {| Data := ForecastData (Some sample_forecast); ExpiresAt := 1601 |})
    by (vm_compute; reflexivity).
  split; [exact H|]. split; [exact H1|].
  destruct (evictOldestForecast_spec cache_with_both H) as (_ & Hev).
  destruct (Hev _ _ _ H1) as (city & days & item & Hs & Hgone & _).
  exists city, days, item. split; [exact Hs|exact Hgone].
Defined.


(** ** The coordinator: what a fetch cycle leaves behind *)

Section CoordinatorFrame.

Variable clock : nat -> Time.
Variable arrival : list APIResponse -> list APIResponse.





End CoordinatorFrame.

Section CoordinatorCycle.

Variable clock : nat -> Time.
Variable arrival : list APIResponse -> list APIResponse.

(** The channel delivers every response once, in some order. *)
Hypothesis arrival_perm : forall l, arrival l ≡ₚ l.






End CoordinatorCycle.


(** ** The coordinator: reads served from the cache *)

Lemma with_cache_same (a : Aggregator) : with_cache a (cache a) = a.
Proof. by destruct a. Qed.

Section CoordinatorReads.

Variable clock : nat -> Time.
Variable arrival : list APIResponse -> list APIResponse.

(** X14. A request whose answer is in the cache and not past its expiry is
    served from the cache: the clock is read once and the aggregator is
    left exactly as it was, so no fetch cycle ran (counters and the instant
    of the last fetch are unchanged).  Current weather, and forecasts for a
    day-count from 1 to 7. *)
Theorem cached_answer_needs_no_fetch (city : string) (days : Z) (w : World) :
  (forall item weather,
     currentWeather (cache (agg w)) !! city = Some item ->
     Data item = CurrentData weather ->
     clock (ticks w) <= ExpiresAt item ->
     exists w',
       GetAggregatedCurrentWeather clock arrival city w = Done ((weather, None), w') /\
       agg w' = agg w /\ ticks w' = S (ticks w)) /\
  (forall item fc,
     1 <= days <= 7 ->
     stored_forecast (cache (agg w)) city days = Some item ->
     Data item = ForecastData fc ->
     clock (ticks w) <= ExpiresAt item ->
     exists w',
       GetAggregatedForecast clock arrival city days w = Done ((fc, None), w') /\
       agg w' = agg w /\ ticks w' = S (ticks w)).
Proof.
  split.
  - intros item weather Hitem Hdata Hfresh.
    unfold GetAggregatedCurrentWeather, cache_GetCurrentWeather. run_M. rewrite Hitem.
    unfold Now. run_M. cbn [agg ticks]. unfold GetCurrentWeather. rewrite Hitem.
    unfold After. destruct (Z.ltb_spec (ExpiresAt item) (clock (ticks w))); [lia|].
    rewrite Hdata. cbn [exec_bind]. eexists. split; [reflexivity|].
    cbn [agg ticks]. split; [apply with_cache_same|done].
  - intros item fc Hdays Hitem Hdata Hfresh. unfold stored_forecast in Hitem.
    unfold GetAggregatedForecast.
    destruct (Z.ltb_spec days 1) as [|_]; [lia|].
    destruct (Z.gtb_spec days 7) as [|_]; [lia|]. cbn [orb].
    unfold cache_GetForecast, GetForecast. run_M.
    destruct (forecast (cache (agg w)) !! city) as [inner|]; [|done]. cbn in Hitem.
    cbn [option_bind]. rewrite Hitem.
    unfold Now. run_M. cbn [agg ticks].
    unfold After. destruct (Z.ltb_spec (ExpiresAt item) (clock (ticks w))); [lia|].
    rewrite Hdata. cbn [exec_bind]. eexists. split; [reflexivity|].
    cbn [agg ticks]. split; [apply with_cache_same|done].
Qed.

End CoordinatorReads.

Lemma cached_answer_needs_no_fetch_witness :
  sample_clock (ticks world_cached)
  <= ExpiresAt {| Data := CurrentData (Some sample_current); ExpiresAt := 1600 |} /\
  (exists w',
     GetAggregatedCurrentWeather sample_clock sample_arrival "Prague" world_cached
     = Done ((Some sample_current, None), w') /\ agg w' = agg world_cached) /\
  (exists w',
     GetAggregatedForecast sample_clock sample_arrival "Prague" 1 world_cached
     = Done ((Some sample_forecast, None), w') /\ agg w' = agg world_cached).
Proof.
  destruct (cached_answer_needs_no_fetch sample_clock sample_arrival "Prague" 1 world_cached)
    as (Hcur & Hfc).
  assert (H1 : sample_clock (ticks world_cached)
               <= ExpiresAt {| Data := CurrentData (Some sample_current); ExpiresAt := 1600 |})
    by (vm_compute; discriminate).
  split; [exact H1|]. split.
  - destruct (Hcur {| Data := CurrentData (Some sample_current); ExpiresAt := 1600 |}
                (Some sample_current)) as (w' & Hrun & Hagg & _);
      [vm_compute; reflexivity|reflexivity|exact H1|].
    exists w'. split; [exact Hrun|exact Hagg].
  - destruct (Hfc {| Data := ForecastData (Some sample_forecast); ExpiresAt := 1601 |}
                (Some sample_forecast)) as (w' & Hrun & Hagg & _);
      [lia|vm_compute; reflexivity|reflexivity|vm_compute; discriminate|].
    exists w'. split; [exact Hrun|exact Hagg].
Defined.

(** ** The coordinator: a read that misses the cache *)

Section CoordinatorMiss.

Variable clock : nat -> Time.
Variable arrival : list APIResponse -> list APIResponse.



(** The channel delivers every response once, in some order. *)
Hypothesis arrival_perm : forall l, arrival l ≡ₚ l.


End CoordinatorMiss.


(** ** The coordinator: forecasts for more than three days *)






Lemma SetCurrentWeather_forecast (c : WeatherCache) (city : string)
    (weather : option AggregatedCurrentWeather) (now : Time) :
  forecast (SetCurrentWeather c city weather now) = forecast c.
Proof.
  unfold SetCurrentWeather. cbn [forecast set_currentWeather].
  destruct (_ >=? _); [|done]. by destruct (evictOldestCurrent_fields c) as (-> & _).
Qed.

Section CoordinatorForecasts.

Variable clock : nat -> Time.
Variable arrival : list APIResponse -> list APIResponse.






(** The channel delivers every response once, in some order. *)
Hypothesis arrival_perm : forall l, arrival l ≡ₚ l.


End CoordinatorForecasts.


(** ** Whole runs of the retry loop *)

(** X17. Two ways in which [doGetWithRetry] sends no request at all: with
    a negative [maxRetries] the loop body never runs and the call fails
    with the retry-exhausted error wrapping a nil error; and when the
    request cannot be built the call fails at the first attempt with
    "creating request failed", without any wait. *)
Theorem doGetWithRetry_sends_nothing (c : BaseClient) (net : Network) :
  (maxRetries c < 0 ->
   doGetWithRetry c net = (inr (max_retries_exceeded None), [])) /\
  (forall err, 0 <= maxRetries c -> newRequest net = Some err ->
   doGetWithRetry c net
   = (inr (Errorf "creating request failed: %w" [AErr (Some err)]), [])).
Proof.
  unfold doGetWithRetry. split.
  - intros Hneg. unfold seqZ. replace (Z.to_nat (maxRetries c + 1)) with 0%nat by lia.
    reflexivity.
  - intros err Hpos Hnew. rewrite seqZ_cons by lia. cbn [retry_loop].
    destruct (Z.ltb_spec 0 0) as [|_]; [lia|]. by rewrite Hnew.
Qed.

Lemma doGetWithRetry_sends_nothing_witness :
  0 <= maxRetries default_client /\
  doGetWithRetry default_client (no_request (External "bad url"))
  = (inr (Errorf "creating request failed: %w" [AErr (Some (External "bad url"))]), []).
Proof.
  assert (H : 0 <= maxRetries default_client) by (vm_compute; discriminate).
  split; [exact H|].
  destruct (doGetWithRetry_sends_nothing default_client (no_request (External "bad url")))
    as (_ & Hnew).
  exact (Hnew (External "bad url") H eq_refl).
Defined.

Lemma full_trace_S (c : BaseClient) (first : Z) (n : nat) :
  full_trace c first (S n) = (waited c first ++ [Do first]) ++ full_trace c (first + 1) n.
Proof.
  unfold full_trace. rewrite seqZ_cons by lia. cbn [mbind list_bind].
  replace (Z.pred (Z.of_nat (S n))) with (Z.of_nat n) by lia.
  by replace (Z.succ first) with (first + 1) by lia.
Qed.

Lemma full_trace_0 (c : BaseClient) (first : Z) : full_trace c first 0 = [].
Proof. reflexivity. Qed.

(** The shape of every trace of the loop over consecutive attempts. *)
Lemma retry_loop_shape (c : BaseClient) (net : Network) (len : nat) (first : Z)
    (lastErr : option error) :
  exists n : nat,
    (n <= len)%nat /\
    (snd (retry_loop c net (seqZ first (Z.of_nat len)) lastErr) = full_trace c first n \/
     (n < len)%nat /\
     snd (retry_loop c net (seqZ first (Z.of_nat len)) lastErr)
     = full_trace c first n ++ waited c (first + Z.of_nat n)).
Proof.
  revert first lastErr. induction len as [|len IH]; intros first lastErr.
  - exists 0%nat. split; [done|]. left. reflexivity.
  - rewrite seqZ_cons by lia. rewrite retry_loop_cons.
    replace (Z.pred (Z.of_nat (S len))) with (Z.of_nat len) by lia.
    replace (Z.succ first) with (first + 1) by lia.
    destruct (attempt_step_case c net first)
      as [err Hpos Hctx|err Hnc Hnew|bytes Hnc Hnew Hcls|err Hnc Hnew Hcls|err Hnc Hnew Hcls].
    + exists 0%nat. split; [lia|]. right. split; [lia|]. cbn [snd].
      rewrite full_trace_0. replace (first + Z.of_nat 0) with first by lia.
      unfold waited. destruct (Z.ltb_spec 0 first); [done|lia].
    + exists 0%nat. split; [lia|]. right. split; [lia|]. cbn [snd].
      rewrite full_trace_0. by replace (first + Z.of_nat 0) with first by lia.
    + exists 1%nat. split; [lia|]. left. cbn [snd].
      by rewrite full_trace_S, full_trace_0, app_nil_r.
    + exists 1%nat. split; [lia|]. left. cbn [snd].
      by rewrite full_trace_S, full_trace_0, app_nil_r.
    + destruct (IH (first + 1) (Some err)) as (n & Hn & Hshape).
      destruct (retry_loop c net (seqZ (first + 1) (Z.of_nat len)) (Some err)) as [r evs].
      cbn [snd] in *. exists (S n). split; [lia|]. rewrite full_trace_S.
      destruct Hshape as [->|[Hlt ->]].
      * by left.
      * right. split; [lia|]. rewrite <- !app_assoc.
        by replace (first + Z.of_nat (S n)) with (first + 1 + Z.of_nat n) by lia.
Qed.

(** X18. Every run of [doGetWithRetry] has the same shape: for some [n] of
    at most [maxRetries + 1], the attempts 0, 1, ..., n-1 each send their
    request, in this order and each retry directly after its own backoff
    wait, and nothing else happens, except that the run may end with the
    backoff wait of attempt [n] alone (when the context is cancelled during
    that wait or the request cannot be built). *)
Theorem doGetWithRetry_trace_shape (c : BaseClient) (net : Network) :
  exists n : nat,
    Z.of_nat n <= Z.max 0 (maxRetries c + 1) /\
    (snd (doGetWithRetry c net) = full_trace c 0 n \/
     0 < Z.of_nat n <= maxRetries c /\
     snd (doGetWithRetry c net)
     = full_trace c 0 n ++ [Wait (Z.of_nat n) (backoff_delay c (Z.of_nat n))]).
Proof.
  unfold doGetWithRetry.
  assert (Hseq : seqZ 0 (maxRetries c + 1) = seqZ 0 (Z.of_nat (Z.to_nat (maxRetries c + 1)))).
  { unfold seqZ. by rewrite Nat2Z.id. }
  rewrite Hseq.
  destruct (retry_loop_shape c net (Z.to_nat (maxRetries c + 1)) 0 None)
    as (n & Hn & Hshape).
  exists n. split; [lia|]. destruct Hshape as [->|[Hlt ->]]; [by left|].
  replace (0 + Z.of_nat n) with (Z.of_nat n) by lia.
  unfold waited. destruct (Z.ltb_spec 0 (Z.of_nat n)) as [Hpos|Hzero].
  - right. split; [lia|done].
  - left. by rewrite app_nil_r.
Qed.

Example doGetWithRetry_trace_third_time_lucky :
  doGetWithRetry default_client third_time_lucky
  = (inl [Byte.x78], full_trace default_client 0 3) /\
  total_wait (full_trace default_client 0 3) = 3000000000.
Proof. split; vm_compute; reflexivity. Qed.

(** A body is returned only by a request that was answered 2xx with a
    readable body, after requests that all had to be retried. *)
Lemma retry_loop_success (c : BaseClient) (net : Network) (attempts : list Z)
    (lastErr : option error) (bytes : list Byte.byte) :
  fst (retry_loop c net attempts lastErr) = inl bytes ->
  exists before k after,
    attempts = before ++ k :: after /\
    newRequest net = None /\
    classify (roundTrip net k) = Success bytes /\
    (forall j, j ∈ before -> exists err, classify (roundTrip net j) = Retryable err) /\
    (forall j, j ∈ before ++ [k] -> 0 < j -> ctxDone net j = None) /\
    exists pre, snd (retry_loop c net attempts lastErr) = pre ++ [Do k].
Proof.
  revert lastErr. induction attempts as [|a rest IH]; intros lastErr; [done|].
  rewrite retry_loop_cons.
  destruct (attempt_step_case c net a)
    as [err Hpos Hctx|err Hnc Hnew|bytes' Hnc Hnew Hcls|err Hnc Hnew Hcls|err Hnc Hnew Hcls];
    cbn [fst snd]; try discriminate.
  - intros [= ->]. exists [], a, rest. split; [done|]. split; [done|]. split; [done|].
    split; [intros j Hj; by apply elem_of_nil in Hj|]. split.
    + intros j Hj Hpos. cbn in Hj. apply list_elem_of_singleton in Hj. subst j. by apply Hnc.
    + by exists (waited c a).
  - specialize (IH (Some err)).
    destruct (retry_loop c net rest (Some err)) as [r evs]. cbn [fst snd] in *.
    intros Hr. destruct (IH Hr) as (before & k & after & -> & Hn & Hk & Hbefore & Hctx & pre & ->).
    exists (a :: before), k, after. split; [done|]. split; [done|]. split; [done|]. split.
    + intros j Hj. apply elem_of_cons in Hj as [->|Hj]; [by exists err|by apply Hbefore].
    + split.
      * intros j Hj Hpos. cbn in Hj. apply elem_of_cons in Hj as [->|Hj];
          [by apply Hnc|by apply Hctx].
      * exists ((waited c a ++ [Do a]) ++ pre). by rewrite <- !app_assoc.
Qed.

(** X19. [doGetWithRetry] returns a body only when some attempt [k] from 0
    to [maxRetries] was answered with a status from 200 to 299 and a body
    that could be read: the returned bytes are that body, the request of
    attempt [k] is the last event of the call, every earlier attempt was
    answered with something the loop retries (not with a 2xx body and not
    with a 4xx other than 429), and the context was not cancelled in any
    wait up to attempt [k]. *)
Theorem doGetWithRetry_success (c : BaseClient) (net : Network) (bytes : list Byte.byte) :
  fst (doGetWithRetry c net) = inl bytes ->
  exists k StatusCode,
    0 <= k <= maxRetries c /\
    roundTrip net k = DoResponse StatusCode (inl bytes) /\
    200 <= StatusCode < 300 /\
    newRequest net = None /\
    (forall j, 0 <= j < k -> exists err, classify (roundTrip net j) = Retryable err) /\
    (forall j, 0 < j <= k -> ctxDone net j = None) /\
    exists pre, snd (doGetWithRetry c net) = pre ++ [Do k].
Proof.
  unfold doGetWithRetry. intros Hres.
  destruct (retry_loop_success c net _ None bytes Hres)
    as (before & k & after & Hsplit & Hnew & Hcls & Hbefore & Hctx & Hlast).
  assert (Hlen : before = seqZ 0 (Z.of_nat (length before)) /\ k = Z.of_nat (length before) /\
                 Z.of_nat (length before) < maxRetries c + 1).
  { assert (Hk : seqZ 0 (maxRetries c + 1) !! length before = Some k).
    { rewrite Hsplit. by rewrite list_lookup_middle. }
    apply lookup_seqZ in Hk as [Hk Hlt]. split; [|split; [lia|lia]].
    apply list_eq. intros i. destruct (decide (i < length before)%nat) as [Hi|Hi].
    - assert (Hsi : seqZ 0 (maxRetries c + 1) !! i = before !! i).
      { rewrite Hsplit. by rewrite lookup_app_l. }
      rewrite <- Hsi. destruct (lookup_lt_is_Some_2 before i Hi) as [x Hx].
      rewrite Hsi, Hx in *. clear Hsi.
      assert (Hx' : seqZ 0 (maxRetries c + 1) !! i = Some x).
      { rewrite Hsplit. by rewrite lookup_app_l. }
      apply lookup_seqZ in Hx' as [-> _]. symmetry. apply lookup_seqZ. lia.
    - rewrite !lookup_ge_None_2; [done| |lia]. rewrite length_seqZ. lia. }
  destruct Hlen as (Hb & Hk & Hlt).
  unfold classify in Hcls. destruct (roundTrip net k) as [err|StatusCode body] eqn:Hrt;
    [discriminate|].
  destruct (Z.leb_spec 200 StatusCode); cbn [andb] in Hcls;
    [destruct (Z.ltb_spec StatusCode 300); cbn [andb] in Hcls|].
  - destruct body as [bytes'|err]; [|discriminate]. injection Hcls as ->.
    exists k, StatusCode. split; [lia|]. split; [done|]. split; [lia|]. split; [done|].
    split; [|split; [|exact Hlast]].
    + intros j Hj. apply Hbefore. rewrite Hb. apply elem_of_seqZ. lia.
    + intros j Hj. apply Hctx; [|lia]. apply elem_of_app.
      destruct (decide (j = k)) as [->|Hne].
      * right. by apply list_elem_of_singleton.
      * left. rewrite Hb. apply elem_of_seqZ. lia.
  - by destruct (_ && _).
  - by destruct (_ && _).
Qed.

Lemma doGetWithRetry_success_witness :
  fst (doGetWithRetry default_client third_time_lucky) = inl [Byte.x78] /\
  exists k StatusCode,
    0 <= k <= maxRetries default_client /\
    roundTrip third_time_lucky k = DoResponse StatusCode (inl [Byte.x78]) /\
    200 <= StatusCode < 300.
Proof.
  assert (H : fst (doGetWithRetry default_client third_time_lucky) = inl [Byte.x78])
    by (vm_compute; reflexivity).
  split; [exact H|].
  destruct (doGetWithRetry_success default_client third_time_lucky [Byte.x78] H)
    as (k & StatusCode & Hk & Hrt & Hcode & _).
  exists k, StatusCode. split; [exact Hk|]. split; [exact Hrt|exact Hcode].
Defined.

(** ** The backoff delays *)





(** * The Open-Meteo adapter *)

Lemma index_Done {A} (a : list A) (i : nat) (x : A) : index a i = Done x <-> a !! i = Some x.
Proof. unfold index. destruct (a !! i); split; congruence. Qed.

Lemma index_cases {A} (a : list A) (i : nat) :
  (exists x, a !! i = Some x /\ index a i = Done x /\ (i < length a)%nat) \/
  (index a i = Panic "index out of range" /\ (length a <= i)%nat).
Proof.
  unfold index. destruct (a !! i) as [x|] eqn:E.
  - left. exists x. split; [done|]. split; [done|]. by apply lookup_lt_Some in E.
  - right. split; [done|]. by apply lookup_ge_None in E.
Qed.

(** The body of the loop either builds the day from the five entries at
    index [i] or panics because one of the slices is too short. *)
Lemma openmeteo_day_cases (parse_date : string -> Time) (daily : OpenMeteoDaily) (i : nat) :
  (exists time code maxTemp minTemp precipitation,
     daily_Time daily !! i = Some time /\
     daily_WeatherCode daily !! i = Some code /\
     daily_Temperature2MMax daily !! i = Some maxTemp /\
     daily_Temperature2MMin daily !! i = Some minTemp /\
     daily_PrecipitationSum daily !! i = Some precipitation /\
     openmeteo_day parse_date daily i
     = Done {| fd_Date := parse_date time;
               fd_MaxTemp := maxTemp;
               fd_MinTemp := minTemp;
               fd_AvgTemp := ((maxTemp + minTemp) / 2)%Q;
               fd_Humidity := 0%Q;
               fd_Description := weatherCodeToDescription code;
               fd_Icon := weatherCodeToIcon code;
               fd_Precipitation := precipitation |}) \/
  (openmeteo_day parse_date daily i = Panic "index out of range" /\
   ((length (daily_Time daily) <= i)%nat \/
    (length (daily_WeatherCode daily) <= i)%nat \/
    (length (daily_Temperature2MMax daily) <= i)%nat \/
    (length (daily_Temperature2MMin daily) <= i)%nat \/
    (length (daily_PrecipitationSum daily) <= i)%nat)).
Proof.
  unfold openmeteo_day.
  destruct (index_cases (daily_Time daily) i) as [(time & Ht & -> & _)|[-> Hlen]];
    [|right; split; [done|tauto]].
  destruct (index_cases (daily_WeatherCode daily) i) as [(code & Hc & -> & _)|[-> Hlen]];
    [|right; split; [done|tauto]].
  destruct (index_cases (daily_Temperature2MMax daily) i) as [(mx & Hmx & -> & _)|[-> Hlen]];
    [|right; split; [done|tauto]].
  destruct (index_cases (daily_Temperature2MMin daily) i) as [(mn & Hmn & -> & _)|[-> Hlen]];
    [|right; split; [done|tauto]].
  destruct (index_cases (daily_PrecipitationSum daily) i) as [(p & Hp & -> & _)|[-> Hlen]];
    [|right; split; [done|tauto]].
  left. exists time, code, mx, mn, p. by cbn.
Qed.

Lemma openmeteo_loop_panic (parse_date : string -> Time) (daily : OpenMeteoDaily)
    (l : list nat) (reason : string) :
  fold_left (openmeteo_step parse_date daily) l (Panic reason) = Panic reason.
Proof. induction l as [|i l IH]; [done|]. exact IH. Qed.

(** The loop over the indices [l]: every day is built and appended in
    order, or the loop panics at the first index that is out of range. *)
Lemma openmeteo_loop (parse_date : string -> Time) (daily : OpenMeteoDaily)
    (l : list nat) (acc : list ForecastDay) :
  (exists days,
     fold_left (openmeteo_step parse_date daily) l (Done acc) = Done (acc ++ days) /\
     Forall2 (fun i day => openmeteo_day parse_date daily i = Done day) l days) \/
  (fold_left (openmeteo_step parse_date daily) l (Done acc) = Panic "index out of range" /\
   exists i, i ∈ l /\ openmeteo_day parse_date daily i = Panic "index out of range").
Proof.
  revert acc. induction l as [|i l IH]; intros acc.
  - left. exists []. split; [by rewrite app_nil_r|constructor].
  - cbn [fold_left].
    destruct (openmeteo_day_cases parse_date daily i)
      as [(time & code & mx & mn & p & _ & _ & _ & _ & _ & Hday)|[Hday _]].
    + set (day := {| fd_Date := parse_date time; fd_MaxTemp := mx;
                     fd_MinTemp := mn; fd_AvgTemp := ((mx + mn) / 2)%Q;
                     fd_Humidity := 0%Q;
                     fd_Description := weatherCodeToDescription code;
                     fd_Icon := weatherCodeToIcon code;
                     fd_Precipitation := p |}) in *.
      assert (Hstep : openmeteo_step parse_date daily (Done acc) i = Done (acc ++ [day])).
      { unfold openmeteo_step. cbn [exec_bind]. by rewrite Hday. }
      rewrite Hstep.
      destruct (IH (acc ++ [day])) as [(days & Hrun & Hall)|[Hrun (j & Hj & Hp)]].
      * left. exists (day :: days). split; [by rewrite Hrun, <- app_assoc|].
        constructor; [exact Hday|exact Hall].
      * right. split; [exact Hrun|]. exists j. split; [|exact Hp].
        apply elem_of_cons. by right.
    + assert (Hstep : openmeteo_step parse_date daily (Done acc) i
                      = Panic "index out of range").
      { unfold openmeteo_step. cbn [exec_bind]. by rewrite Hday. }
      rewrite Hstep, openmeteo_loop_panic.
      right. split; [done|]. exists i. split; [|exact Hday]. apply elem_of_cons. by left.
Qed.

Section OpenMeteoFacts.

Variable GetWithRetry : url -> list Byte.byte + error.
Variable Unmarshal_current : list Byte.byte -> OpenMeteoCurrent + error.
Variable Unmarshal_forecast : list Byte.byte -> OpenMeteoDaily + error.
Variable parse_RFC3339 : string -> Time.
Variable parse_date : string -> Time.
Variable baseURL : string.

(** X21. [GetForecast] of the Open-Meteo adapter.  For a city without
    hard-coded coordinates it returns the error "coordinates not found"
    and requests nothing.  Once the answer of the provider is decoded:
    a negative number of days panics; otherwise, when the five slices of
    the answer are long enough, the forecast has as many days as the
    smaller of [days] and the number of dates received, day [i] carries the
    [i]-th maximum, minimum and precipitation and the description and icon
    of the [i]-th weather code, its average temperature is the mean of
    maximum and minimum and its humidity is always 0; and when one of the
    other four slices is shorter than that, the call panics. *)
Theorem OpenMeteo_GetForecast_spec (city : string) (days : Z) :
  (coordinates !! city = None ->
   OpenMeteo_GetForecast GetWithRetry Unmarshal_forecast parse_date baseURL city days
   = (Done (None, Some (Errorf "coordinates not found for city: %s" [AStr city])), [])) /\
  (forall coords data daily,
     coordinates !! city = Some coords ->
     GetWithRetry (openmeteo_forecast_url baseURL coords days) = inl data ->
     Unmarshal_forecast data = inl daily ->
     let result :=
       fst (OpenMeteo_GetForecast GetWithRetry Unmarshal_forecast parse_date baseURL
              city days) in
     let n := Nat.min (Z.to_nat days) (length (daily_Time daily)) in
     (days < 0 -> result = Panic "makeslice: cap out of range") /\
     (0 <= days ->
      (n <= length (daily_WeatherCode daily))%nat ->
      (n <= length (daily_Temperature2MMax daily))%nat ->
      (n <= length (daily_Temperature2MMin daily))%nat ->
      (n <= length (daily_PrecipitationSum daily))%nat ->
      exists fc,
        result = Done (Some fc, None) /\
        wf_City fc = city /\ wf_Source fc = "open-meteo" /\
        length (wf_Forecast fc) = n /\
        forall i day, wf_Forecast fc !! i = Some day ->
          daily_Temperature2MMax daily !! i = Some (fd_MaxTemp day) /\
          daily_Temperature2MMin daily !! i = Some (fd_MinTemp day) /\
          daily_PrecipitationSum daily !! i = Some (fd_Precipitation day) /\
          fd_AvgTemp day = ((fd_MaxTemp day + fd_MinTemp day) / 2)%Q /\
          fd_Humidity day = 0%Q /\
          exists code, daily_WeatherCode daily !! i = Some code /\
                       fd_Description day = weatherCodeToDescription code /\
                       fd_Icon day = weatherCodeToIcon code) /\
     (0 <= days ->
      (length (daily_WeatherCode daily) < n)%nat \/
      (length (daily_Temperature2MMax daily) < n)%nat \/
      (length (daily_Temperature2MMin daily) < n)%nat \/
      (length (daily_PrecipitationSum daily) < n)%nat ->
      result = Panic "index out of range")).
Proof.
  split.
  - intros Hnone. unfold OpenMeteo_GetForecast. by rewrite Hnone.
  - intros coords data daily Hc Hget Hdec. cbv zeta.
    unfold OpenMeteo_GetForecast. rewrite Hc. cbv zeta. rewrite Hget, Hdec.
    set (n := Nat.min (Z.to_nat days) (length (daily_Time daily))).
    split; [|split].
    + intros Hneg. by destruct (Z.ltb_spec days 0); [|lia].
    + intros Hdays Hcode Hmax Hmin Hprec. destruct (Z.ltb_spec days 0); [lia|]. cbn [fst].
      destruct (openmeteo_loop parse_date daily (seq 0 n) [])
        as [(ds & -> & Hall)|[_ (i & Hi & Hp)]].
      * cbn [exec_bind app]. eexists. split; [reflexivity|]. cbn [wf_City wf_Source wf_Forecast].
        split; [done|]. split; [done|]. split.
        { apply Forall2_length in Hall. by rewrite length_seq in Hall. }
        intros i day Hday.
        destruct (Forall2_lookup_r _ _ _ _ _ Hall Hday) as (j & Hj & Hrun).
        apply lookup_seq in Hj as [-> _]. cbn [Nat.add] in Hrun.
        destruct (openmeteo_day_cases parse_date daily i)
          as [(time & code & mx & mn & p & _ & Hcd & Hmx & Hmn & Hp & Hd)|[Hd _]];
          [|congruence].
        rewrite Hd in Hrun. injection Hrun as <-. cbn.
        split; [done|]. split; [done|]. split; [done|]. split; [done|]. split; [done|].
        by exists code.
      * exfalso. apply elem_of_seq in Hi.
        destruct (openmeteo_day_cases parse_date daily i)
          as [(time & code & mx & mn & p & _ & _ & _ & _ & _ & Hd)|[_ Hlen]]; [congruence|].
        unfold n in *. lia.
    + intros Hdays Hshort. destruct (Z.ltb_spec days 0); [lia|]. cbn [fst].
      destruct (openmeteo_loop parse_date daily (seq 0 n) [])
        as [(ds & _ & Hall)|[-> _]]; [|done].
      exfalso.
      assert (Hlast : exists i, (i < n)%nat /\
                ((length (daily_WeatherCode daily) <= i)%nat \/
                 (length (daily_Temperature2MMax daily) <= i)%nat \/
                 (length (daily_Temperature2MMin daily) <= i)%nat \/
                 (length (daily_PrecipitationSum daily) <= i)%nat)).
      { exists (n - 1)%nat. lia. }
      destruct Hlast as (i & Hi & Hlen).
      assert (Hin : seq 0 n !! i = Some i) by (by apply lookup_seq).
      destruct (Forall2_lookup_l _ _ _ _ _ Hall Hin) as (day & _ & Hrun).
      destruct (openmeteo_day_cases parse_date daily i)
        as [(time & code & mx & mn & p & _ & Hcd & Hmx & Hmn & Hp & _)|[Hd _]];
        [|congruence].
      apply lookup_lt_Some in Hcd, Hmx, Hmn, Hp. lia.
Qed.

(** X22. [GetCurrentWeather] of the Open-Meteo adapter.  A city without
    hard-coded coordinates gets the error "coordinates not found" and
    nothing is requested.  For a city with coordinates exactly one URL is
    requested; its latitude argument is the whole pair "latitude,longitude"
    and its longitude argument is the second half of that text by length,
    which is the longitude only for NewYork and Tokyo and begins with the
    comma for Prague, London and Sydney.  When the answer is fetched and
    decoded, the reading carries the requested city, the temperature also
    as feels-like temperature, and the source name under which the
    coordinator files the responses of this client. *)
Theorem OpenMeteo_GetCurrentWeather_spec (city : string) :
  (coordinates !! city = None ->
   OpenMeteo_GetCurrentWeather GetWithRetry Unmarshal_current parse_RFC3339 baseURL city
   = ((None, Some (Errorf "coordinates not found for city: %s" [AStr city])), [])) /\
  (forall coords,
     coordinates !! city = Some coords ->
     exists latitude longitude format,
       coords = latitude +:+ "," +:+ longitude /\
       snd (OpenMeteo_GetCurrentWeather GetWithRetry Unmarshal_current parse_RFC3339
              baseURL city)
       = [Sprintf format [AStr baseURL; AStr coords; AStr (coords_tail coords)]] /\
       (coords_tail coords = longitude <-> city = "NewYork" \/ city = "Tokyo") /\
       (coords_tail coords = "," +:+ longitude <->
        city = "Prague" \/ city = "London" \/ city = "Sydney") /\
       forall data current,
         GetWithRetry (openmeteo_current_url baseURL coords) = inl data ->
         Unmarshal_current data = inl current ->
         exists weather,
           fst (OpenMeteo_GetCurrentWeather GetWithRetry Unmarshal_current parse_RFC3339
                  baseURL city)
           = (Some weather, None) /\
           cw_City weather = city /\
           cw_Source weather = getSourceName OpenMeteoClient /\
           cw_Temperature weather = current_Temperature2M current /\
           cw_FeelsLike weather = cw_Temperature weather /\
           cw_Description weather = weatherCodeToDescription (current_WeatherCode current) /\
           cw_Icon weather = weatherCodeToIcon (current_WeatherCode current)).
Proof.
  split.
  - intros Hnone. unfold OpenMeteo_GetCurrentWeather. by rewrite Hnone.
  - intros coords Hc.
    assert (Hreq : exists format,
              snd (OpenMeteo_GetCurrentWeather GetWithRetry Unmarshal_current parse_RFC3339
                     baseURL city)
              = [Sprintf format [AStr baseURL; AStr coords; AStr (coords_tail coords)]]).
    { unfold OpenMeteo_GetCurrentWeather. rewrite Hc. cbv zeta. eexists.
      destruct (GetWithRetry _) as [data|err]; [|reflexivity].
      destruct (Unmarshal_current data); reflexivity. }
    destruct Hreq as (format & Hreq).
    assert (Hrun : forall data current,
              GetWithRetry (openmeteo_current_url baseURL coords) = inl data ->
              Unmarshal_current data = inl current ->
              exists weather,
                fst (OpenMeteo_GetCurrentWeather GetWithRetry Unmarshal_current parse_RFC3339
                       baseURL city)
                = (Some weather, None) /\
                cw_City weather = city /\
                cw_Source weather = getSourceName OpenMeteoClient /\
                cw_Temperature weather = current_Temperature2M current /\
                cw_FeelsLike weather = cw_Temperature weather /\
                cw_Description weather
                = weatherCodeToDescription (current_WeatherCode current) /\
                cw_Icon weather = weatherCodeToIcon (current_WeatherCode current)).
    { intros data current Hget Hdec. unfold OpenMeteo_GetCurrentWeather.
      rewrite Hc. cbv zeta. rewrite Hget, Hdec. eexists. split; [reflexivity|]. by cbn. }
    apply elem_of_list_to_map_2 in Hc.
    repeat (apply elem_of_cons in Hc as [Hc|Hc]; [injection Hc as -> ->|]);
      [..|by apply elem_of_nil in Hc].
    + exists "50.0755", "14.4378", format. split; [reflexivity|]. split; [exact Hreq|].
      split; [split; [discriminate|intros [|]; discriminate]|].
      split; [split; [by left|reflexivity]|exact Hrun].
    + exists "51.5074", "-0.1278", format. split; [reflexivity|]. split; [exact Hreq|].
      split; [split; [discriminate|intros [|]; discriminate]|].
      split; [split; [by right; left|reflexivity]|exact Hrun].
    + exists "40.7128", "-74.0060", format. split; [reflexivity|]. split; [exact Hreq|].
      split; [split; [by left|reflexivity]|].
      split; [split; [discriminate|intros [|[|]]; discriminate]|exact Hrun].
    + exists "35.6762", "139.6503", format. split; [reflexivity|]. split; [exact Hreq|].
      split; [split; [by right|reflexivity]|].
      split; [split; [discriminate|intros [|[|]]; discriminate]|exact Hrun].
    + exists "-33.8688", "151.2093", format. split; [reflexivity|]. split; [exact Hreq|].
      split; [split; [discriminate|intros [|]; discriminate]|].
      split; [split; [by right; right|reflexivity]|exact Hrun].
Qed.

End OpenMeteoFacts.

Lemma OpenMeteo_GetForecast_spec_witness :
  coordinates !! "Prague" = Some "50.0755,14.4378" /\
  0 <= 3 /\
  exists fc,
    fst (OpenMeteo_GetForecast (fun _ => inl []) (fun _ => inl sample_daily) (fun _ => 0)
           "https://api.open-meteo.com/v1" "Prague" 3)
    = Done (Some fc, None) /\
    length (wf_Forecast fc) = 3%nat /\
  fst (OpenMeteo_GetForecast (fun _ => inl []) (fun _ => inl short_daily) (fun _ => 0)
         "https://api.open-meteo.com/v1" "Prague" 3)
  = Panic "index out of range".
Proof.
  assert (Hc : coordinates !! "Prague" = Some "50.0755,14.4378") by (vm_compute; reflexivity).
  assert (Hd : 0 <= 3) by lia.
  split; [exact Hc|]. split; [exact Hd|].
  destruct (OpenMeteo_GetForecast_spec (fun _ => inl []) (fun _ => inl sample_daily)
              (fun _ => 0) "https://api.open-meteo.com/v1" "Prague" 3) as (_ & Hok).
  destruct (Hok "50.0755,14.4378" [] sample_daily Hc eq_refl eq_refl) as (_ & Hgood & _).
  destruct Hgood as (fc & Hrun & _ & _ & Hlen & _);
    [exact Hd|cbn; lia|cbn; lia|cbn; lia|cbn; lia|].
  destruct (OpenMeteo_GetForecast_spec (fun _ => inl []) (fun _ => inl short_daily)
              (fun _ => 0) "https://api.open-meteo.com/v1" "Prague" 3) as (_ & Hbad).
  destruct (Hbad "50.0755,14.4378" [] short_daily Hc eq_refl eq_refl) as (_ & _ & Hpanic).
  exists fc. split; [exact Hrun|]. split; [exact Hlen|].
  apply Hpanic; [exact Hd|]. left. cbn. lia.
Defined.

Lemma OpenMeteo_GetCurrentWeather_spec_witness :
  coordinates !! "Prague" = Some "50.0755,14.4378" /\
  coordinates !! "Berlin" = None /\
  OpenMeteo_GetCurrentWeather (fun _ => inl []) (fun _ => inr (External "bad json"))
    (fun _ => 0) "https://api.open-meteo.com/v1" "Berlin"
  = ((None, Some (Errorf "coordinates not found for city: %s" [AStr "Berlin"])), []) /\
  coords_tail "50.0755,14.4378" <> "14.4378".
Proof.
  assert (Hc : coordinates !! "Prague" = Some "50.0755,14.4378") by (vm_compute; reflexivity).
  assert (Hn : coordinates !! "Berlin" = None) by (vm_compute; reflexivity).
  split; [exact Hc|]. split; [exact Hn|].
  destruct (OpenMeteo_GetCurrentWeather_spec (fun _ => inl [])
              (fun _ => inr (External "bad json")) (fun _ => 0)
              "https://api.open-meteo.com/v1" "Berlin") as (Hnone & _).
  split; [exact (Hnone Hn)|].
  destruct (OpenMeteo_GetCurrentWeather_spec (fun _ => inl [])
              (fun _ => inr (External "bad json")) (fun _ => 0)
              "https://api.open-meteo.com/v1" "Prague") as (_ & Hsome).
  destruct (Hsome _ Hc) as (latitude & longitude & format & _ & _ & Hlon & _).
  discriminate.
Defined.

(** * The OpenWeatherMap adapter *)

(** What the loop over the items of a day leaves in its variables. *)
Lemma item_loop (items : list OpenWeatherItem) (acc : item_acc) :
  let acc' := fold_left item_step items acc in
  (acc_totalTemp acc' == acc_totalTemp acc + Qsum (temps_of items))%Q /\
  (acc_maxTemp acc <= acc_maxTemp acc')%Q /\
  (acc_minTemp acc' <= acc_minTemp acc)%Q /\
  (forall item, item ∈ items ->
     (item_Temp item <= acc_maxTemp acc')%Q /\ (acc_minTemp acc' <= item_Temp item)%Q) /\
  (acc_maxTemp acc' = acc_maxTemp acc \/
   exists item, item ∈ items /\ acc_maxTemp acc' = item_Temp item) /\
  (acc_minTemp acc' = acc_minTemp acc \/
   exists item, item ∈ items /\ acc_minTemp acc' = item_Temp item).
Proof.
  cbv zeta. revert acc. induction items as [|item items IH]; intros acc.
  - cbn. split; [ring|]. split; [lra|]. split; [lra|].
    split; [intros item Hin; by apply elem_of_nil in Hin|]. split; by left.
  - cbn [fold_left]. destruct (IH (item_step acc item)) as (Ht & Hmx & Hmn & Hall & Hamx & Hamn).
    set (acc' := fold_left item_step items (item_step acc item)) in *.
    assert (Hstep_max : (acc_maxTemp acc <= acc_maxTemp (item_step acc item))%Q /\
                        (item_Temp item <= acc_maxTemp (item_step acc item))%Q /\
                        (acc_maxTemp (item_step acc item) = acc_maxTemp acc \/
                         acc_maxTemp (item_step acc item) = item_Temp item)).
    { cbn. destruct (Qgtb (item_Temp item) (acc_maxTemp acc)) eqn:E.
      - apply Qgtb_true in E. split; [lra|]. split; [lra|by right].
      - apply Qgtb_false in E. split; [lra|]. split; [lra|by left]. }
    assert (Hstep_min : (acc_minTemp (item_step acc item) <= acc_minTemp acc)%Q /\
                        (acc_minTemp (item_step acc item) <= item_Temp item)%Q /\
                        (acc_minTemp (item_step acc item) = acc_minTemp acc \/
                         acc_minTemp (item_step acc item) = item_Temp item)).
    { cbn. destruct (Qltb (item_Temp item) (acc_minTemp acc)) eqn:E.
      - apply Qltb_true in E. split; [lra|]. split; [lra|by right].
      - apply Qltb_false in E. split; [lra|]. split; [lra|by left]. }
    destruct Hstep_max as (Hs1 & Hs2 & Hs3). destruct Hstep_min as (Hs4 & Hs5 & Hs6).
    split; [|split; [lra|split; [lra|split; [|split]]]].
    + rewrite Ht.
      change (Qsum (temps_of (item :: items)))
        with (item_Temp item + Qsum (temps_of items))%Q.
      cbn [item_step acc_totalTemp]. ring.
    + intros item' Hin. apply elem_of_cons in Hin as [->|Hin]; [split; lra|by apply Hall].
    + destruct Hamx as [->|(item' & Hin & ->)].
      * destruct Hs3 as [->| ->]; [by left|]. right. exists item.
        split; [apply elem_of_cons; by left|done].
      * right. exists item'. split; [apply elem_of_cons; by right|done].
    + destruct Hamn as [->|(item' & Hin & ->)].
      * destruct Hs6 as [->| ->]; [by left|]. right. exists item.
        split; [apply elem_of_cons; by left|done].
      * right. exists item'. split; [apply elem_of_cons; by right|done].
Qed.

(** The loop over the days appends the days of the first entries, as many
    as are still missing. *)
Lemma openweather_loop_take (parse_date : string -> Time) (days : Z)
    (entries : list (string * list OpenWeatherItem)) (forecast : list ForecastDay) :
  openweather_loop parse_date days entries forecast
  = forecast ++ (openweather_day parse_date
                   <$> take (Z.to_nat (days - Z.of_nat (length forecast))) entries).
Proof.
  revert forecast. induction entries as [|e entries IH]; intros forecast.
  - cbn. by rewrite take_nil, app_nil_r.
  - cbn [openweather_loop]. destruct (Z.of_nat (length forecast) >=? days) eqn:E;
      rewrite Z.geb_leb in E.
    + apply Z.leb_le in E. replace (Z.to_nat (days - Z.of_nat (length forecast))) with 0%nat by lia.
      cbn. by rewrite app_nil_r.
    + apply Z.leb_gt in E. rewrite IH. rewrite length_app. cbn [length].
      replace (Z.to_nat (days - Z.of_nat (length forecast)))
        with (S (Z.to_nat (days - Z.of_nat (length forecast + 1)))) by lia.
      cbn [take fmap list_fmap]. by rewrite <- app_assoc.
Qed.

(** The map built by the grouping loop: under each date the items of that
    date, in the order of the answer. *)
Lemma group_loop (format_date : Z -> string) (l : list OpenWeatherItem)
    (m : gmap string (list OpenWeatherItem)) (date : string) :
  fold_left (group_step format_date) l m !! date
  = match m !! date, filter (fun item => format_date (item_Dt item) = date) l with
    | None, [] => None
    | mitems, items => Some (default [] mitems ++ items)
    end.
Proof.
  revert m. induction l as [|item l IH]; intros m.
  - cbn. destruct (m !! date) as [items|]; [by rewrite app_nil_r|done].
  - cbn [fold_left]. rewrite IH. unfold group_step.
    destruct (decide (format_date (item_Dt item) = date)) as [Heq|Hne].
    + rewrite filter_cons_True by done. rewrite Heq, lookup_insert_eq.
      destruct (m !! date) as [y|]; cbn [default app]; unfold id;
        [by rewrite <- app_assoc|done].
    + rewrite filter_cons_False by done. by rewrite lookup_insert_ne.
Qed.

Section OpenWeatherFacts.

Variable GetWithRetry : url -> list Byte.byte + error.
Variable Unmarshal_current : list Byte.byte -> OpenWeatherCurrentResponse + error.
Variable Unmarshal_forecast : list Byte.byte -> OpenWeatherForecastResponse + error.
Variable Unix : Z -> Time.
Variable format_date : Z -> string.
Variable parse_date : string -> Time.
Variable order : list (string * list OpenWeatherItem) -> list (string * list OpenWeatherItem).
Variable baseURL apiKey : string.

(** X23. [GetCurrentWeather] of the OpenWeatherMap adapter, once the answer
    is fetched and decoded: a [cod] other than 200 gives the error
    "API error"; with [cod] 200 and an empty list of weather conditions
    the call panics; otherwise the reading carries the name of the city
    given in the answer (not the requested one), the first weather
    condition, the instant [time.Unix(dt, 0)], and the source name under
    which the coordinator files the responses of this client. *)
Theorem OpenWeather_GetCurrentWeather_spec (city : string) (data : list Byte.byte)
    (response : OpenWeatherCurrentResponse) :
  GetWithRetry (openweather_current_url baseURL city apiKey) = inl data ->
  Unmarshal_current data = inl response ->
  let result := OpenWeather_GetCurrentWeather GetWithRetry Unmarshal_current Unix
                  baseURL apiKey city in
  (owc_Cod response <> 200 ->
   result = Done (None, Some (Errorf "API error: %d" [AInt (owc_Cod response)]))) /\
  (owc_Cod response = 200 -> owc_Weather response = [] ->
   result = Panic "index out of range") /\
  (owc_Cod response = 200 ->
   forall first rest, owc_Weather response = first :: rest ->
   exists weather,
     result = Done (Some weather, None) /\
     cw_City weather = owc_Name response /\
     cw_Source weather = getSourceName OpenWeatherClient /\
     cw_Description weather = condition_Description first /\
     cw_Icon weather = condition_Icon first /\
     cw_Timestamp weather = Unix (owc_Dt response) /\
     cw_Temperature weather = owc_Temp response /\
     cw_FeelsLike weather = owc_FeelsLike response).
Proof.
  intros Hget Hdec. cbv zeta. unfold OpenWeather_GetCurrentWeather. rewrite Hget, Hdec.
  split; [|split].
  - intros Hcod. by destruct (Z.eqb_spec (owc_Cod response) 200).
  - intros Hcod Hnil. destruct (Z.eqb_spec (owc_Cod response) 200); [|done].
    cbn [negb]. by rewrite Hnil.
  - intros Hcod first rest Hw. destruct (Z.eqb_spec (owc_Cod response) 200); [|done].
    cbn [negb]. rewrite Hw. cbn. eexists. split; [reflexivity|]. by cbn.
Qed.

(** The order in which Go ranges over a map: every entry once. *)
Hypothesis order_perm : forall l, order l ≡ₚ l.

(** X24. [GetForecast] of the OpenWeatherMap adapter, once the answer is
    fetched and decoded.  A [cod] other than "200" gives the error
    "API error"; a negative number of days panics.  Otherwise the items of
    the answer are grouped by their date and the forecast consists of the
    days of some of the dates, each date at most once, in the order in
    which Go ranges over the map (not necessarily by date): as many as the
    smaller of [days] and the number of dates.  A day holds the mean
    temperature of the items of its date and a precipitation of 0; its
    maximum is at least, and its minimum at most, every temperature of the
    date; the maximum is never below -100 and the minimum never above 100
    (the start values of the loop), and each is the temperature of an item
    of the date when that item is above -100, respectively below 100. *)
Theorem OpenWeather_GetForecast_spec (city : string) (days : Z) (data : list Byte.byte)
    (response : OpenWeatherForecastResponse) :
  GetWithRetry (openweather_forecast_url baseURL city apiKey days) = inl data ->
  Unmarshal_forecast data = inl response ->
  let result := OpenWeather_GetForecast GetWithRetry Unmarshal_forecast format_date
                  parse_date order baseURL apiKey city days in
  let dates := remove_dups ((fun item => format_date (item_Dt item)) <$> owf_List response) in
  (owf_Cod response <> "200" ->
   result = Done (None, Some (Errorf "API error: %s" [AStr (owf_Cod response)]))) /\
  (owf_Cod response = "200" -> days < 0 -> result = Panic "makeslice: cap out of range") /\
  (owf_Cod response = "200" -> 0 <= days ->
   exists fc chosen,
     result = Done (Some fc, None) /\
     wf_City fc = owf_CityName response /\
     wf_Source fc = getSourceName OpenWeatherClient /\
     wf_Forecast fc = openweather_day parse_date <$> chosen /\
     length chosen = Nat.min (Z.to_nat days) (length dates) /\
     NoDup chosen.*1 /\
     forall date items, (date, items) ∈ chosen ->
       items = filter (fun item => format_date (item_Dt item) = date) (owf_List response) /\
       items <> [] /\
       let day := openweather_day parse_date (date, items) in
       fd_Date day = parse_date date /\
       (fd_AvgTemp day == mean (temps_of items))%Q /\
       fd_Precipitation day = 0%Q /\
       (forall item, item ∈ items ->
          (item_Temp item <= fd_MaxTemp day)%Q /\ (fd_MinTemp day <= item_Temp item)%Q) /\
       (-100 <= fd_MaxTemp day)%Q /\ (fd_MinTemp day <= 100)%Q /\
       ((exists item, item ∈ items /\ (-100 < item_Temp item)%Q) ->
        exists item, item ∈ items /\ fd_MaxTemp day = item_Temp item) /\
       ((exists item, item ∈ items /\ (item_Temp item < 100)%Q) ->
        exists item, item ∈ items /\ fd_MinTemp day = item_Temp item)).
Proof.
  intros Hget Hdec. cbv zeta. unfold OpenWeather_GetForecast. rewrite Hget, Hdec.
  split; [|split].
  - intros Hcod. by destruct (String.eqb_spec (owf_Cod response) "200").
  - intros Hcod Hneg. destruct (String.eqb_spec (owf_Cod response) "200"); [|done].
    cbn [negb]. by destruct (Z.ltb_spec days 0); [|lia].
  - intros Hcod Hdays. destruct (String.eqb_spec (owf_Cod response) "200"); [|done].
    cbn [negb]. destruct (Z.ltb_spec days 0); [lia|].
    set (forecastByDay := fold_left (group_step format_date) (owf_List response) ∅).
    set (chosen := take (Z.to_nat days) (order (map_to_list forecastByDay))).
    assert (Hgroup : forall date items,
              forecastByDay !! date = Some items <->
              items = filter (fun item => format_date (item_Dt item) = date)
                             (owf_List response) /\ items <> []).
    { intros date items. unfold forecastByDay. rewrite group_loop, lookup_empty.
      destruct (filter _ (owf_List response)) as [|item l]; cbn.
      - split; [done|]. by intros [-> ?].
      - split; [by intros [= <-]|]. by intros [-> _]. }
    assert (Hkeys : (map_to_list forecastByDay).*1
                    ≡ₚ remove_dups ((fun item => format_date (item_Dt item))
                                      <$> owf_List response)).
    { apply NoDup_Permutation; [apply NoDup_fst_map_to_list|apply NoDup_remove_dups|].
      intros date. rewrite elem_of_remove_dups. split.
      - intros Hin. apply list_elem_of_fmap in Hin as ([d items] & -> & Hin).
        apply elem_of_map_to_list in Hin. apply Hgroup in Hin as [-> Hne]. cbn.
        destruct (filter _ (owf_List response)) as [|item l] eqn:E; [done|].
        assert (Hitem : item ∈ filter (fun item => format_date (item_Dt item) = d)
                                      (owf_List response)).
        { rewrite E. apply elem_of_cons. by left. }
        apply list_elem_of_filter in Hitem as [Hd Hin].
        apply list_elem_of_fmap. by exists item.
      - intros Hin. apply list_elem_of_fmap in Hin as (item & -> & Hin).
        apply list_elem_of_fmap.
        set (d := format_date (item_Dt item)).
        exists (d, filter (fun item => format_date (item_Dt item) = d) (owf_List response)).
        split; [done|]. apply elem_of_map_to_list. apply Hgroup. split; [done|].
        intros Hnil.
        assert (Hitem : item ∈ filter (fun item => format_date (item_Dt item) = d)
                                      (owf_List response)).
        { apply list_elem_of_filter. by split. }
        rewrite Hnil in Hitem. by apply elem_of_nil in Hitem. }
    eexists _, chosen. split; [reflexivity|]. cbn [wf_City wf_Source wf_Forecast].
    split; [done|]. split; [done|]. split.
    { rewrite openweather_loop_take. cbn [length app]. by rewrite Z.sub_0_r. }
    split.
    { unfold chosen. rewrite length_take, order_perm.
      rewrite <- (length_fmap fst (map_to_list forecastByDay)). by rewrite Hkeys. }
    split.
    { unfold chosen. rewrite fmap_take.
      eapply sublist_NoDup; [|apply sublist_take].
      rewrite order_perm. apply NoDup_fst_map_to_list. }
    intros date items Hin.
    assert (Hm : forecastByDay !! date = Some items).
    { apply elem_of_map_to_list. rewrite <- order_perm.
      unfold chosen in Hin. by apply elem_of_take in Hin as (i & Hi & _);
        apply list_elem_of_lookup_2 in Hi. }
    apply Hgroup in Hm as [Hitems Hne]. split; [exact Hitems|]. split; [exact Hne|].
    cbv zeta. unfold openweather_day. cbn [fst snd fd_Date fd_AvgTemp fd_Precipitation
      fd_MaxTemp fd_MinTemp].
    destruct (item_loop items item_acc_init) as (Ht & Hmx & Hmn & Hall & Hamx & Hamn).
    cbv zeta in *. cbn [item_acc_init acc_totalTemp acc_maxTemp acc_minTemp] in *.
    split; [done|]. split.
    { unfold mean. rewrite Ht. unfold temps_of. rewrite length_fmap.
      by rewrite Qplus_0_l. }
    split; [done|]. split; [exact Hall|]. split; [exact Hmx|]. split; [exact Hmn|]. split.
    + intros (item & Hitem & Hwarm). destruct Hamx as [Heq|Hex]; [|exact Hex].
      exfalso. destruct (Hall item Hitem) as [Hle _]. rewrite Heq in Hle. lra.
    + intros (item & Hitem & Hcold). destruct Hamn as [Heq|Hex]; [|exact Hex].
      exfalso. destruct (Hall item Hitem) as [_ Hle]. rewrite Heq in Hle. lra.
Qed.

End OpenWeatherFacts.

(** Asked for one day, the adapter may return the later of two dates. *)
Example OpenWeather_GetForecast_unordered :
  exists fc,
    OpenWeather_GetForecast (fun _ => inl []) (fun _ => inl sample_openweather)
      sample_format_date (fun s => if String.eqb s "day 0" then 0 else 86400)
      (fun entries => entries) "https://api.openweathermap.org/data/2.5" "key" "Prague" 1
    = Done (Some fc, None) /\
    fd_Date <$> wf_Forecast fc = [86400].
Proof. eexists. split; vm_compute; reflexivity. Qed.

Lemma OpenWeather_GetCurrentWeather_spec_witness :
  exists weather,
    OpenWeather_GetCurrentWeather (fun _ => inl [])
      (fun _ => inl {| owc_Weather := [{| condition_Description := "mist";
                                          condition_Icon := "50d" |}];
                       owc_Temp := 5%Q; owc_FeelsLike := 3%Q; owc_Pressure := 1000%Q;
                       owc_Humidity := 90%Q; owc_WindSpeed := 2%Q; owc_WindDeg := 180%Q;
                       owc_Dt := 1700000000; owc_Name := "Praha"; owc_Cod := 200 |})
      (fun dt => dt) "https://api.openweathermap.org/data/2.5" "key" "Prague"
    = Done (Some weather, None) /\
    cw_City weather = "Praha" /\ cw_Source weather = "openweathermap".
Proof.
  destruct (OpenWeather_GetCurrentWeather_spec (fun _ => inl [])
              (fun _ => inl {| owc_Weather := [{| condition_Description := "mist";
                                                  condition_Icon := "50d" |}];
                               owc_Temp := 5%Q; owc_FeelsLike := 3%Q; owc_Pressure := 1000%Q;
                               owc_Humidity := 90%Q; owc_WindSpeed := 2%Q;
                               owc_WindDeg := 180%Q;
                               owc_Dt := 1700000000; owc_Name := "Praha"; owc_Cod := 200 |})
              (fun dt => dt) "https://api.openweathermap.org/data/2.5" "key" "Prague"
              [] _ eq_refl eq_refl) as (_ & _ & Hok).
  destruct (Hok eq_refl _ _ eq_refl) as (weather & Hrun & Hcity & Hsrc & _).
  exists weather. split; [exact Hrun|]. split; [exact Hcity|exact Hsrc].
Defined.

Lemma OpenWeather_GetForecast_spec_witness :
  (forall l : list (string * list OpenWeatherItem), reverse l ≡ₚ l) /\
  0 <= 1 /\
  exists fc,
    OpenWeather_GetForecast (fun _ => inl []) (fun _ => inl sample_openweather)
      sample_format_date (fun _ => 0) reverse
      "https://api.openweathermap.org/data/2.5" "key" "Prague" 1
    = Done (Some fc, None) /\
    length (wf_Forecast fc) = 1%nat.
Proof.
  assert (Hperm : forall l : list (string * list OpenWeatherItem), reverse l ≡ₚ l).
  { intros l. apply reverse_Permutation. }
  assert (Hdays : 0 <= 1) by lia.
  split; [exact Hperm|]. split; [exact Hdays|].
  destruct (OpenWeather_GetForecast_spec (fun _ => inl []) (fun _ => inl sample_openweather)
              sample_format_date (fun _ => 0) reverse
              "https://api.openweathermap.org/data/2.5" "key" Hperm "Prague" 1
              [] sample_openweather eq_refl eq_refl) as (_ & _ & Hok).
  destruct (Hok eq_refl Hdays) as (fc & chosen & Hrun & _ & _ & Hfc & Hlen & _).
  exists fc. split; [exact Hrun|]. rewrite Hfc, length_fmap, Hlen. reflexivity.
Defined.

(** * The scheduler *)


Section SchedulerFacts.

Variable clock : nat -> Time.
Variable arrival : list APIResponse -> list APIResponse.

(** The channel delivers every response once, in some order; the clock
    never goes back and never shows Go's zero [Time]. *)
Hypothesis arrival_perm : forall l, arrival l ≡ₚ l.
Hypothesis clock_mono : forall n m, (n <= m)%nat -> clock n <= clock m.
Hypothesis clock_set : forall n, clock n <> zeroTime.






End SchedulerFacts.


Example scheduler_skips_forced_runs :
  exists s' w',
    scheduler_run slow_clock sample_arrival (NewScheduler ["Prague"] 900000)
      [Forced; Ticker; Forced] world_all_fail
    = Done ((s', [1400]), w').
Proof. eexists _, _. vm_compute. reflexivity. Qed.

(** * The labels of a merged forecast day *)

Lemma day_loop_labels (i : nat) (allForecasts : list (list ForecastDay)) (acc : day_acc) :
  let r := fold_left (day_step i) allForecasts acc in
  let ds := omap (fun f : list ForecastDay => f !! i) allForecasts in
  dayDescriptions r = dayDescriptions acc ++ (fd_Description <$> ds) /\
  date r = default (date acc) (fd_Date <$> last ds).
Proof.
  cbv zeta. revert acc. induction allForecasts as [|f allForecasts IH]; intros acc.
  - cbn. by rewrite app_nil_r.
  - cbn [fold_left omap list_omap]. unfold day_step at 2 4.
    destruct (f !! i) as [d|] eqn:E; [|apply IH].
    destruct (IH {| totalMaxTemp := (totalMaxTemp acc + fd_MaxTemp d)%Q;
                    totalMinTemp := (totalMinTemp acc + fd_MinTemp d)%Q;
                    totalAvgTemp := (totalAvgTemp acc + fd_AvgTemp d)%Q;
                    dayTotalHumidity := (dayTotalHumidity acc + fd_Humidity d)%Q;
                    totalPrecipitation := (totalPrecipitation acc + fd_Precipitation d)%Q;
                    dayDescriptions := dayDescriptions acc ++ [fd_Description d];
                    date := fd_Date d;
                    dayCount := S (dayCount acc) |}) as [Hd Ht].
    cbn [dayDescriptions date] in Hd, Ht. split.
    + rewrite Hd. cbn [fmap list_fmap]. by rewrite <- app_assoc.
    + rewrite Ht. destruct (omap (fun f0 : list ForecastDay => f0 !! i) allForecasts)
        as [|d' ds']; try reflexivity. rewrite last_cons_cons.
      destruct (last (d' :: ds')) eqn:El; [done|]. by apply last_None in El.
Qed.

(** X26. The labels of a merged forecast day, for a day-count [days >= 0]
    that some provider can serve: day [i] of the result takes its icon
    from the first, and its date from the last, of the providers merged
    (in the order in which Go ranges over the map of the providers), and
    its description is the most common description among them; the result
    carries the city of the snapshot and the instant of the call. *)
Theorem aggregateForecast_labels (data : WeatherData) (days : Z) (now : Time) :
  0 <= days ->
  contributors data days <> [] ->
  exists r,
    aggregateForecast data days now = Done (Some r) /\
    af_City r = wd_City data /\
    af_LastUpdated r = now /\
    forall i, (i < Z.to_nat days)%nat ->
      exists d first final,
        af_Days r !! i = Some d /\
        head (day_entries i (contributors data days)) = Some first /\
        last (day_entries i (contributors data days)) = Some final /\
        fd_Icon d = fd_Icon first /\
        fd_Date d = fd_Date final /\
        fd_Description d
        = mostCommonString (fd_Description <$> day_entries i (contributors data days)).
Proof.
  intros Hdays Hcs. unfold aggregateForecast, aggregateForecast_entries.
  unfold contributors in *.
  set (l := map_to_list (wd_Forecasts data)) in *.
  set (cs := filter (enough_entries days) l) in *.
  destruct (Nat.eqb_spec (length l) 0) as [Hnil|Hnonnil].
  { apply length_zero_iff_nil in Hnil. exfalso. apply Hcs. unfold cs.
    by rewrite Hnil, filter_nil. }
  rewrite collect_loop by done. cbn [exec_bind app]. fold cs.
  destruct (Nat.eqb_spec (length ((fun e => take (Z.to_nat days) (wf_Forecast e.2)) <$> cs)) 0)
    as [Hz|Hnz]; rewrite length_fmap in *.
  { by apply length_zero_iff_nil in Hz. }
  destruct (Z.ltb_spec days 0) as [|_]; [lia|].
  eexists. split; [reflexivity|]. cbn [af_City af_LastUpdated af_Days].
  split; [done|]. split; [done|].
  set (all := (fun e => take (Z.to_nat days) (wf_Forecast e.2)) <$> cs).
  pose proof (days_loop all (replicate (Z.to_nat days) zeroForecastDay) (Z.to_nat days))
    as [Hlen Hlook].
  rewrite length_replicate in Hlen, Hlook.
  intros i Hi. rewrite (Hlook i Hi). destruct (decide (i < Z.to_nat days)%nat); [|lia].
  pose proof (day_loop i all day_acc_init) as (_ & _ & _ & _ & _ & H6).
  pose proof (day_loop_labels i all day_acc_init) as (Hdesc & Hdate).
  cbv zeta in *. unfold all in H6, Hdesc, Hdate.
  rewrite (day_entries_take i (Z.to_nat days) cs Hi) in H6, Hdesc, Hdate.
  fold all in H6, Hdesc, Hdate.
  pose proof (day_entries_length i days l Hi) as Hl. fold cs in Hl.
  set (acc := fold_left (day_step i) all day_acc_init) in *.
  destruct (Nat.eqb_spec (dayCount acc) 0) as [Hc|_].
  { rewrite H6, Hl in Hc. cbn in Hc. lia. }
  assert (Hentries : day_entries i cs <> []).
  { intros Hn. rewrite Hn in Hl. cbn in Hl. lia. }
  destruct (day_entries i cs) as [|first rest] eqn:Hde; [done|].
  assert (Hlast : is_Some (last (first :: rest))).
  { destruct (last (first :: rest)) eqn:E; [done|]. by apply last_None in E. }
  destruct Hlast as [final Hfinal].
  exists (merged_day all i acc), first, final. split; [done|]. split; [done|].
  split; [done|]. unfold merged_day. cbn [fd_Icon fd_Date fd_Description]. split; [|split].
  - assert (Hall : forall e, e ∈ cs -> is_Some (wf_Forecast e.2 !! i)).
    { intros e He. unfold cs in He. apply list_elem_of_filter in He as [Hen _].
      unfold enough_entries in Hen. apply lookup_lt_is_Some. lia. }
    unfold all. destruct cs as [|e cs']; [done|]. cbn [fmap list_fmap].
    unfold day_entries in Hde. cbn [omap list_omap] in Hde.
    rewrite lookup_take_lt by done.
    destruct (Hall e) as [x Hx]; [apply elem_of_cons; by left|].
    rewrite Hx in Hde |- *. cbn in Hde |- *. by injection Hde as -> _.
  - rewrite Hdate, Hfinal. done.
  - rewrite Hdesc. done.
Qed.

Lemma aggregateForecast_labels_witness :
  0 <= 2 /\
  contributors snapshot_forecasts 2 <> [] /\
  exists r d,
    aggregateForecast snapshot_forecasts 2 5000 = Done (Some r) /\
    af_LastUpdated r = 5000 /\
    af_Days r !! 1%nat = Some d /\
    fd_Date d = 200 /\ fd_Icon d = "02d" /\ fd_Description d = "Overcast".
Proof.
  assert (Hd : 0 <= 2) by lia.
  assert (Hcs : contributors snapshot_forecasts 2 <> []) by (vm_compute; discriminate).
  split; [exact Hd|]. split; [exact Hcs|].
  destruct (aggregateForecast_labels snapshot_forecasts 2 5000 Hd Hcs)
    as (r & Hrun & _ & Hnow & Hdays).
  destruct (Hdays 1%nat) as (d & first & final & Hday & Hfirst & Hfinal & Hicon & Hdate & Hdesc);
    [vm_compute; lia|].
  exists r, d. split; [exact Hrun|]. split; [exact Hnow|]. split; [exact Hday|].
  vm_compute in Hfirst, Hfinal, Hdesc.
  injection Hfirst as <-. injection Hfinal as <-.
  split; [exact Hdate|]. split; [exact Hicon|exact Hdesc].
Defined.

(** * Building the aggregator *)

(** X27. [NewAggregator] never fails: the Open-Meteo client is always
    configured, after the OpenWeatherMap client when an API key is set, so
    the error "no weather clients initialized" cannot be returned.  The
    aggregator starts with an empty cache of the configured duration and
    size and with counters at zero.  The configured circuit-breaker
    threshold has no effect on the aggregator built: every client trips
    its breaker after at least 3 requests of which at least 60 percent
    failed. *)
Theorem NewAggregator_never_fails
    (connect : ClientType -> BaseClient -> string -> WeatherClient) (cfg : Config) :
  (forall t b k, client_type (connect t b k) = t) ->
  exists a,
    NewAggregator connect cfg = (Some a, None) /\
    client_type <$> clients a
    = (if String.eqb (cfg_OpenWeatherAPIKey cfg) ""
       then [OpenMeteoClient] else [OpenWeatherClient; OpenMeteoClient]) /\
    cache a = NewWeatherCache (cfg_CacheDuration cfg) (cfg_CacheMaxSize cfg) /\
    successCount a = 0 /\ failureCount a = 0 /\
    lastFetchTime a = zeroTime /\ weatherData a = ∅ /\
    (forall threshold,
       NewAggregator connect (with_Threshold cfg threshold) = NewAggregator connect cfg) /\
    (forall name config counts,
       breaker_ReadyToTrip (circuitBreaker (NewBaseClient name config)) counts = true <->
       3 <= Requests counts /\ 3 * Requests counts <= 5 * TotalFailures counts).
Proof.
  intros Htype. unfold NewAggregator. cbv zeta.
  assert (Hlen : forall l (c : WeatherClient), (length (l ++ [c]) =? 0)%nat = false).
  { intros l c. rewrite length_app. cbn. apply Nat.eqb_neq. lia. }
  rewrite Hlen. eexists. split; [reflexivity|]. cbn [clients cache successCount failureCount
    lastFetchTime weatherData]. split.
  { destruct (String.eqb (cfg_OpenWeatherAPIKey cfg) ""); cbn [negb app fmap list_fmap];
      unfold NewOpenWeatherClient, NewOpenMeteoClient; by rewrite !Htype. }
  do 5 (split; [reflexivity|]). split.
  - intros threshold. cbn [with_Threshold cfg_OpenWeatherAPIKey cfg_CacheDuration
      cfg_CacheMaxSize cfg_Threshold cfg_BreakerTimeout cfg_MaxRetries cfg_RetryDelay
      cfg_RetryMultiplier]. rewrite !Hlen. reflexivity.
  - intros name config counts. cbn [NewBaseClient circuitBreaker breaker_ReadyToTrip].
    rewrite ReadyToTrip_spec. unfold Qle. cbn [Qnum Qden Qmult inject_Z].
    split; intros [H3 Hr]; (split; [exact H3|lia]).
Qed.

Lemma NewAggregator_never_fails_witness :
  (forall t (b : BaseClient) (k : string), client_type (failing_client t) = t) /\
  exists a,
    NewAggregator (fun t _ _ => failing_client t) default_config = (Some a, None) /\
    client_type <$> clients a = [OpenMeteoClient].
Proof.
  assert (H : forall t (b : BaseClient) (k : string), client_type (failing_client t) = t)
    by reflexivity.
  split; [exact H|].
  destruct (NewAggregator_never_fails (fun t _ _ => failing_client t) default_config H)
    as (a & Hrun & Hclients & _).
  exists a. split; [exact Hrun|exact Hclients].
Defined.

(** * The handlers *)

Section HandlerFacts.

Variable clock : nat -> Time.
Variable arrival : list APIResponse -> list APIResponse.
Variable Atoi : string -> option Z.


(** The channel delivers every response once, in some order. *)
Hypothesis arrival_perm : forall l, arrival l ≡ₚ l.



End HandlerFacts.


Example Handler_GetForecast_five_days :
  exists w',
    Handler_GetForecast sample_clock sample_arrival sample_Atoi "Prague" "5" world_one_of_three
    = Done (JSON_error StatusInternalServerError "Failed to fetch forecast data"
              (Some (Errorf "forecast data not available for %s" [AStr "Prague"])), w').
Proof. eexists. vm_compute. reflexivity. Qed.

(** * The capacity of the whole cache *)

Lemma forecast_entries_cons (e : string * gmap Z CacheItem)
    (l : list (string * gmap Z CacheItem)) :
  length (forecast_entries (e :: l)) = (size (snd e) + length (forecast_entries l))%nat.
Proof.
  unfold forecast_entries. cbn [mbind list_bind].
  by rewrite length_app, length_fmap, length_map_to_list.
Qed.

Lemma forecast_entries_perm (l l' : list (string * gmap Z CacheItem)) :
  l ≡ₚ l' -> length (forecast_entries l) = length (forecast_entries l').
Proof.
  induction 1 as [|e l l' _ IH|e e' l|l l' l'' _ IH _ IH']; [done| | |congruence].
  - rewrite !forecast_entries_cons. lia.
  - rewrite !forecast_entries_cons. lia.
Qed.

Lemma forecast_entries_submseteq (l l' : list (string * gmap Z CacheItem)) :
  l ⊆+ l' -> (length (forecast_entries l) <= length (forecast_entries l'))%nat.
Proof.
  induction 1 as [|e l l' _ IH|e e' l|e l l' _ IH|l l' l'' _ IH _ IH']; [done| | | |lia].
  - rewrite !forecast_entries_cons. lia.
  - rewrite !forecast_entries_cons. lia.
  - rewrite forecast_entries_cons. lia.
Qed.

Lemma forecast_entries_shrunk (f : gmap Z CacheItem -> gmap Z CacheItem)
    (l : list (string * gmap Z CacheItem)) :
  (forall inner, (size (f inner) <= size inner)%nat) ->
  (length (forecast_entries (prod_map id f <$> l)) <= length (forecast_entries l))%nat.
Proof.
  intros Hf. induction l as [|[k inner] l IH]; [done|].
  cbn [fmap list_fmap prod_map]. rewrite !forecast_entries_cons. cbn [snd].
  specialize (Hf inner). lia.
Qed.

Lemma forecast_count_insert (m : gmap string (gmap Z CacheItem)) (k : string)
    (v : gmap Z CacheItem) :
  (forecast_count (<[k := v]> m) + size (default ∅ (m !! k)) = size v + forecast_count m)%nat.
Proof.
  unfold forecast_count.
  assert (Hins : length (forecast_entries (map_to_list (<[k := v]> m)))
                 = (size v + length (forecast_entries (map_to_list (delete k m))))%nat).
  { rewrite <- insert_delete_eq.
    rewrite (forecast_entries_perm _ _
               (map_to_list_insert (delete k m) k v (lookup_delete_eq m k))).
    by rewrite forecast_entries_cons. }
  rewrite Hins. destruct (m !! k) as [old|] eqn:E; cbn [default]; unfold id.
  - rewrite <- (forecast_entries_perm _ _ (map_to_list_delete m k old E)).
    rewrite forecast_entries_cons. cbn [snd]. lia.
  - rewrite (delete_id m k E), map_size_empty. lia.
Qed.

Lemma totalItems_count (c : WeatherCache) :
  totalItems c = (size (currentWeather c) + forecast_count (forecast c))%nat.
Proof.
  unfold totalItems, forecast_count. generalize (size (currentWeather c)).
  induction (map_to_list (forecast c)) as [|e l IH]; intros n.
  - cbn. lia.
  - cbn [fold_left]. rewrite IH, forecast_entries_cons. lia.
Qed.

Lemma delete_forecast_count (m : gmap string (gmap Z CacheItem)) (city : string) (days : Z) :
  (forecast_count (delete_forecast city days m) <= forecast_count m)%nat /\
  (is_Some (m !! city ≫= (fun inner => inner !! days)) ->
   S (forecast_count (delete_forecast city days m)) = forecast_count m) /\
  (m !! "" = None -> delete_forecast city days m !! "" = None).
Proof.
  unfold delete_forecast. destruct (m !! city) as [inner|] eqn:E.
  - pose proof (forecast_count_insert m city (delete days inner)) as Hc.
    rewrite E in Hc. cbn [default] in Hc. unfold id in Hc.
    pose proof (size_delete_le days inner) as Hle.
    split; [lia|]. split.
    + cbn. intros Hs. rewrite (map_size_delete_Some days inner Hs) in Hc.
      assert (size inner <> 0%nat).
      { intros H0. apply map_size_empty_inv in H0. subst inner.
        rewrite lookup_empty in Hs. by destruct Hs. }
      lia.
    + intros Hnone. rewrite lookup_insert_ne; [done|]. intros ->. congruence.
  - split; [done|]. split; [|done]. cbn. by intros [? ?].
Qed.

(** [SetForecast] keeps the number of forecasts within the larger of 1 and
    the maximum size. *)
Lemma SetForecast_count (c : WeatherCache) (city : string) (days : Z)
    (fc : option AggregatedForecast) (now : Time) :
  city <> "" -> forecast c !! "" = None ->
  Z.of_nat (forecast_count (forecast c)) <= Z.max 1 (maxSize c) ->
  Z.of_nat (forecast_count (forecast (SetForecast c city days fc now)))
  <= Z.max 1 (maxSize c) /\
  forecast (SetForecast c city days fc now) !! "" = None.
Proof.
  intros Hcity Hempty Hcount. unfold SetForecast.
  set (c1 := match forecast c !! city with
             | Some _ => c
             | None => set_forecast c (<[city:=∅]> (forecast c))
             end).
  assert (H1 : forecast_count (forecast c1) = forecast_count (forecast c) /\
               forecast c1 !! "" = None /\ maxSize c1 = maxSize c /\
               is_Some (forecast c1 !! city)).
  { unfold c1. destruct (forecast c !! city) as [inner|] eqn:E; [by rewrite E|].
    cbn [forecast maxSize set_forecast].
    pose proof (forecast_count_insert (forecast c) city ∅) as Hc.
    rewrite E in Hc. cbn [default] in Hc. unfold id in Hc. rewrite map_size_empty in Hc.
    split; [lia|]. split; [by rewrite lookup_insert_ne|]. split; [done|].
    by rewrite lookup_insert_eq. }
  destruct H1 as (Hc1 & He1 & Hm1 & Hs1).
  set (c2 := if Z.of_nat (totalItems c1) >=? maxSize c1 then evictOldestForecast c1 else c1).
  assert (H2 : Z.of_nat (forecast_count (forecast c2)) + 1 <= Z.max 1 (maxSize c) \/
               forecast_count (forecast c2) = 0%nat).
  { unfold c2. destruct (Z.of_nat (totalItems c1) >=? maxSize c1) eqn:E;
      rewrite Z.geb_leb in E.
    - destruct (evictOldestForecast_earliest c1 He1)
        as [[Hnil ->]|(k & d & item & Hs & -> & _)].
      + right. unfold forecast_count. by rewrite Hnil.
      + left. cbn [forecast set_forecast].
        destruct (delete_forecast_count (forecast c1) k d) as (_ & Hdec & _).
        unfold stored_forecast in Hs. rewrite Hs in Hdec.
        specialize (Hdec (mk_is_Some _ _ eq_refl)). lia.
    - apply Z.leb_gt in E. left. rewrite totalItems_count in E. lia. }
  assert (He2 : forecast c2 !! "" = None).
  { unfold c2. destruct (_ >=? _); [|done].
    destruct (evictOldestForecast_earliest c1 He1)
      as [[_ ->]|(k & d & item & _ & -> & _)]; [done|].
    cbn [forecast set_forecast]. by apply delete_forecast_count. }
  cbn [forecast set_forecast]. split; [|by rewrite lookup_insert_ne].
  set (item := {| Data := ForecastData fc; ExpiresAt := Add now (defaultDuration c2) |}).
  pose proof (forecast_count_insert (forecast c2) city
                (<[days := item]> (default ∅ (forecast c2 !! city)))) as Hc.
  pose proof (size_insert_le days item (default ∅ (forecast c2 !! city))) as Hle.
  destruct H2 as [H2|H2]; lia.
Qed.

Lemma GetForecast_shrinks (c : WeatherCache) (city : string) (days : Z) (now : Time) :
  currentWeather (snd (GetForecast c city days now)) = currentWeather c /\
  maxSize (snd (GetForecast c city days now)) = maxSize c /\
  (forecast_count (forecast (snd (GetForecast c city days now)))
   <= forecast_count (forecast c))%nat /\
  (forecast c !! "" = None -> forecast (snd (GetForecast c city days now)) !! "" = None).
Proof.
  unfold GetForecast. destruct (forecast c !! city) as [inner|]; [|done].
  destruct (inner !! days) as [item|]; [|done].
  destruct (After now (ExpiresAt item)); [|by destruct (Data item)].
  cbn [snd currentWeather maxSize forecast set_forecast].
  destruct (delete_forecast_count (forecast c) city days) as (Hle & _ & Hnone).
  done.
Qed.

Lemma cleanup_shrinks (c : WeatherCache) (now : Time) :
  currentWeather (cleanup c now) ⊆ currentWeather c /\
  maxSize (cleanup c now) = maxSize c /\
  (forecast_count (forecast (cleanup c now)) <= forecast_count (forecast c))%nat /\
  (forecast c !! "" = None -> forecast (cleanup c now) !! "" = None).
Proof.
  unfold cleanup. cbn [currentWeather maxSize forecast].
  split; [apply map_filter_subseteq|]. split; [done|]. split.
  - unfold forecast_count.
    etrans; [apply forecast_entries_submseteq, map_to_list_submseteq, map_filter_subseteq|].
    rewrite map_to_list_fmap. apply forecast_entries_shrunk.
    intros inner. apply map_subseteq_size, map_filter_subseteq.
  - intros Hnone. apply map_lookup_filter_None. left. by rewrite lookup_fmap, Hnone.
Qed.

(** X29. Starting from a new cache, after any sequence of writes (for
    non-empty city names), reads and sweeps of both stores, in any order,
    each store holds at most [maxSize] items (at most one when [maxSize] is
    below one): the whole cache can hold up to twice its maximum size, and
    never more. *)
Theorem cache_holds_at_most_twice_maxSize (duration : Duration) (size_limit : Z)
    (ops : list cache_op) :
  (forall op, op ∈ ops -> op_city op <> Some "") ->
  let c := fold_left apply_cache_op ops (NewWeatherCache duration size_limit) in
  Z.of_nat (size (currentWeather c)) <= Z.max 1 size_limit /\
  Z.of_nat (forecast_count (forecast c)) <= Z.max 1 size_limit /\
  Z.of_nat (totalItems c) <= 2 * Z.max 1 size_limit.
Proof.
  intros Hops. cbv zeta.
  assert (Hinv : forall c,
            maxSize c = size_limit ->
            currentWeather c !! "" = None -> forecast c !! "" = None ->
            Z.of_nat (size (currentWeather c)) <= Z.max 1 size_limit ->
            Z.of_nat (forecast_count (forecast c)) <= Z.max 1 size_limit ->
            Z.of_nat (size (currentWeather (fold_left apply_cache_op ops c)))
            <= Z.max 1 size_limit /\
            Z.of_nat (forecast_count (forecast (fold_left apply_cache_op ops c)))
            <= Z.max 1 size_limit).
  { induction ops as [|op ops IH]; intros c Hmax Hcur Hfc Hsize Hcount; [done|].
    cbn [fold_left].
    assert (Hrest : forall op', op' ∈ ops -> op_city op' <> Some "").
    { intros op' Hin. apply Hops. by apply elem_of_cons; right. }
    assert (Hop : op_city op <> Some "").
    { apply Hops. by apply elem_of_cons; left. }
    destruct op as [city weather now|city days fc now|city now|city days now|now];
      cbn [apply_cache_op].
    - assert (Hcity : city <> "") by (intros ->; by apply Hop).
      rewrite <- Hmax in Hsize.
      destruct (SetCurrentWeather_bounded c city weather now Hcity Hcur Hsize)
        as (H1 & H2 & H3).
      apply (IH Hrest); rewrite ?SetCurrentWeather_forecast; try done; [congruence|].
      by rewrite <- Hmax.
    - assert (Hcity : city <> "") by (intros ->; by apply Hop).
      rewrite <- Hmax in Hcount.
      destruct (SetForecast_count c city days fc now Hcity Hfc Hcount) as (H1 & H2).
      destruct (SetForecast_currentWeather c city days fc now) as (E1 & _ & E3).
      apply (IH Hrest); rewrite ?E1; try done; [congruence|]. by rewrite <- Hmax.
    - destruct (GetCurrentWeather_shrinks c city now) as (Hsub & Hm).
      assert (Hf : forecast (snd (GetCurrentWeather c city now)) = forecast c).
      { unfold GetCurrentWeather. destruct (currentWeather c !! city) as [item|]; [|done].
        destruct (After now (ExpiresAt item)); [done|]. by destruct (Data item). }
      apply (IH Hrest); rewrite ?Hf; try done; [congruence| |].
      + eapply lookup_weaken_None; [exact Hcur|exact Hsub].
      + apply map_subseteq_size in Hsub. lia.
    - destruct (GetForecast_shrinks c city days now) as (E1 & E3 & Hle & Hnone).
      apply (IH Hrest); rewrite ?E1; try done; [congruence|by apply Hnone|lia].
    - rewrite cleanup_loops_cleanup.
      destruct (cleanup_shrinks c now) as (Hsub & E3 & Hle & Hnone).
      apply (IH Hrest); [congruence| |by apply Hnone| |lia].
      + eapply lookup_weaken_None; [exact Hcur|exact Hsub].
      + apply map_subseteq_size in Hsub. lia. }
  destruct (Hinv (NewWeatherCache duration size_limit)) as [H1 H2]; try done.
  { cbn. rewrite map_size_empty. lia. }
  { cbn. unfold forecast_count. rewrite map_to_list_empty. cbn. lia. }
  split; [exact H1|]. split; [exact H2|]. rewrite totalItems_count. lia.
Qed.

Lemma cache_holds_at_most_twice_maxSize_witness :
  (forall op, op ∈ sample_cache_ops -> op_city op <> Some "") /\
  Z.of_nat (totalItems (fold_left apply_cache_op sample_cache_ops (NewWeatherCache 600 1)))
  <= 2 * Z.max 1 1.
Proof.
  assert (H : forall op, op ∈ sample_cache_ops -> op_city op <> Some "").
  { intros op Hin. unfold sample_cache_ops in Hin.
    repeat (apply elem_of_cons in Hin as [->|Hin]; [discriminate|]).
    by apply elem_of_nil in Hin. }
  split; [exact H|].
  exact (proj2 (proj2 (cache_holds_at_most_twice_maxSize 600 1 sample_cache_ops H))).
Defined.

Example cache_reaches_twice_maxSize :
  totalItems (fold_left apply_cache_op sample_cache_ops (NewWeatherCache 600 1)) = 2%nat.
Proof. vm_compute. reflexivity. Qed.

(** * The current-weather handler *)


Section HandlerCurrent.

Variable clock : nat -> Time.
Variable arrival : list APIResponse -> list APIResponse.






End HandlerCurrent.

